(** * PictureAnnotator: the annotation session engine

    A shallow embedding of [picture_annotator/gui/store.py] (load, save,
    add_box, delete_box, _clamp_bbox), of the corner-handle constraint of
    [picture_annotator/gui/canvas.py] and of the selection handlers of
    [picture_annotator/gui/main_window.py].

    Numbers.  Python's [int] is [Z].  Python's [float] is idealised as an
    exact rational ([Q]): binary64 rounding, NaN, the infinities and the
    overflow of [float(n)] on a huge [int] are not modelled, and two floats
    are the same number when they are [Qeq].  Every comparison the source
    performs on floats ([<], [>=], [!=]) is a numeric one, so it is
    embedded with [Qle_bool] and [Qeq_bool].

    JSON.  What [json.loads] returns is a value of [json]; a Python [dict]
    is an association list in insertion order, read with a first-match
    lookup and written with an update in place (or an append for a new key),
    as Python does. *)

From Stdlib Require Import ZArith QArith Qminmax Lqa Lia.
From Stdlib Require Import List String Bool.
From Stdlib Require Strings.Byte.
From Stdlib Require Import Permutation Sorted.
Import ListNotations.

Local Open Scope string_scope.
Local Open Scope list_scope.
Local Open Scope Q_scope.

(* ------------------------------------------------------------------ *)
(** ** Python numbers *)

Definition Qlt_bool (a b : Q) : bool := negb (Qle_bool b a).

(** [max(a, b)] keeps [a] unless [b > a]; [min(a, b)] keeps [a] unless
    [b < a] (the builtin scans left to right with a strict test). *)
Definition py_max (a b : Q) : Q := if Qlt_bool a b then b else a.
Definition py_min (a b : Q) : Q := if Qlt_bool b a then b else a.

(** store.py / canvas.py: [_clamp(value, low, high)]. *)
Definition _clamp (value low high : Q) : Q := py_max low (py_min value high).

(** [float(n)] for an [int] [n]. *)
Definition float_of_int (n : Z) : Q := inject_Z n.

(* ------------------------------------------------------------------ *)
(** ** Bounding boxes and the shared clamp *)

Record bbox4 : Type := BBox4 { bx_min : Q; by_min : Q; bx_max : Q; by_max : Q }.

(** Numeric equality of two 4-tuples of floats (Python's tuple [==]). *)
Definition bbox_eqb (a b : bbox4) : bool :=
  Qeq_bool (bx_min a) (bx_min b) && Qeq_bool (by_min a) (by_min b) &&
  Qeq_bool (bx_max a) (bx_max b) && Qeq_bool (by_max a) (by_max b).

Definition bbox_eq (a b : bbox4) : Prop :=
  bx_min a == bx_min b /\ by_min a == by_min b /\
  bx_max a == bx_max b /\ by_max a == by_max b.

(** One axis of [AnnotationStore._clamp_bbox]: the two [_clamp] calls and
    the minimum-size repair, for a coordinate pair [(lo, hi)] and an image
    extent [w] already converted to float. *)
Definition clamp_axis (lo hi w : Q) : Q * Q :=
  let lo1 := _clamp lo 0 (py_max (w - 1) 0) in
  let hi1 := _clamp hi (py_min 1 w) w in
  if Qlt_bool (hi1 - lo1) 1 then
    let hi2 := py_min w (lo1 + 1) in
    let lo2 := py_max 0 (hi2 - 1) in
    (lo2, hi2)
  else (lo1, hi1).

(** store.py: [AnnotationStore._clamp_bbox(bbox, width=, height=)]. *)
Definition _clamp_bbox (b : bbox4) (width height : Z) : bbox4 :=
  let w := float_of_int width in
  let h := float_of_int height in
  let '(xmin, xmax) := clamp_axis (bx_min b) (bx_max b) w in
  let '(ymin, ymax) := clamp_axis (by_min b) (by_max b) h in
  BBox4 xmin ymin xmax ymax.

(** The invariant of section 3 of the specification for one box. *)
Definition in_bounds (b : bbox4) (width height : Z) : Prop :=
  0 <= bx_min b /\ 0 <= by_min b /\
  bx_max b <= inject_Z width /\ by_max b <= inject_Z height /\
  1 <= bx_max b - bx_min b /\ 1 <= by_max b - by_min b.

(** The stronger form used by the load property: strict ordering too. *)
Definition strictly_in_bounds (b : bbox4) (width height : Z) : Prop :=
  0 <= bx_min b /\ bx_min b < bx_max b /\ bx_max b <= inject_Z width /\
  0 <= by_min b /\ by_min b < by_max b /\ by_max b <= inject_Z height /\
  1 <= bx_max b - bx_min b /\ 1 <= by_max b - by_min b.

(* ------------------------------------------------------------------ *)
(** ** JSON values and Python dictionaries *)

Scheme All for list.
Scheme All for prod.

Inductive json : Type :=
| JNull
| JBool (b : bool)
| JInt (z : Z)
| JFloat (q : Q)
| JStr (s : string)
| JList (l : list json)
| JDict (d : list (string * json)).

Definition pydict : Type := list (string * json).

(** [d.get(k)]: [None] when the key is absent. *)
Fixpoint dict_get (k : string) (d : pydict) : option json :=
  match d with
  | [] => None
  | (k', v) :: rest => if String.eqb k k' then Some v else dict_get k rest
  end.

(** [d[k] = v]: overwrite in place, or append a new key at the end. *)
Fixpoint dict_set (k : string) (v : json) (d : pydict) : pydict :=
  match d with
  | [] => [(k, v)]
  | (k', v') :: rest =>
      if String.eqb k k' then (k', v) :: rest else (k', v') :: dict_set k v rest
  end.

(** [isinstance(x, int)]; [bool] is a subclass of [int] in Python. *)
Definition int_value (x : json) : option Z :=
  match x with
  | JInt z => Some z
  | JBool true => Some 1%Z
  | JBool false => Some 0%Z
  | _ => None
  end.

Definition is_int (x : json) : bool :=
  match int_value x with Some _ => true | None => false end.

(** [isinstance(x, (int, float))] together with [float(x)]. *)
Definition float_value (x : json) : option Q :=
  match x with
  | JFloat q => Some q
  | _ => match int_value x with
         | Some z => Some (float_of_int z)
         | None => None
         end
  end.

Definition is_number (x : json) : bool :=
  match float_value x with Some _ => true | None => false end.

(** [d.get(k)] as Python returns it: [None] for an absent key. *)
Definition py_get (k : string) (d : pydict) : json :=
  match dict_get k d with Some v => v | None => JNull end.

(** [isinstance(bbox, list) and len(bbox) == 4 and all(isinstance(x, (int,
    float)) for x in bbox)], followed by the four [float(bbox[i])]. *)
Definition bbox_of_json (x : json) : option bbox4 :=
  match x with
  | JList [a; b; c; d] =>
      match float_value a, float_value b, float_value c, float_value d with
      | Some xmin, Some ymin, Some xmax, Some ymax =>
          Some (BBox4 xmin ymin xmax ymax)
      | _, _, _, _ => None
      end
  | _ => None
  end.

(** The list [[c[0], c[1], c[2], c[3]]] of floats written back to a
    detection. *)
Definition json_of_bbox (c : bbox4) : json :=
  JList [JFloat (bx_min c); JFloat (by_min c); JFloat (bx_max c); JFloat (by_max c)].

(** Python's [==] on parsed JSON: numbers (bools included) compare by
    value across [int] and [float]; strings by content; lists element by
    element; dictionaries as maps, whatever the insertion order (same
    size, and every key of the left one bound to an equal value on the
    right). *)
Fixpoint list_eqb_by (eq : json -> json -> bool) (l m : list json) : bool :=
  match l, m with
  | [], [] => true
  | x :: l', y :: m' => eq x y && list_eqb_by eq l' m'
  | _, _ => false
  end.

Fixpoint dict_sub_by (eq : json -> json -> bool) (e d : pydict) : bool :=
  match d with
  | [] => true
  | (k, v) :: d' =>
      match dict_get k e with
      | Some v' => eq v v'
      | None => false
      end && dict_sub_by eq e d'
  end.

Fixpoint py_eqb (a b : json) {struct a} : bool :=
  match a, b with
  | JNull, JNull => true
  | JStr s, JStr t => String.eqb s t
  | JList l, JList m => list_eqb_by py_eqb l m
  | JDict d, JDict e =>
      Nat.eqb (List.length d) (List.length e) && dict_sub_by py_eqb e d
  | _, _ =>
      match float_value a, float_value b with
      | Some x, Some y => Qeq_bool x y
      | _, _ => false
      end
  end.

(** A Python dictionary binds each key once, at every depth. *)
Definition has_key (k : string) (d : pydict) : bool :=
  existsb (fun kv => String.eqb k (fst kv)) d.

Fixpoint entries_unique (ok : json -> bool) (d : pydict) : bool :=
  match d with
  | [] => true
  | (k, v) :: d' => negb (has_key k d') && ok v && entries_unique ok d'
  end.

Fixpoint keys_unique (j : json) : bool :=
  match j with
  | JList l => forallb keys_unique l
  | JDict d => entries_unique keys_unique d
  | _ => true
  end.

(* ------------------------------------------------------------------ *)
(** ** store.py: the session data model *)

(** A [pathlib.Path] as its sequence of components; [Path.name] is the
    last one. *)
Definition path : Type := list string.
Definition path_name (p : path) : string := List.last p "".

Record ImageEntry : Type := mkImageEntry {
  image_path : path;
  relative_path : string;
  json_path : path
}.

Record LoadReport : Type := mkLoadReport {
  created_new_json : bool;
  json_parse_failed : bool;
  dropped_invalid : list json;   (* the [det_id] objects, in loop order *)
  clamped_count : Z
}.

Record AnnotationSession : Type := mkSession {
  entry : ImageEntry;
  width : Z;
  height : Z;
  payload : pydict;
  detections : list pydict;
  next_id : Z;
  dirty : bool
}.

(** What is found at [entry.json_path]: nothing, bytes on which
    [json.loads(read_text(...))] raises, or a parsed value. *)
Inductive json_file : Type :=
| Missing
| Unparseable
| Parsed (j : json).

(** Exceptions the modelled code lets escape. *)
Inductive exn : Type :=
| AttributeError.   (* [payload.get] on a parsed value that is not a dict *)

Inductive outcome (A : Type) : Type :=
| Ok (a : A)
| Raise (e : exn).
Arguments Ok {A} a.
Arguments Raise {A} e.

(** [AnnotationStore._new_payload]. *)
Definition _new_payload (e : ImageEntry) (w h : Z) : pydict :=
  [ ("format_version", JStr "1.0");
    ("image", JDict [ ("file_name", JStr (path_name (image_path e)));
                      ("relative_path", JStr (relative_path e));
                      ("width", JInt w);
                      ("height", JInt h) ]);
    ("detections", JList []) ].

(* ------------------------------------------------------------------ *)
(** ** store.py: [AnnotationStore.load] *)

(** What one pass of the loop body of [load] does with a raw entry. *)
Inductive verdict : Type :=
| Skipped                                  (* [continue], nothing reported *)
| Dropped (det_id : json)                  (* [dropped_invalid.append(det_id)] *)
| Kept (det : pydict) (was_clamped : bool) (* [detections.append(det)] *).

Definition examine (w h : Z) (det : json) : verdict :=
  match det with
  | JDict d =>
      let det_id := py_get "id" d in
      let bbox := py_get "bbox" d in
      let score := py_get "score" d in
      if negb (is_int det_id) then Skipped
      else match bbox_of_json bbox with
           | None => Dropped det_id
           | Some b =>
               if negb (is_number score) then Dropped det_id
               else if Qle_bool (bx_max b) (bx_min b) || Qle_bool (by_max b) (by_min b)
               then Dropped det_id
               else
                 let clamped := _clamp_bbox b w h in
                 if negb (bbox_eqb clamped b)
                 then Kept (dict_set "bbox" (json_of_bbox clamped) d) true
                 else Kept d false
           end
  | _ => Skipped
  end.

Definition report_drop (r : LoadReport) (det_id : json) : LoadReport :=
  mkLoadReport (created_new_json r) (json_parse_failed r)
               (dropped_invalid r ++ [det_id]) (clamped_count r).

Definition report_clamp (r : LoadReport) : LoadReport :=
  mkLoadReport (created_new_json r) (json_parse_failed r)
               (dropped_invalid r) (clamped_count r + 1)%Z.

(** One iteration of [for det in detections_raw], on the pair
    ([detections], [report]) the loop accumulates. *)
Definition load_iter (w h : Z) (st : list pydict * LoadReport) (det : json)
  : list pydict * LoadReport :=
  match examine w h det with
  | Skipped => st
  | Dropped det_id => (fst st, report_drop (snd st) det_id)
  | Kept d true => (fst st ++ [d], report_clamp (snd st))
  | Kept d false => (fst st ++ [d], snd st)
  end.

Definition load_loop (w h : Z) (raw : list json) (r0 : LoadReport)
  : list pydict * LoadReport :=
  fold_left (load_iter w h) raw ([], r0).

(** [max((d.get("id", -1) for d in detections if isinstance(d.get("id"),
    int)), default=-1)]. *)
Definition det_ids (dets : list pydict) : list Z :=
  flat_map (fun d => match int_value (py_get "id" d) with
                     | Some z => [z]
                     | None => []
                     end) dets.

Definition max_id (dets : list pydict) : Z :=
  match det_ids dets with
  | [] => (-1)%Z
  | z :: zs => fold_left Z.max zs z
  end.

Definition nonempty {A : Type} (l : list A) : bool :=
  match l with [] => false | _ :: _ => true end.

(** [detections_raw = payload.get("detections", [])], replaced by [[]]
    when it is not a list. *)
Definition raw_detections (p : pydict) : list json :=
  match dict_get "detections" p with
  | Some (JList l) => l
  | _ => []
  end.

(** The result of [load]: the session, the report, and what was written to
    [entry.json_path] during the call (only a missing file is created). *)
Record loaded : Type := mkLoaded {
  ld_session : AnnotationSession;
  ld_report : LoadReport;
  ld_written : option pydict
}.

(** [load(entry)], given the [(w, h)] that [get_image_size] returned and
    what is stored at [entry.json_path].

    The payload's ["detections"] slot: Python keeps there the raw list
    (whose kept entries it clamps in place) or, after a drop or a parse
    failure, the session's own list.  Nothing reads the slot before [save]
    overwrites it, so the model leaves the raw list as parsed. *)
Definition load (e : ImageEntry) (w h : Z) (file : json_file) : outcome loaded :=
  let r0 := mkLoadReport false false [] 0 in
  let start : outcome (pydict * LoadReport * option pydict) :=
    match file with
    | Missing =>
        let p := _new_payload e w h in
        Ok (p, mkLoadReport true false [] 0, Some p)
    | Unparseable =>
        Ok (_new_payload e w h, mkLoadReport false true [] 0, None)
    | Parsed (JDict p) => Ok (p, r0, None)
    | Parsed _ => Raise AttributeError
    end in
  match start with
  | Raise x => Raise x
  | Ok (payload0, rep0, written) =>
      let detections_raw := raw_detections payload0 in
      let '(dets, rep) := load_loop w h detections_raw rep0 in
      let payload1 :=
        if nonempty (dropped_invalid rep) || json_parse_failed rep
        then dict_set "detections" (JList (map JDict dets)) payload0
        else payload0 in
      let session :=
        mkSession e w h payload1 dets (max_id dets + 1)%Z
                  (nonempty (dropped_invalid rep) || json_parse_failed rep
                   || negb (Z.eqb (clamped_count rep) 0)) in
      Ok (mkLoaded session rep written)
  end.

(* ------------------------------------------------------------------ *)
(** ** store.py: [save], [add_box], [delete_box] *)

(** The body of the loop of [save] on one detection. *)
Definition save_det (w h : Z) (det : pydict) : pydict :=
  match bbox_of_json (py_get "bbox" det) with
  | None => det                               (* [continue] *)
  | Some b =>
      let clamped := _clamp_bbox b w h in
      if negb (bbox_eqb clamped b)
      then dict_set "bbox" (json_of_bbox clamped) det
      else det
  end.

(** [save(session)]: the session afterwards, and the payload handed to
    [_write_json_atomic] (the write itself is assumed to succeed). *)
Definition save (s : AnnotationSession) : AnnotationSession * pydict :=
  let dets := map (save_det (width s) (height s)) (detections s) in
  let p := dict_set "detections" (JList (map JDict dets)) (payload s) in
  (mkSession (entry s) (width s) (height s) p dets (next_id s) false, p).

(** [add_box(session, bbox)]: the session afterwards and the returned
    detection. *)
Definition add_box (s : AnnotationSession) (bbox : bbox4)
  : AnnotationSession * pydict :=
  let c := _clamp_bbox bbox (width s) (height s) in
  let det := [ ("id", JInt (next_id s));
               ("bbox", json_of_bbox c);
               ("score", JFloat 1) ] in
  (mkSession (entry s) (width s) (height s) (payload s)
             (detections s ++ [det]) (next_id s + 1)%Z true,
   det).

(** [list.remove(x)]: drop the first element equal to [x]; [None] stands
    for the [ValueError] raised when there is none. *)
Fixpoint list_remove (x : pydict) (l : list pydict) : option (list pydict) :=
  match l with
  | [] => None
  | y :: l' =>
      if py_eqb (JDict y) (JDict x) then Some l'
      else match list_remove x l' with
           | Some r => Some (y :: r)
           | None => None
           end
  end.

(** [delete_box(session, det)]. *)
Definition delete_box (s : AnnotationSession) (det : pydict) : AnnotationSession :=
  match list_remove det (detections s) with
  | None => s                                   (* [except ValueError: return] *)
  | Some l =>
      mkSession (entry s) (width s) (height s) (payload s) l (next_id s) true
  end.

(* ------------------------------------------------------------------ *)
(** ** canvas.py: corner handles of a box item *)

Record QPointF : Type := mkPoint { pt_x : Q; pt_y : Q }.

(** [QRectF(x, y, w, h)] with [left()], [top()], [right()], [bottom()]. *)
Record QRectF : Type := mkRect { rc_x : Q; rc_y : Q; rc_w : Q; rc_h : Q }.
Definition rc_left (r : QRectF) : Q := rc_x r.
Definition rc_top (r : QRectF) : Q := rc_y r.
Definition rc_right (r : QRectF) : Q := rc_x r + rc_w r.
Definition rc_bottom (r : QRectF) : Q := rc_y r + rc_h r.

(** [CornerHandle.corner]: ["tl"] or ["br"]. *)
Inductive corner : Type := tl | br.

(** The geometric state of a [BBoxItem]: its detection, the image size,
    [min_size], the positions of its two handles and its rectangle. *)
Record BBoxItem : Type := mkBBoxItem {
  item_det : pydict;
  image_width : Z;
  image_height : Z;
  min_size : Q;
  tl_pos : QPointF;
  br_pos : QPointF;
  item_rect : QRectF
}.

(** [BBoxItem.__init__] followed by [update_from_det], for a detection
    whose ["bbox"] (or the default [[0, 0, 1, 1]] of an absent key) is a
    list of four numbers; [None] where Python would raise or where the
    value is outside this model.  The handles are placed with [set_center],
    which bypasses the constraint. *)
Definition new_BBoxItem (det : pydict) (image_width image_height : Z)
  : option BBoxItem :=
  let bbox :=
    match dict_get "bbox" det with
    | Some v => v
    | None => JList [JInt 0; JInt 0; JInt 1; JInt 1]
    end in
  match bbox_of_json bbox with
  | Some b =>
      Some (mkBBoxItem det image_width image_height 1
              (mkPoint (bx_min b) (by_min b))
              (mkPoint (bx_max b) (by_max b))
              (mkRect (bx_min b) (by_min b)
                      (py_max 1 (bx_max b - bx_min b))
                      (py_max 1 (by_max b - by_min b))))
  | None => None
  end.

(** [BBoxItem.constrain_handle(corner, pos)]. *)
Definition constrain_handle (it : BBoxItem) (c : corner) (pos : QPointF) : QPointF :=
  let w := float_of_int (image_width it) in
  let h := float_of_int (image_height it) in
  match c with
  | tl =>
      mkPoint (_clamp (pt_x pos) 0 (pt_x (br_pos it) - min_size it))
              (_clamp (pt_y pos) 0 (pt_y (br_pos it) - min_size it))
  | br =>
      mkPoint (_clamp (pt_x pos) (pt_x (tl_pos it) + min_size it) w)
              (_clamp (pt_y pos) (pt_y (tl_pos it) + min_size it) h)
  end.

(** [BBoxItem.on_handle_moved]: the rectangle and the detection's bbox
    follow the two handles. *)
Definition on_handle_moved (it : BBoxItem) : BBoxItem :=
  let t := tl_pos it in
  let b := br_pos it in
  let rect := mkRect (pt_x t) (pt_y t) (pt_x b - pt_x t) (pt_y b - pt_y t) in
  mkBBoxItem
    (dict_set "bbox"
       (JList [JFloat (rc_left rect); JFloat (rc_top rect);
               JFloat (rc_right rect); JFloat (rc_bottom rect)])
       (item_det it))
    (image_width it) (image_height it) (min_size it) t b rect.

Definition handle_pos (it : BBoxItem) (c : corner) : QPointF :=
  match c with tl => tl_pos it | br => br_pos it end.

Definition set_handle_pos (it : BBoxItem) (c : corner) (p : QPointF) : BBoxItem :=
  match c with
  | tl => mkBBoxItem (item_det it) (image_width it) (image_height it)
                     (min_size it) p (br_pos it) (item_rect it)
  | br => mkBBoxItem (item_det it) (image_width it) (image_height it)
                     (min_size it) (tl_pos it) p (item_rect it)
  end.

Definition point_eqb (p q : QPointF) : bool :=
  Qeq_bool (pt_x p) (pt_x q) && Qeq_bool (pt_y p) (pt_y q).

(** One pointer move while a handle is dragged.  Qt's [setPos] passes the
    proposed position through [CornerHandle.itemChange]
    ([ItemPositionChange], answered by [constrain_handle]); when the answer
    differs from the current position the handle moves there and
    [ItemPositionHasChanged] runs [on_handle_moved]. *)
Definition drag_step (it : BBoxItem) (c : corner) (pos : QPointF) : BBoxItem :=
  let p := constrain_handle it c pos in
  if point_eqb p (handle_pos it c) then it
  else on_handle_moved (set_handle_pos it c p).

(** Pointer moves of one or several drag gestures, each on the handle it
    grabs: the successive constrained positions, with the item state in
    which each one is computed. *)
Fixpoint drag_trace (it : BBoxItem) (moves : list (corner * QPointF))
  : list (BBoxItem * corner * QPointF) :=
  match moves with
  | [] => []
  | (c, pos) :: rest =>
      (it, c, constrain_handle it c pos) :: drag_trace (drag_step it c pos) rest
  end.

Definition drag (it : BBoxItem) (moves : list (corner * QPointF)) : BBoxItem :=
  fold_left (fun i m => drag_step i (fst m) (snd m)) moves it.

(* ------------------------------------------------------------------ *)
(** ** main_window.py / canvas.py / models.py: selection synchronisation

    The two views and the window's guard as one state.  Qt delivers a
    signal by calling the connected slot before [emit] returns, so a slot is
    a function passed to the operation that may emit; a blocked scene
    emits nothing.  The handlers call each other through these signals, so
    they are defined by recursion on a call budget; [None] means the budget
    ran out. *)

Inductive handler : Type := ListHandler | CanvasHandler.

(** A guarded handler either returns at its guard or runs its body. *)
Inductive event : Type :=
| Suppressed (h : handler)
| Entered (h : handler).

Record MainWindow : Type := mkWindow {
  _sync_selection : bool;
  boxes_model : list pydict;         (* [BoxListModel._detections] *)
  list_current : option nat;         (* selection model: current row *)
  list_selection : option nat;       (* selection model: selected row *)
  canvas_items : list pydict;        (* [ImageCanvas._items], by their [det] *)
  _det_to_item : list (Z * nat);     (* [ImageCanvas._det_to_item] *)
  scene_selection : list nat;        (* [scene.selectedItems()], as indices *)
  scene_blocked : bool;              (* [scene.signalsBlocked()] *)
  trace : list event
}.

Definition with_sync (b : bool) (w : MainWindow) : MainWindow :=
  mkWindow b (boxes_model w) (list_current w) (list_selection w)
           (canvas_items w) (_det_to_item w) (scene_selection w)
           (scene_blocked w) (trace w).

Definition with_list (cur sel : option nat) (w : MainWindow) : MainWindow :=
  mkWindow (_sync_selection w) (boxes_model w) cur sel
           (canvas_items w) (_det_to_item w) (scene_selection w)
           (scene_blocked w) (trace w).

Definition with_scene (sel : list nat) (blocked : bool) (w : MainWindow) : MainWindow :=
  mkWindow (_sync_selection w) (boxes_model w) (list_current w) (list_selection w)
           (canvas_items w) (_det_to_item w) sel blocked (trace w).

Definition record_event (e : event) (w : MainWindow) : MainWindow :=
  mkWindow (_sync_selection w) (boxes_model w) (list_current w) (list_selection w)
           (canvas_items w) (_det_to_item w) (scene_selection w)
           (scene_blocked w) (trace w ++ [e]).

(** A dictionary keyed by [int]: [d[k] = v] and [d.get(k)]. *)
Fixpoint idict_set (k : Z) (v : nat) (d : list (Z * nat)) : list (Z * nat) :=
  match d with
  | [] => [(k, v)]
  | (k', v') :: rest =>
      if Z.eqb k k' then (k', v) :: rest else (k', v') :: idict_set k v rest
  end.

Fixpoint idict_get (k : Z) (d : list (Z * nat)) : option nat :=
  match d with
  | [] => None
  | (k', v) :: rest => if Z.eqb k k' then Some v else idict_get k rest
  end.

(** The loop of [ImageCanvas.set_boxes] over the remaining detections,
    given the items and the index built so far. *)
Fixpoint set_boxes_loop (dets : list pydict) (items : list pydict)
         (index : list (Z * nat)) : list pydict * list (Z * nat) :=
  match dets with
  | [] => (items, index)
  | det :: rest =>
      match int_value (py_get "id" det) with
      | None => set_boxes_loop rest items index               (* [continue] *)
      | Some det_id =>
          set_boxes_loop rest (items ++ [det])
                         (idict_set det_id (List.length items) index)
      end
  end.

(** [ImageCanvas.set_boxes(detections)]: the old items leave the scene
    (and with them the selection), new ones are created. *)
Definition set_boxes (dets : list pydict) (w : MainWindow) : MainWindow :=
  let '(items, index) := set_boxes_loop dets [] [] in
  mkWindow (_sync_selection w) (boxes_model w) (list_current w) (list_selection w)
           items index [] (scene_blocked w) (trace w).

(** [BoxListModel.set_detections(detections)]: a model reset, which leaves
    the view without current or selected row. *)
Definition set_detections (dets : list pydict) (w : MainWindow) : MainWindow :=
  mkWindow (_sync_selection w) dets None None
           (canvas_items w) (_det_to_item w) (scene_selection w)
           (scene_blocked w) (trace w).

(** [BoxListModel.index_of(det)]: [list.index], [None] on [ValueError]. *)
Fixpoint index_of (det : pydict) (l : list pydict) : option nat :=
  match l with
  | [] => None
  | y :: l' =>
      if py_eqb (JDict y) (JDict det) then Some O
      else match index_of det l' with
           | Some n => Some (S n)
           | None => None
           end
  end.

Section Slots.
(** The slot connected to [ImageCanvas.boxSelectionChanged]. *)
Variable boxSelectionChanged : MainWindow -> option pydict -> option MainWindow.
(** The slot connected to the list's [currentChanged] (it receives the
    new current row). *)
Variable currentChanged : MainWindow -> option nat -> option MainWindow.

(** [ImageCanvas._on_scene_selection_changed]. *)
Definition _on_scene_selection_changed (w : MainWindow) : option MainWindow :=
  match scene_selection w with
  | [] => boxSelectionChanged w None
  | k :: _ => boxSelectionChanged w (nth_error (canvas_items w) k)
  end.

(** The scene's [selectionChanged], connected to the method above. *)
Definition scene_selectionChanged (w : MainWindow) : option MainWindow :=
  if scene_blocked w then Some w else _on_scene_selection_changed w.

(** [QGraphicsScene.clearSelection()]. *)
Definition scene_clearSelection (w : MainWindow) : option MainWindow :=
  match scene_selection w with
  | [] => Some w
  | _ :: _ => scene_selectionChanged (with_scene [] (scene_blocked w) w)
  end.

(** [item.setSelected(True)] for the item of index [k]. *)
Definition item_setSelected (k : nat) (w : MainWindow) : option MainWindow :=
  if existsb (Nat.eqb k) (scene_selection w) then Some w
  else scene_selectionChanged
         (with_scene (scene_selection w ++ [k]) (scene_blocked w) w).

(** [ImageCanvas.select_detection(det)]; each early [return] leaves
    through the [finally] that unblocks the scene. *)
Definition select_detection (w : MainWindow) (det : option pydict)
  : option MainWindow :=
  let unblock := fun w' => with_scene (scene_selection w') false w' in
  match scene_clearSelection (with_scene (scene_selection w) true w) with
  | None => None
  | Some w1 =>
      match det with
      | None => Some (unblock w1)
      | Some d =>
          match int_value (py_get "id" d) with
          | None => Some (unblock w1)
          | Some det_id =>
              match
                match idict_get det_id (_det_to_item w1) with
                | Some item => item_setSelected item w1
                | None => Some w1
                end
              with
              | None => None
              | Some w2 => _on_scene_selection_changed (unblock w2)
              end
          end
      end
  end.

(** [QItemSelectionModel.clearSelection()]: the current row stays. *)
Definition sel_clearSelection (w : MainWindow) : MainWindow :=
  with_list (list_current w) None w.

(** [QItemSelectionModel.setCurrentIndex(idx, ClearAndSelect)]: select
    the row, and signal when the current row changes. *)
Definition sel_setCurrentIndex (row : nat) (w : MainWindow) : option MainWindow :=
  match list_current w with
  | Some r =>
      if Nat.eqb r row then Some (with_list (Some row) (Some row) w)
      else currentChanged (with_list (Some row) (Some row) w) (Some row)
  | None => currentChanged (with_list (Some row) (Some row) w) (Some row)
  end.
End Slots.

(** [MainWindow._on_box_selected_in_list(current, _previous)] and
    [MainWindow._on_canvas_selection_changed(det)], each connected to the
    signal the other one may cause. *)
Fixpoint _on_box_selected_in_list (budget : nat) (w : MainWindow)
         (current : option nat) {struct budget} : option MainWindow :=
  match budget with
  | O => None
  | S n =>
      if _sync_selection w then Some (record_event (Suppressed ListHandler) w)
      else
        let w0 := record_event (Entered ListHandler) w in
        let det :=
          match current with
          | Some row => nth_error (boxes_model w0) row
          | None => None
          end in
        match select_detection (_on_canvas_selection_changed n)
                               (with_sync true w0) det with
        | Some w1 => Some (with_sync false w1)
        | None => None
        end
  end
with _on_canvas_selection_changed (budget : nat) (w : MainWindow)
         (det : option pydict) {struct budget} : option MainWindow :=
  match budget with
  | O => None
  | S n =>
      if _sync_selection w then Some (record_event (Suppressed CanvasHandler) w)
      else
        let w0 := record_event (Entered CanvasHandler) w in
        let w1 := sel_clearSelection (with_sync true w0) in
        match det with
        | None => Some (with_sync false w1)
        | Some d =>
            match index_of d (boxes_model w1) with
            | None => Some (with_sync false w1)
            | Some row =>
                match sel_setCurrentIndex (_on_box_selected_in_list n) row w1 with
                | Some w2 => Some (with_sync false w2)
                | None => None
                end
            end
        end
  end.

(** The canvas as the window wires it: its [boxSelectionChanged] reaches
    [_on_canvas_selection_changed]. *)
Definition canvas_selection_changed (budget : nat) (w : MainWindow)
  : option MainWindow :=
  _on_scene_selection_changed (_on_canvas_selection_changed budget) w.

Definition canvas_select_detection (budget : nat) (w : MainWindow)
           (det : option pydict) : option MainWindow :=
  select_detection (_on_canvas_selection_changed budget) w det.

(** The selected detection each view reports, by its [id]. *)
Definition det_id_of (d : option pydict) : option Z :=
  match d with
  | Some d' => int_value (py_get "id" d')
  | None => None
  end.

Definition list_selected_id (w : MainWindow) : option Z :=
  match list_selection w with
  | Some row => det_id_of (nth_error (boxes_model w) row)
  | None => None
  end.

Definition canvas_selected_id (w : MainWindow) : option Z :=
  match scene_selection w with
  | k :: _ => det_id_of (nth_error (canvas_items w) k)
  | [] => None
  end.

(** How many handler bodies ran (passed their guard) in a trace. *)
Definition rounds (t : list event) : nat :=
  List.length (filter (fun e => match e with Entered _ => true | _ => false end) t).

(* ------------------------------------------------------------------ *)
(** ** Vocabulary of the statements *)

(** What the loop of [load] contributes, entry by entry. *)
Definition kept_entries (w h : Z) (raw : list json) : list pydict :=
  flat_map (fun det => match examine w h det with
                       | Kept d _ => [d]
                       | _ => []
                       end) raw.

Definition dropped_ids (w h : Z) (raw : list json) : list json :=
  flat_map (fun det => match examine w h det with
                       | Dropped det_id => [det_id]
                       | _ => []
                       end) raw.

Definition clamp_hits (w h : Z) (raw : list json) : Z :=
  Z.of_nat (List.length (filter (fun det => match examine w h det with
                                            | Kept _ true => true
                                            | _ => false
                                            end) raw)).

(** The bbox a detection carries, as the code reads it. *)
Definition det_bbox (d : pydict) : option bbox4 := bbox_of_json (py_get "bbox" d).

(** A detection whose bbox meets the bounds of the load property. *)
Definition detection_ok (w h : Z) (d : pydict) : Prop :=
  exists b : bbox4, det_bbox d = Some b /\ strictly_in_bounds b w h.

(** A stored file on which [load] does not raise: none, an unreadable
    one, or a JSON object. *)
Definition is_record (file : json_file) : Prop :=
  match file with
  | Parsed (JDict _) => True
  | Parsed _ => False
  | _ => True
  end.

(** A raw entry that already satisfies every invariant: an integer id, a
    numeric score, and a bbox of four numbers inside the image with a
    width and a height of at least 1. *)
Definition valid_detection (w h : Z) (det : json) : Prop :=
  exists (d : pydict) (b : bbox4),
    det = JDict d /\
    is_int (py_get "id" d) = true /\
    is_number (py_get "score" d) = true /\
    det_bbox d = Some b /\
    in_bounds b w h.

Definition valid_record (w h : Z) (p : pydict) (raw : list json) : Prop :=
  dict_get "detections" p = Some (JList raw) /\
  Forall (valid_detection w h) raw.

(** How many detections of a list are equal to [det] for [list.remove]. *)
Definition occurrences (det : pydict) (l : list pydict) : nat :=
  List.length (filter (fun y => py_eqb (JDict y) (JDict det)) l).

(** The handles of an item describe a box inside the image with a width
    and a height of at least [min_size = 1]. *)
Definition valid_item (it : BBoxItem) : Prop :=
  min_size it == 1 /\
  0 <= pt_x (tl_pos it) /\ 0 <= pt_y (tl_pos it) /\
  pt_x (tl_pos it) + 1 <= pt_x (br_pos it) /\
  pt_y (tl_pos it) + 1 <= pt_y (br_pos it) /\
  pt_x (br_pos it) <= inject_Z (image_width it) /\
  pt_y (br_pos it) <= inject_Z (image_height it).

(** The bounds of a constrained handle position [p], for the item state
    [it] in which it was computed. *)
Definition handle_within (it : BBoxItem) (c : corner) (p : QPointF) : Prop :=
  match c with
  | tl =>
      0 <= pt_x p /\ pt_x p <= pt_x (br_pos it) - 1 /\
      0 <= pt_y p /\ pt_y p <= pt_y (br_pos it) - 1
  | br =>
      pt_x (tl_pos it) + 1 <= pt_x p /\ pt_x p <= inject_Z (image_width it) /\
      pt_y (tl_pos it) + 1 <= pt_y p /\ pt_y p <= inject_Z (image_height it)
  end.

Definition corners_apart (it : BBoxItem) : Prop :=
  pt_x (tl_pos it) < pt_x (br_pos it) /\ pt_y (tl_pos it) < pt_y (br_pos it).

(** The two entries of the loading examples: a degenerate box
    ([xmin = xmax]) and a box that overflows a 40 x 40 image, with the
    repaired form of the latter. *)
Definition degenerate_entry : pydict :=
  [("id", JInt 3); ("bbox", JList [JInt 10; JInt 10; JInt 10; JInt 20]);
   ("score", JFloat (1 # 2))].

Definition overflowing_entry : pydict :=
  [("id", JInt 4); ("bbox", JList [JInt (-5); JInt (-5); JInt 50; JInt 50]);
   ("score", JFloat (9 # 10))].

Definition overflowing_entry_clamped : pydict :=
  [("id", JInt 4); ("bbox", JList [JFloat 0; JFloat 0; JFloat 40; JFloat 40]);
   ("score", JFloat (9 # 10))].

(** What [save] does to one detection: a bbox that is a list of four
    numbers comes out clamped; anything else passes through untouched. *)
Definition saved_as (w h : Z) (d d' : pydict) : Prop :=
  match det_bbox d with
  | Some b =>
      exists b' : bbox4,
        det_bbox d' = Some b' /\ in_bounds b' w h /\ bbox_eq b' (_clamp_bbox b w h)
  | None => d' = d
  end.

(** The unrestricted reading of the save property: whatever the session
    holds, every detection of the written record has a bbox within the
    image with minimum size 1, and [dirty] is cleared. *)
Definition save_bounds_everything (s : AnnotationSession) : Prop :=
  (forall det : json,
     In det (raw_detections (snd (save s))) ->
     exists (d : pydict) (b : bbox4),
       det = JDict d /\ det_bbox d = Some b /\ in_bounds b (width s) (height s)) /\
  dirty (fst (save s)) = false.

(** A 10 x 10 session in which a detection's bbox was overwritten from
    outside with a list of three numbers. *)
Definition tampered_session : AnnotationSession :=
  mkSession (mkImageEntry ["in"; "a.png"] "a.png" ["out"; "a.json"]) 10 10
            [("format_version", JStr "1.0"); ("detections", JList [])]
            [[("id", JInt 0); ("bbox", JList [JInt (-5); JInt 0; JInt 50]);
              ("score", JFloat 1)]]
            1 true.

(** [det] is not equal to [y] for [list.remove] and [list.index]. *)
Definition differs_from (det y : pydict) : Prop :=
  py_eqb (JDict y) (JDict det) = false.

(** The reading of the deletion property by which a second deletion of
    the same detection never changes the session again. *)
Definition second_delete_is_noop (s : AnnotationSession) (det : pydict) : Prop :=
  delete_box (delete_box s det) det = delete_box s det.

(** A record that lists the same detection twice. *)
Definition twin_entry : pydict :=
  [("id", JInt 1); ("bbox", JList [JInt 0; JInt 0; JInt 5; JInt 5]);
   ("score", JFloat (1 # 2))].

Definition twin_record : pydict :=
  [("format_version", JStr "1.0");
   ("detections", JList [JDict twin_entry; JDict twin_entry])].

(** A detection as a session holds it: an integer id, and dictionaries
    that bind each key once. *)
Definition session_detection (d : pydict) : Prop :=
  is_int (py_get "id" d) = true /\ keys_unique (JDict d) = true.

(** The two views show the same detections: the list model holds [dets]
    and the canvas was filled from them by [set_boxes], as [_load_image],
    [_on_box_created] and [_delete_selected_box] leave them. *)
Definition views_show (dets : list pydict) (w : MainWindow) : Prop :=
  Forall session_detection dets /\
  boxes_model w = dets /\
  (canvas_items w, _det_to_item w) = set_boxes_loop dets [] [].

(** No handler is running: the guard is down and the scene is not
    blocked. *)
Definition idle (w : MainWindow) : Prop :=
  _sync_selection w = false /\ scene_blocked w = false.

Definition has_id (z : Z) (d : pydict) : Prop :=
  int_value (py_get "id" d) = Some z.

(** The index built by [set_boxes] points at an item with the key's id,
    and knows the id of every item. *)
Definition index_sound (items : list pydict) (index : list (Z * nat)) : Prop :=
  (forall z k, idict_get z index = Some k ->
               exists d, nth_error items k = Some d /\ has_id z d) /\
  (forall d z, In d items -> has_id z d -> exists k, idict_get z index = Some k).

(** Three boxes on screen, with ids 5, 7 and 9, and the window showing
    them after the list view made the row of id 7 current and selected. *)
Definition box_with_id (i : Z) : pydict :=
  [("id", JInt i); ("bbox", JList [JFloat 0; JFloat 0; JFloat 5; JFloat 5]);
   ("score", JFloat 1)].

Definition shown_detections : list pydict :=
  [box_with_id 5; box_with_id 7; box_with_id 9].

Definition shown_window : MainWindow :=
  with_list (Some 1%nat) (Some 1%nat)
    (set_boxes shown_detections
       (set_detections shown_detections
          (mkWindow false [] None None [] [] [] false []))).

(* ------------------------------------------------------------------ *)
(** ** Sessions over time *)

(** The calls the window makes on the store while an image is open. *)
Inductive store_op : Type :=
| OpAdd (bbox : bbox4)        (* [_on_box_created] -> [add_box] *)
| OpDelete (det : pydict)     (* [_delete_selected_box] -> [delete_box] *)
| OpSave.                     (* [_save_current] -> [save] *)

Definition apply_op (s : AnnotationSession) (op : store_op) : AnnotationSession :=
  match op with
  | OpAdd bbox => fst (add_box s bbox)
  | OpDelete det => delete_box s det
  | OpSave => fst (save s)
  end.

Definition run_ops (s : AnnotationSession) (ops : list store_op) : AnnotationSession :=
  fold_left apply_op ops s.

(** The ids [add_box] hands out along a run, in order. *)
Fixpoint allocated_ids (s : AnnotationSession) (ops : list store_op) : list Z :=
  match ops with
  | [] => []
  | OpAdd bbox :: rest => next_id s :: allocated_ids (apply_op s (OpAdd bbox)) rest
  | op :: rest => allocated_ids (apply_op s op) rest
  end.

(** Every integer id of [dets] is below [n]. *)
Definition ids_below (n : Z) (dets : list pydict) : Prop :=
  Forall (fun z => (z < n)%Z) (det_ids dets).

(** [n], [n + 1], ..., [n + len - 1]. *)
Fixpoint count_from (n : Z) (len : nat) : list Z :=
  match len with
  | O => []
  | S len' => n :: count_from (n + 1)%Z len'
  end.

Definition is_add (op : store_op) : bool :=
  match op with OpAdd _ => true | _ => false end.


(** Two dictionaries with the same keys in the same order and the same
    values except, possibly, under ["bbox"]. *)
Definition same_but_bbox (d d' : pydict) : Prop :=
  map fst d' = map fst d /\
  forall k : string, String.eqb k "bbox" = false -> dict_get k d' = dict_get k d.

(** A raw entry of a record that is an object with an integer id. *)
Definition carries_id (det : json) : bool :=
  match det with
  | JDict d => is_int (py_get "id" d)
  | _ => false
  end.

(* ------------------------------------------------------------------ *)
(** ** canvas.py: drawing a new box *)











(** The last position of [items] whose detection carries the id [z]. *)
Fixpoint last_with_id (z : Z) (items : list pydict) : option nat :=
  match items with
  | [] => None
  | d :: rest =>
      match last_with_id z rest with
      | Some k => Some (S k)
      | None =>
          match int_value (py_get "id" d) with
          | Some z' => if Z.eqb z z' then Some O else None
          | None => None
          end
      end
  end.


(* ------------------------------------------------------------------ *)
(** ** models.py: [BoxListModel] on its list of detections *)

(** [BoxListModel.append_detection(det)]. *)
Definition append_detection (det : pydict) (l : list pydict) : list pydict :=
  l ++ [det].

(** [list.pop(row)] for a row that [index_of] returned. *)
Definition list_pop (row : nat) (l : list pydict) : list pydict :=
  firstn row l ++ skipn (S row) l.

(** [BoxListModel.remove_detection(det)]. *)
Definition remove_detection (det : pydict) (l : list pydict) : list pydict :=
  match index_of det l with
  | None => l
  | Some row => list_pop row l
  end.

(* ------------------------------------------------------------------ *)
(** ** image_utils.py: image size from the file header

    The content of the file is a list of bytes; a file object is the part
    of the content that is still unread. *)

Definition bytes : Type := list Byte.byte.

(** [f.read(n)]: the bytes read (fewer than [n] at the end of the file)
    and the rest. *)
Definition read (n : nat) (f : bytes) : bytes * bytes := (firstn n f, skipn n f).

(** The unsigned big-endian number written in [bs]: what
    [struct.unpack(">I", bs)], [">H"] and [">B"] return for 4, 2 and 1
    bytes. *)
Definition be_value (bs : bytes) : Z :=
  fold_left (fun acc b => (acc * 256 + Z.of_N (Byte.to_N b))%Z) bs 0%Z.

Fixpoint bytes_eqb (a b : bytes) : bool :=
  match a, b with
  | [], [] => true
  | x :: a', y :: b' => Byte.eqb x y && bytes_eqb a' b'
  | _, _ => false
  end.

(** [data.startswith(prefix)]. *)
Fixpoint starts_with (prefix data : bytes) : bool :=
  match prefix, data with
  | [], _ => true
  | x :: prefix', y :: data' => Byte.eqb x y && starts_with prefix' data'
  | _ :: _, [] => false
  end.

(** [needle in data]. *)
Fixpoint contains (needle data : bytes) : bool :=
  starts_with needle data ||
  match data with
  | [] => false
  | _ :: data' => contains needle data'
  end.

(** The exceptions of the module: the [ValueError]s by their message, and
    [struct.error]. *)
Inductive image_error : Type :=
| UnsupportedPNGLayout
| UnsupportedFormat
| NotJPEG
| InvalidJPEGMarker
| TruncatedJPEG
| InvalidSegmentLength
| TruncatedSOF
| StructError.

Inductive size_result : Type :=
| Size (width height : Z)
| SizeError (e : image_error).

Definition png_signature : bytes :=
  [Byte.x89; Byte.x50; Byte.x4e; Byte.x47; Byte.x0d; Byte.x0a; Byte.x1a; Byte.x0a].

Definition IHDR : bytes := [Byte.x49; Byte.x48; Byte.x44; Byte.x52].

(** [marker = f.read(1)] followed by [while marker == b"\xff": marker =
    f.read(1)]; [None] is the empty read at the end of the file. *)
Fixpoint read_marker (f : bytes) : option Byte.byte * bytes :=
  match f with
  | [] => (None, [])
  | b :: rest => if Byte.eqb b Byte.xff then read_marker rest else (Some b, rest)
  end.

(** [b"\xc0" <= marker <= b"\xcf" and marker not in {b"\xc4", b"\xc8",
    b"\xcc"}]. *)
Definition is_sof (marker : Byte.byte) : bool :=
  let n := Byte.to_N marker in
  (192 <=? n)%N && (n <=? 207)%N &&
  negb (Byte.eqb marker Byte.xc4 || Byte.eqb marker Byte.xc8 || Byte.eqb marker Byte.xcc).

Definition marker_is (test : Byte.byte -> bool) (marker : option Byte.byte) : bool :=
  match marker with
  | Some m => test m
  | None => false
  end.

(** The [while True] loop of [_get_jpeg_size], on the unread part of the
    file; [budget] bounds the number of passes and [None] means it ran
    out.  [f.seek(n, 1)] past the end leaves nothing to read. *)
Fixpoint jpeg_scan (budget : nat) (f : bytes) : option size_result :=
  match budget with
  | O => None
  | S n =>
      match f with
      | [] => Some (SizeError InvalidJPEGMarker)
      | prefix :: f1 =>
          if negb (Byte.eqb prefix Byte.xff) then Some (SizeError InvalidJPEGMarker)
          else
            let '(marker, f2) := read_marker f1 in
            if marker_is (fun m => Byte.eqb m Byte.xd8 || Byte.eqb m Byte.xd9) marker
            then jpeg_scan n f2
            else
              let '(length_bytes, f3) := read 2 f2 in
              if negb (Nat.eqb (List.length length_bytes) 2)
              then Some (SizeError TruncatedJPEG)
              else
                let segment_length := be_value length_bytes in
                if (segment_length <? 2)%Z then Some (SizeError InvalidSegmentLength)
                else if marker_is is_sof marker then
                  match fst (read 5 f3) with
                  | [_; h1; h2; w1; w2] =>
                      Some (Size (be_value [w1; w2]) (be_value [h1; h2]))
                  | _ => Some (SizeError TruncatedSOF)
                  end
                else jpeg_scan n (skipn (Z.to_nat (segment_length - 2)) f3)
      end
  end.

(** [_get_jpeg_size(path)] on the content of the file; one pass of the
    loop consumes at least two bytes, so the length of the file is budget
    enough. *)
Definition _get_jpeg_size (content : bytes) : option size_result :=
  let '(magic, f) := read 2 content in
  if negb (bytes_eqb magic [Byte.xff; Byte.xd8]) then Some (SizeError NotJPEG)
  else jpeg_scan (S (List.length f)) f.

(** [_get_image_size_without_pillow(path)] on the content of the file. *)
Definition _get_image_size_without_pillow (content : bytes) : option size_result :=
  let header := fst (read 32 content) in
  if starts_with png_signature header && contains IHDR (firstn 24 header) then
    let '(_, f1) := read 8 content in
    let '(length_bytes, f2) := read 4 f1 in
    if negb (Nat.eqb (List.length length_bytes) 4) then Some (SizeError StructError)
    else
      let length := be_value length_bytes in
      let '(ctype, f3) := read 4 f2 in
      if negb (bytes_eqb ctype IHDR) then Some (SizeError UnsupportedPNGLayout)
      else
        let data := fst (read (Z.to_nat length) f3) in
        match firstn 8 data with
        | [w1; w2; w3; w4; h1; h2; h3; h4] =>
            Some (Size (be_value [w1; w2; w3; w4]) (be_value [h1; h2; h3; h4]))
        | _ => Some (SizeError StructError)
        end
  else if bytes_eqb (firstn 2 header) [Byte.xff; Byte.xd8] then _get_jpeg_size content
  else Some (SizeError UnsupportedFormat).

(** Encoders, for the statements: the byte of a number below 256 and the
    big-endian fields of a header. *)
Definition byte_of_Z (z : Z) : Byte.byte :=
  match Byte.of_N (Z.to_N (z mod 256)) with
  | Some b => b
  | None => Byte.x00
  end.

Definition be16 (v : Z) : bytes := [byte_of_Z (v / 256); byte_of_Z v].

Definition be32 (v : Z) : bytes :=
  [byte_of_Z (v / 16777216); byte_of_Z (v / 65536); byte_of_Z (v / 256); byte_of_Z v].

(** A JPEG segment: marker, two-byte length (which counts itself), data. *)
Definition jpeg_segment (seg : Byte.byte * bytes) : bytes :=
  [Byte.xff; fst seg] ++ be16 (Z.of_nat (List.length (snd seg)) + 2) ++ snd seg.

(** A segment the loop steps over: its marker is no fill byte, neither
    SOI nor EOI nor a start-of-frame, and its length fits two bytes. *)
Definition skipped_segment (seg : Byte.byte * bytes) : Prop :=
  Byte.eqb (fst seg) Byte.xff = false /\
  Byte.eqb (fst seg) Byte.xd8 = false /\
  Byte.eqb (fst seg) Byte.xd9 = false /\
  is_sof (fst seg) = false /\
  (Z.of_nat (List.length (snd seg)) + 2 < 65536)%Z.

(* ------------------------------------------------------------------ *)
(** ** detectors: ranking the persons found *)

Module base.

(** [detectors/base.py]: the [Detection] dataclass. *)
Record Detection : Type := mkDetection {
  id : Z;
  bbox : bbox4;
  score : Q
}.

End base.

(** An element of the local list [detections] of the two detect methods:
    the pair [((minx, miny, maxx, maxy), score)]. *)
Definition prediction : Type := (bbox4 * Q)%type.

(** [detections.sort(key=lambda x: x[1], reverse=True)].  Python's sort is
    stable, also with [reverse=True]: the result is in non-increasing
    order of score, and predictions of equal score keep their order.
    [insert_by_score] places a prediction behind every one whose score is
    not smaller. *)
Fixpoint insert_by_score (x : prediction) (sorted : list prediction) : list prediction :=
  match sorted with
  | [] => [x]
  | y :: rest =>
      if Qlt_bool (snd y) (snd x) then x :: y :: rest
      else y :: insert_by_score x rest
  end.

Definition sort_by_score (l : list prediction) : list prediction :=
  fold_left (fun acc x => insert_by_score x acc) l [].

(** [l[:stop]]: a negative [stop] counts from the end. *)
Definition py_slice_to {A : Type} (stop : Z) (l : list A) : list A :=
  if (stop <? 0)%Z then firstn (List.length l - Z.to_nat (- stop)) l
  else firstn (Z.to_nat stop) l.

(** [[Detection(id=i, bbox=bbox, score=score) for i, (bbox, score) in
    enumerate(...)]], counting from [i]. *)
Fixpoint enumerate_detections (i : Z) (l : list prediction) : list base.Detection :=
  match l with
  | [] => []
  | (bbox, score) :: rest =>
      base.mkDetection i bbox score :: enumerate_detections (i + 1) rest
  end.

(** What [_detect_with_sahi] returns for the person predictions it
    collected, and what [_detect_full_image] returns for its own. *)
Definition sahi_detections (max_det : Z) (detections : list prediction)
  : list base.Detection :=
  enumerate_detections 0 (py_slice_to max_det (sort_by_score detections)).

Definition full_image_detections (detections : list prediction) : list base.Detection :=
  enumerate_detections 0 (sort_by_score detections).

(** The predictions of score [s]. *)
Definition same_score (s : Q) (p : prediction) : bool := Qeq_bool (snd p) s.

Definition prediction_of (d : base.Detection) : prediction := (base.bbox d, base.score d).

(** Scores in non-increasing order. *)
Definition by_score (a b : prediction) : Prop := snd b <= snd a.

Definition ranked (out : list base.Detection) : Prop :=
  StronglySorted (fun a b => base.score b <= base.score a) out.

(* ------------------------------------------------------------------ *)
(** ** output.py: the record the pipeline writes *)

(** [{"id": det.id, "bbox": list(det.bbox), "score": float(det.score)}]. *)
Definition detection_record (det : base.Detection) : pydict :=
  [ ("id", JInt (base.id det));
    ("bbox", json_of_bbox (base.bbox det));
    ("score", JFloat (base.score det)) ].

(** [write_per_image_json]: the payload it dumps to [output_path].  An
    absent or empty [extra] adds nothing. *)
Definition write_per_image_json (file_name relative_path : string) (width height : Z)
    (detections : list base.Detection) (extra : option pydict) : pydict :=
  let payload :=
    [ ("format_version", JStr "1.0");
      ("image", JDict [ ("file_name", JStr file_name);
                        ("relative_path", JStr relative_path);
                        ("width", JInt width);
                        ("height", JInt height) ]);
      ("detections", JList (map (fun det => JDict (detection_record det)) detections)) ] in
  match extra with
  | Some (kv :: rest) => dict_set "extra" (JDict (kv :: rest)) payload
  | _ => payload
  end.

(** The detections [load] keeps or reports for a written record, as
    [Detection]s: a degenerate box is dropped, any other is clamped. *)
Definition degenerate (b : bbox4) : bool :=
  Qle_bool (bx_max b) (bx_min b) || Qle_bool (by_max b) (by_min b).

Definition reloaded (w h : Z) (det : base.Detection) : base.Detection :=
  let clamped := _clamp_bbox (base.bbox det) w h in
  if bbox_eqb clamped (base.bbox det) then det
  else base.mkDetection (base.id det) clamped (base.score det).

(* ================================================================== *)
(** * Properties *)

(** ** Comparisons and the clamp *)

Lemma Qlt_bool_true (a b : Q) : Qlt_bool a b = true -> a < b.
Proof.
  unfold Qlt_bool. intros H. apply negb_true_iff in H.
  apply Qnot_le_lt. intro L. apply Qle_bool_iff in L. congruence.
Qed.

Lemma Qlt_bool_false (a b : Q) : Qlt_bool a b = false -> b <= a.
Proof.
  unfold Qlt_bool. intros H. apply negb_false_iff in H.
  now apply Qle_bool_iff.
Qed.

Lemma Qle_bool_false (a b : Q) : Qle_bool a b = false -> b < a.
Proof.
  intros H. apply Qnot_le_lt. intro L. apply Qle_bool_iff in L. congruence.
Qed.

Lemma inject_Z_ge_1 (n : Z) : (1 <= n)%Z -> 1 <= inject_Z n.
Proof. intros H. change 1 with (inject_Z 1). now rewrite <- Zle_Qle. Qed.

(** Case analysis on the innermost comparison of the goal that is still
    undecided; branches the arithmetic refutes are closed at once. *)
Ltac no_test t :=
  lazymatch t with
  | context [Qlt_bool _ _] => fail
  | _ => idtac
  end.

Ltac qtest :=
  match goal with
  | |- context [Qlt_bool ?a ?b] =>
      no_test a; no_test b;
      let E := fresh "E" in
      destruct (Qlt_bool a b) eqn:E;
      [apply Qlt_bool_true in E | apply Qlt_bool_false in E];
      try (exfalso; lra)
  end.

Ltac qcases := unfold _clamp, py_max, py_min; repeat qtest; cbn [fst snd].

Lemma clamp_between (v low high : Q) :
  low <= high -> low <= _clamp v low high /\ _clamp v low high <= high.
Proof. intros H. qcases; lra. Qed.

Lemma clamp_axis_bounds (lo hi w : Q) :
  1 <= w ->
  0 <= fst (clamp_axis lo hi w) /\
  snd (clamp_axis lo hi w) <= w /\
  1 <= snd (clamp_axis lo hi w) - fst (clamp_axis lo hi w).
Proof. intros Hw. unfold clamp_axis. qcases; repeat split; lra. Qed.

(** A pair that already meets the bounds is a fixed point, as a number. *)
Lemma clamp_axis_fix (lo hi w : Q) :
  0 <= lo -> hi <= w -> 1 <= hi - lo ->
  fst (clamp_axis lo hi w) == lo /\ snd (clamp_axis lo hi w) == hi.
Proof. intros. unfold clamp_axis. qcases; split; lra. Qed.

Lemma clamp_bbox_x (b : bbox4) (w h : Z) :
  bx_min (_clamp_bbox b w h) = fst (clamp_axis (bx_min b) (bx_max b) (float_of_int w)) /\
  bx_max (_clamp_bbox b w h) = snd (clamp_axis (bx_min b) (bx_max b) (float_of_int w)).
Proof.
  unfold _clamp_bbox.
  destruct (clamp_axis (bx_min b) (bx_max b) (float_of_int w)).
  destruct (clamp_axis (by_min b) (by_max b) (float_of_int h)).
  now split.
Qed.

Lemma clamp_bbox_y (b : bbox4) (w h : Z) :
  by_min (_clamp_bbox b w h) = fst (clamp_axis (by_min b) (by_max b) (float_of_int h)) /\
  by_max (_clamp_bbox b w h) = snd (clamp_axis (by_min b) (by_max b) (float_of_int h)).
Proof.
  unfold _clamp_bbox.
  destruct (clamp_axis (bx_min b) (bx_max b) (float_of_int w)).
  destruct (clamp_axis (by_min b) (by_max b) (float_of_int h)).
  now split.
Qed.

Lemma clamp_bbox_in_bounds (b : bbox4) (w h : Z) :
  (1 <= w)%Z -> (1 <= h)%Z -> in_bounds (_clamp_bbox b w h) w h.
Proof.
  intros Hw Hh. unfold in_bounds.
  destruct (clamp_bbox_x b w h) as [-> ->].
  destruct (clamp_bbox_y b w h) as [-> ->].
  pose proof (clamp_axis_bounds (bx_min b) (bx_max b) _ (inject_Z_ge_1 w Hw)).
  pose proof (clamp_axis_bounds (by_min b) (by_max b) _ (inject_Z_ge_1 h Hh)).
  unfold float_of_int in *. tauto.
Qed.

Lemma clamp_bbox_fix (b : bbox4) (w h : Z) :
  in_bounds b w h -> bbox_eq (_clamp_bbox b w h) b.
Proof.
  intros (H1 & H2 & H3 & H4 & H5 & H6). unfold bbox_eq.
  destruct (clamp_bbox_x b w h) as [-> ->].
  destruct (clamp_bbox_y b w h) as [-> ->].
  pose proof (clamp_axis_fix (bx_min b) (bx_max b) (float_of_int w) H1 H3 H5).
  pose proof (clamp_axis_fix (by_min b) (by_max b) (float_of_int h) H2 H4 H6).
  tauto.
Qed.

Lemma bbox_eqb_eq (a b : bbox4) : bbox_eqb a b = true <-> bbox_eq a b.
Proof.
  unfold bbox_eqb, bbox_eq. rewrite !andb_true_iff, !Qeq_bool_iff. tauto.
Qed.

Lemma in_bounds_strict (b : bbox4) (w h : Z) :
  in_bounds b w h -> strictly_in_bounds b w h.
Proof. unfold in_bounds, strictly_in_bounds. intros; repeat split; lra. Qed.

Lemma in_bounds_eq (a b : bbox4) (w h : Z) :
  bbox_eq a b -> in_bounds a w h -> in_bounds b w h.
Proof.
  unfold bbox_eq, in_bounds. intros (E1 & E2 & E3 & E4) H.
  rewrite <- E1, <- E2, <- E3, <- E4. exact H.
Qed.

(** C10.  [_clamp_bbox] is defined on every rectangle, inverted ones
    included, and for an image of width and height at least 1 its result
    has [0 <= xmin], [0 <= ymin], [xmax <= width], [ymax <= height],
    [xmax - xmin >= 1] and [ymax - ymin >= 1]. *)
Theorem clamp_bbox_total (b : bbox4) (w h : Z) :
  (1 <= w)%Z -> (1 <= h)%Z ->
  exists c : bbox4, _clamp_bbox b w h = c /\ in_bounds c w h.
Proof.
  intros Hw Hh. exists (_clamp_bbox b w h). split; [reflexivity|].
  now apply clamp_bbox_in_bounds.
Qed.

(** An inverted rectangle on a 10 x 10 image. *)
Lemma clamp_bbox_total_witness :
  (1 <= 10)%Z /\ (1 <= 10)%Z /\
  exists c : bbox4, _clamp_bbox (BBox4 7 8 2 (-3)) 10 10 = c /\ in_bounds c 10 10.
Proof.
  split; [lia|]. split; [lia|].
  apply (clamp_bbox_total (BBox4 7 8 2 (-3)) 10 10); lia.
Defined.

(** C3.  The clamp is idempotent: for positive width and height a second
    application returns the same four numbers as the first, and the
    comparison the code itself makes ([clamped != bbox]) sees no change. *)
Theorem clamp_bbox_idempotent (b : bbox4) (w h : Z) :
  (1 <= w)%Z -> (1 <= h)%Z ->
  bbox_eq (_clamp_bbox (_clamp_bbox b w h) w h) (_clamp_bbox b w h) /\
  bbox_eqb (_clamp_bbox (_clamp_bbox b w h) w h) (_clamp_bbox b w h) = true.
Proof.
  intros Hw Hh.
  assert (E : bbox_eq (_clamp_bbox (_clamp_bbox b w h) w h) (_clamp_bbox b w h)).
  { apply clamp_bbox_fix. now apply clamp_bbox_in_bounds. }
  split; [exact E | now apply bbox_eqb_eq].
Qed.

Lemma clamp_bbox_idempotent_witness :
  (1 <= 40)%Z /\ (1 <= 30)%Z /\
  bbox_eq (_clamp_bbox (_clamp_bbox (BBox4 (-5) (61 # 2) (3 # 10) 50) 40 30) 40 30)
          (_clamp_bbox (BBox4 (-5) (61 # 2) (3 # 10) 50) 40 30).
Proof.
  split; [lia|]. split; [lia|].
  apply (clamp_bbox_idempotent (BBox4 (-5) (61 # 2) (3 # 10) 50) 40 30); lia.
Defined.

(** ** Dictionaries *)

Lemma dict_get_set_same (k : string) (v : json) (d : pydict) :
  dict_get k (dict_set k v d) = Some v.
Proof.
  induction d as [|[k' v'] d IH]; simpl.
  - now rewrite String.eqb_refl.
  - destruct (String.eqb k k') eqn:E; simpl; rewrite E; auto.
Qed.

Lemma dict_get_set_other (k k' : string) (v : json) (d : pydict) :
  String.eqb k' k = false -> dict_get k' (dict_set k v d) = dict_get k' d.
Proof.
  intros N. induction d as [|[k0 v0] d IH]; simpl.
  - now rewrite N.
  - destruct (String.eqb k k0) eqn:E; simpl.
    + apply String.eqb_eq in E. subst k0. now rewrite N.
    + now rewrite IH.
Qed.

Lemma dict_set_get_same (k : string) (v : json) (d : pydict) :
  dict_get k d = Some v -> dict_set k v d = d.
Proof.
  induction d as [|[k' v'] d IH]; simpl; [discriminate|].
  destruct (String.eqb k k') eqn:E.
  - now intros [= ->].
  - intros H. now rewrite IH.
Qed.

Lemma py_get_set_same (k : string) (v : json) (d : pydict) :
  py_get k (dict_set k v d) = v.
Proof. unfold py_get. now rewrite dict_get_set_same. Qed.

Lemma py_get_set_other (k k' : string) (v : json) (d : pydict) :
  String.eqb k' k = false -> py_get k' (dict_set k v d) = py_get k' d.
Proof. intros N. unfold py_get. now rewrite dict_get_set_other. Qed.

Lemma bbox_of_json_of_bbox (c : bbox4) : bbox_of_json (json_of_bbox c) = Some c.
Proof. now destruct c. Qed.

(** ** add_box *)

(** C5.  [add_box] stores the clamped rectangle under the id [next_id],
    advances [next_id] by exactly 1, appends the new detection (score 1.0)
    at the end of the sequence, sets [dirty] and returns that detection;
    the stored bbox is within the image with minimum size 1 when the image
    is at least 1 x 1, and on a 100 x 100 image [[-10, -10, 5, 5]] is stored
    as [[0, 0, 5, 5]]. *)
Theorem add_box_spec (s : AnnotationSession) (bbox : bbox4) :
  let s' := fst (add_box s bbox) in
  let det := snd (add_box s bbox) in
  let c := _clamp_bbox bbox (width s) (height s) in
  det = [("id", JInt (next_id s)); ("bbox", json_of_bbox c); ("score", JFloat 1)] /\
  det_bbox det = Some c /\
  detections s' = detections s ++ [det] /\
  next_id s' = (next_id s + 1)%Z /\
  dirty s' = true /\
  (entry s', width s', height s', payload s') = (entry s, width s, height s, payload s) /\
  ((1 <= width s)%Z -> (1 <= height s)%Z -> in_bounds c (width s) (height s)) /\
  (width s = 100%Z -> height s = 100%Z -> bbox = BBox4 (-10) (-10) 5 5 ->
   py_get "bbox" det = JList [JFloat 0; JFloat 0; JFloat 5; JFloat 5]).
Proof.
  cbn -[_clamp_bbox].
  split; [reflexivity|]. split; [apply bbox_of_json_of_bbox|].
  split; [reflexivity|]. split; [reflexivity|]. split; [reflexivity|].
  split; [reflexivity|]. split.
  - intros Hw Hh. now apply clamp_bbox_in_bounds.
  - intros -> -> ->. reflexivity.
Qed.

Lemma add_box_spec_witness :
  let s := mkSession (mkImageEntry ["in"; "a.png"] "a.png" ["out"; "a.json"])
                     100 100 (_new_payload (mkImageEntry [] "" []) 100 100)
                     [[("id", JInt 6); ("bbox", JList [JInt 1; JInt 1; JInt 9; JInt 9]);
                       ("score", JFloat (1 # 2))]]
                     7 false in
  (1 <= width s)%Z /\ (1 <= height s)%Z /\
  next_id (fst (add_box s (BBox4 (-10) (-10) 5 5))) = 8%Z /\
  snd (add_box s (BBox4 (-10) (-10) 5 5)) =
    [("id", JInt 7); ("bbox", JList [JFloat 0; JFloat 0; JFloat 5; JFloat 5]);
     ("score", JFloat 1)] /\
  in_bounds (_clamp_bbox (BBox4 (-10) (-10) 5 5) 100 100) 100 100.
Proof.
  intros s.
  pose proof (add_box_spec s (BBox4 (-10) (-10) 5 5)) as H.
  cbv zeta in H. destruct H as (Hd & _ & _ & Hn & _ & _ & Hb & _).
  split; [simpl; lia|]. split; [simpl; lia|].
  split; [exact Hn|]. split; [exact Hd|].
  apply Hb; simpl; lia.
Defined.

(** ** load *)

Lemma load_fold (w h : Z) (raw : list json) (st : list pydict * LoadReport) :
  fold_left (load_iter w h) raw st =
  (fst st ++ kept_entries w h raw,
   mkLoadReport (created_new_json (snd st)) (json_parse_failed (snd st))
                (dropped_invalid (snd st) ++ dropped_ids w h raw)
                (clamped_count (snd st) + clamp_hits w h raw)%Z).
Proof.
  revert st. induction raw as [|det raw IH]; intros [dets r].
  - cbn. rewrite !app_nil_r, Z.add_0_r. now destruct r.
  - cbn [fold_left]. rewrite IH. unfold load_iter.
    unfold kept_entries, dropped_ids, clamp_hits.
    cbn [flat_map filter].
    destruct (examine w h det) as [|det_id|d [|]]; cbn [fst snd app List.length
      report_drop report_clamp created_new_json json_parse_failed
      dropped_invalid clamped_count].
    + reflexivity.
    + now rewrite <- app_assoc.
    + rewrite <- app_assoc. cbn [app]. f_equal. f_equal. lia.
    + now rewrite <- app_assoc.
Qed.

Lemma load_loop_spec (w h : Z) (raw : list json) (r0 : LoadReport) :
  load_loop w h raw r0 =
  (kept_entries w h raw,
   mkLoadReport (created_new_json r0) (json_parse_failed r0)
                (dropped_invalid r0 ++ dropped_ids w h raw)
                (clamped_count r0 + clamp_hits w h raw)%Z).
Proof. unfold load_loop. now rewrite load_fold. Qed.

Lemma load_parsed (e : ImageEntry) (w h : Z) (p : pydict) :
  exists ld : loaded,
    load e w h (Parsed (JDict p)) = Ok ld /\
    detections (ld_session ld) = kept_entries w h (raw_detections p) /\
    dropped_invalid (ld_report ld) = dropped_ids w h (raw_detections p) /\
    clamped_count (ld_report ld) = clamp_hits w h (raw_detections p) /\
    created_new_json (ld_report ld) = false /\
    json_parse_failed (ld_report ld) = false /\
    ld_written ld = None /\
    width (ld_session ld) = w /\ height (ld_session ld) = h /\
    next_id (ld_session ld) = (max_id (kept_entries w h (raw_detections p)) + 1)%Z /\
    dirty (ld_session ld) =
      (nonempty (dropped_ids w h (raw_detections p))
       || negb (Z.eqb (clamp_hits w h (raw_detections p)) 0)) /\
    payload (ld_session ld) =
      (if nonempty (dropped_ids w h (raw_detections p))
       then dict_set "detections"
                     (JList (map JDict (kept_entries w h (raw_detections p)))) p
       else p).
Proof.
  unfold load. rewrite load_loop_spec.
  cbn [created_new_json json_parse_failed dropped_invalid clamped_count app].
  eexists. split; [reflexivity|].
  cbn [ld_session ld_report ld_written detections dropped_invalid clamped_count
       created_new_json json_parse_failed width height next_id dirty payload].
  rewrite !orb_false_r. repeat split.
Qed.

Lemma load_fresh (e : ImageEntry) (w h : Z) (file : json_file) :
  file = Missing \/ file = Unparseable ->
  exists ld : loaded,
    load e w h file = Ok ld /\ detections (ld_session ld) = [].
Proof.
  intros [-> | ->]; eexists; split; reflexivity.
Qed.

(** What a kept entry looks like. *)
Lemma examine_kept (w h : Z) (det : json) (d : pydict) (c : bool) :
  examine w h det = Kept d c ->
  exists (d0 : pydict) (b : bbox4),
    det = JDict d0 /\
    is_int (py_get "id" d0) = true /\
    is_number (py_get "score" d0) = true /\
    det_bbox d0 = Some b /\
    bx_min b < bx_max b /\ by_min b < by_max b /\
    (if c
     then bbox_eqb (_clamp_bbox b w h) b = false /\
          d = dict_set "bbox" (json_of_bbox (_clamp_bbox b w h)) d0
     else bbox_eqb (_clamp_bbox b w h) b = true /\ d = d0).
Proof.
  unfold examine, det_bbox. destruct det as [| | | | | |d0]; try discriminate.
  destruct (is_int (py_get "id" d0)) eqn:Ei; cbn [negb]; [|discriminate].
  destruct (bbox_of_json (py_get "bbox" d0)) as [b|] eqn:Eb; [|discriminate].
  destruct (is_number (py_get "score" d0)) eqn:Es; cbn [negb]; [|discriminate].
  destruct (Qle_bool (bx_max b) (bx_min b)) eqn:Ex; [discriminate|].
  destruct (Qle_bool (by_max b) (by_min b)) eqn:Ey; [discriminate|].
  cbn [orb]. apply Qle_bool_false in Ex, Ey.
  destruct (bbox_eqb (_clamp_bbox b w h) b) eqn:Ec; cbn [negb];
    intros [= <- <-]; exists d0, b; repeat split; auto.
Qed.

Lemma kept_entries_in (w h : Z) (raw : list json) (d : pydict) :
  In d (kept_entries w h raw) ->
  exists (det : json) (c : bool), In det raw /\ examine w h det = Kept d c.
Proof.
  unfold kept_entries. rewrite in_flat_map. intros (det & Hin & Hd).
  destruct (examine w h det) as [| |d' c] eqn:E; try contradiction.
  destruct Hd as [<-|[]]. now exists det, c.
Qed.

Lemma kept_entry_ok (w h : Z) (det : json) (d : pydict) (c : bool) :
  (1 <= w)%Z -> (1 <= h)%Z ->
  examine w h det = Kept d c -> detection_ok w h d.
Proof.
  intros Hw Hh E. apply examine_kept in E.
  destruct E as (d0 & b & -> & _ & _ & Eb & _ & _ & Hc).
  pose proof (clamp_bbox_in_bounds b w h Hw Hh) as Hin.
  destruct c.
  - destruct Hc as [_ ->]. exists (_clamp_bbox b w h). split.
    + unfold det_bbox. rewrite py_get_set_same. apply bbox_of_json_of_bbox.
    + now apply in_bounds_strict.
  - destruct Hc as [Hc ->]. exists b. split; [exact Eb|].
    apply in_bounds_strict. apply bbox_eqb_eq in Hc.
    now apply (in_bounds_eq _ _ w h Hc).
Qed.

(** C1.  For an image of size (W, H) with W, H >= 1 and any stored record,
    every detection of the session that [load] returns has a bbox with
    [0 <= xmin < xmax <= W], [0 <= ymin < ymax <= H], [xmax - xmin >= 1]
    and [ymax - ymin >= 1]; and [load] does return a session when the file
    is absent, unreadable, or holds a JSON object. *)
Theorem load_detections_in_bounds (e : ImageEntry) (w h : Z) (file : json_file) :
  (1 <= w)%Z -> (1 <= h)%Z ->
  (is_record file -> exists ld : loaded, load e w h file = Ok ld) /\
  (forall ld : loaded,
     load e w h file = Ok ld ->
     width (ld_session ld) = w /\ height (ld_session ld) = h /\
     forall d : pydict, In d (detections (ld_session ld)) -> detection_ok w h d).
Proof.
  intros Hw Hh. split.
  - intros Hrec. destruct file as [| |j].
    + destruct (load_fresh e w h Missing) as (ld & E & _); [now left|].
      now exists ld.
    + destruct (load_fresh e w h Unparseable) as (ld & E & _); [now right|].
      now exists ld.
    + destruct j as [| | | | | |p]; try contradiction.
      destruct (load_parsed e w h p) as (ld & El & _). now exists ld.
  - intros ld El. destruct file as [| |j].
    + injection El as <-. cbn. repeat split. intros d [].
    + injection El as <-. cbn. repeat split. intros d [].
    + destruct j as [| | | | | |p]; try discriminate El.
      destruct (load_parsed e w h p)
        as (ld' & El' & Ed & _ & _ & _ & _ & _ & Ew & Eh & _).
      rewrite El in El'. injection El' as <-.
      split; [exact Ew|]. split; [exact Eh|].
      intros d Hin. rewrite Ed in Hin.
      apply kept_entries_in in Hin. destruct Hin as (det & c & _ & E).
      now apply (kept_entry_ok w h det d c).
Qed.

Lemma load_detections_in_bounds_witness :
  let file := Parsed (JDict [("detections",
                              JList [JDict overflowing_entry; JDict degenerate_entry])]) in
  let e := mkImageEntry ["a.png"] "a.png" ["a.json"] in
  (1 <= 40)%Z /\ (1 <= 40)%Z /\
  exists ld : loaded,
    load e 40 40 file = Ok ld /\
    detections (ld_session ld) = [overflowing_entry_clamped] /\
    forall d : pydict, In d (detections (ld_session ld)) -> detection_ok 40 40 d.
Proof.
  intros file e. split; [lia|]. split; [lia|].
  destruct (load_detections_in_bounds e 40 40 file) as [_ H]; [lia | lia |].
  eexists. split; [reflexivity|]. split; [reflexivity|].
  exact (proj2 (proj2 (H _ eq_refl))).
Defined.

Lemma kept_entries_app (w h : Z) (l1 l2 : list json) :
  kept_entries w h (l1 ++ l2) = kept_entries w h l1 ++ kept_entries w h l2.
Proof. unfold kept_entries. apply flat_map_app. Qed.

Lemma dropped_ids_app (w h : Z) (l1 l2 : list json) :
  dropped_ids w h (l1 ++ l2) = dropped_ids w h l1 ++ dropped_ids w h l2.
Proof. unfold dropped_ids. apply flat_map_app. Qed.

Lemma clamp_hits_app (w h : Z) (l1 l2 : list json) :
  clamp_hits w h (l1 ++ l2) = (clamp_hits w h l1 + clamp_hits w h l2)%Z.
Proof. unfold clamp_hits. rewrite filter_app, length_app. lia. Qed.

Lemma examine_degenerate (w h : Z) :
  examine w h (JDict degenerate_entry) = Dropped (JInt 3).
Proof. reflexivity. Qed.

Lemma examine_overflowing :
  examine 40 40 (JDict overflowing_entry) = Kept overflowing_entry_clamped true.
Proof. reflexivity. Qed.

Lemma degenerate_never_kept (w h : Z) (raw : list json) :
  ~ In degenerate_entry (kept_entries w h raw).
Proof.
  intros Hin. apply kept_entries_in in Hin. destruct Hin as (det & c & _ & E).
  pose proof (examine_kept w h det _ c E) as (d0 & b & -> & _ & _ & _ & _ & _ & Hc).
  destruct c.
  - destruct Hc as [_ Hd].
    apply (f_equal (py_get "bbox")) in Hd. rewrite py_get_set_same in Hd.
    discriminate Hd.
  - destruct Hc as [_ <-]. rewrite examine_degenerate in E. discriminate E.
Qed.

(** C6.  A record holding [{id: 3, bbox: [10,10,10,20], score: 0.5}] loads
    without that entry, and 3 is reported among the dropped ids at the
    entry's place; a record holding [{id: 4, bbox: [-5,-5,50,50], score:
    0.9}] loads, for a 40 x 40 image, with the entry kept at its place, its
    bbox replaced by [[0,0,40,40]], and counted once in [clamped_count].
    The neighbours of the entry contribute what they contribute alone. *)
Theorem load_drop_and_clamp_examples
        (e : ImageEntry) (p : pydict) (before after : list json) :
  (forall w h : Z,
     dict_get "detections" p = Some (JList (before ++ JDict degenerate_entry :: after)) ->
     exists ld : loaded,
       load e w h (Parsed (JDict p)) = Ok ld /\
       detections (ld_session ld) = kept_entries w h before ++ kept_entries w h after /\
       ~ In degenerate_entry (detections (ld_session ld)) /\
       dropped_invalid (ld_report ld) =
         dropped_ids w h before ++ JInt 3 :: dropped_ids w h after) /\
  (dict_get "detections" p = Some (JList (before ++ JDict overflowing_entry :: after)) ->
   exists ld : loaded,
     load e 40 40 (Parsed (JDict p)) = Ok ld /\
     detections (ld_session ld) =
       kept_entries 40 40 before ++ overflowing_entry_clamped :: kept_entries 40 40 after /\
     det_bbox overflowing_entry_clamped = Some (BBox4 0 0 40 40) /\
     clamped_count (ld_report ld) =
       (clamp_hits 40 40 before + 1 + clamp_hits 40 40 after)%Z).
Proof.
  split.
  - intros w h Hp.
    destruct (load_parsed e w h p) as (ld & El & Ed & Edr & _).
    unfold raw_detections in Ed, Edr. rewrite Hp in Ed, Edr.
    exists ld. split; [exact El|].
    assert (Ek : detections (ld_session ld)
                 = kept_entries w h before ++ kept_entries w h after).
    { rewrite Ed. change (JDict degenerate_entry :: after)
        with ([JDict degenerate_entry] ++ after).
      now rewrite !kept_entries_app. }
    split; [exact Ek|]. split.
    + rewrite Ed. apply degenerate_never_kept.
    + rewrite Edr. change (JDict degenerate_entry :: after)
        with ([JDict degenerate_entry] ++ after).
      now rewrite !dropped_ids_app.
  - intros Hp.
    destruct (load_parsed e 40 40 p) as (ld & El & Ed & _ & Ec & _).
    unfold raw_detections in Ed, Ec. rewrite Hp in Ed, Ec.
    exists ld. split; [exact El|]. split; [|split; [reflexivity|]].
    + rewrite Ed. change (JDict overflowing_entry :: after)
        with ([JDict overflowing_entry] ++ after).
      now rewrite !kept_entries_app.
    + rewrite Ec. change (JDict overflowing_entry :: after)
        with ([JDict overflowing_entry] ++ after).
      rewrite !clamp_hits_app. change (clamp_hits 40 40 [JDict overflowing_entry]) with 1%Z.
      lia.
Qed.

Lemma load_drop_and_clamp_examples_witness :
  let e := mkImageEntry ["in"; "a.png"] "a.png" ["out"; "a.json"] in
  let p := [("format_version", JStr "1.0");
            ("detections", JList [JDict degenerate_entry; JDict overflowing_entry])] in
  dict_get "detections" p = Some (JList ([] ++ JDict degenerate_entry :: [JDict overflowing_entry])) /\
  exists ld : loaded,
    load e 40 40 (Parsed (JDict p)) = Ok ld /\
    detections (ld_session ld) = [overflowing_entry_clamped] /\
    dropped_invalid (ld_report ld) = [JInt 3].
Proof.
  intros e p. split; [reflexivity|].
  destruct (load_drop_and_clamp_examples e p [] [JDict overflowing_entry]) as [H _].
  destruct (H 40%Z 40%Z eq_refl) as (ld & El & Ed & _ & Er).
  exists ld. split; [exact El|]. split; [exact Ed | exact Er].
Defined.

(** ** save *)

Lemma valid_detection_kept (w h : Z) (det : json) :
  valid_detection w h det ->
  exists d : pydict, det = JDict d /\ examine w h det = Kept d false /\ save_det w h d = d.
Proof.
  intros (d & b & -> & Hi & Hs & Hb & Hin). exists d. split; [reflexivity|].
  pose proof (clamp_bbox_fix b w h Hin) as Hfix. apply bbox_eqb_eq in Hfix.
  destruct Hin as (H1 & H2 & H3 & H4 & H5 & H6).
  unfold examine, save_det. unfold det_bbox in Hb. rewrite Hi, Hb, Hs, Hfix. cbn [negb].
  assert (Ex : Qle_bool (bx_max b) (bx_min b) = false).
  { destruct (Qle_bool (bx_max b) (bx_min b)) eqn:E; [|reflexivity].
    apply Qle_bool_iff in E. lra. }
  assert (Ey : Qle_bool (by_max b) (by_min b) = false).
  { destruct (Qle_bool (by_max b) (by_min b)) eqn:E; [|reflexivity].
    apply Qle_bool_iff in E. lra. }
  rewrite Ex, Ey. now split.
Qed.

Lemma valid_entries_kept (w h : Z) (raw : list json) :
  Forall (valid_detection w h) raw ->
  map JDict (kept_entries w h raw) = raw /\
  dropped_ids w h raw = [] /\
  clamp_hits w h raw = 0%Z /\
  map (save_det w h) (kept_entries w h raw) = kept_entries w h raw.
Proof.
  induction 1 as [|det raw Hd _ IH].
  - now cbn.
  - destruct IH as (I1 & I2 & I3 & I4).
    destruct (valid_detection_kept w h det Hd) as (d & -> & E & Es).
    unfold kept_entries, dropped_ids, clamp_hits in *.
    cbn [flat_map filter]. rewrite E. cbn [app map].
    rewrite I1, I2, I4, Es. now repeat split.
Qed.

(** C2.  When every entry of a record already satisfies the invariants,
    nothing is dropped or clamped on load, and saving the loaded session
    writes the record itself: same detections in the same order, and every
    top-level key, unknown ones included, with its value and at its
    place. *)
Theorem save_load_roundtrip
        (e : ImageEntry) (w h : Z) (p : pydict) (raw : list json) :
  valid_record w h p raw ->
  exists ld : loaded,
    load e w h (Parsed (JDict p)) = Ok ld /\
    dropped_invalid (ld_report ld) = [] /\
    clamped_count (ld_report ld) = 0%Z /\
    map JDict (detections (ld_session ld)) = raw /\
    snd (save (ld_session ld)) = p /\
    raw_detections (snd (save (ld_session ld))) = raw /\
    (forall k : string,
       dict_get k (snd (save (ld_session ld))) = dict_get k p).
Proof.
  intros [Hp Hv].
  destruct (load_parsed e w h p)
    as (ld & El & Ed & Edr & Ec & _ & _ & _ & Ew & Eh & _ & _ & Epay).
  assert (Hraw : raw_detections p = raw) by (unfold raw_detections; now rewrite Hp).
  rewrite Hraw in *.
  destruct (valid_entries_kept w h raw Hv) as (K1 & K2 & K3 & K4).
  rewrite K2 in Epay. cbn [nonempty] in Epay.
  assert (Es : snd (save (ld_session ld)) = p).
  { unfold save. cbn [snd]. rewrite Ew, Eh, Ed, K4, K1, Epay.
    now apply dict_set_get_same. }
  exists ld. split; [exact El|]. split; [now rewrite Edr|].
  split; [now rewrite Ec|]. split; [now rewrite Ed|].
  split; [exact Es|]. split; [now rewrite Es|].
  intros k. now rewrite Es.
Qed.

Lemma save_load_roundtrip_witness :
  let p := [("format_version", JStr "1.0");
            ("producer", JDict [("name", JStr "yolo"); ("slices", JInt 4)]);
            ("detections",
             JList [JDict [("id", JInt 2);
                           ("bbox", JList [JInt 0; JFloat (5 # 2); JInt 40; JInt 30]);
                           ("score", JFloat (3 # 4)); ("label", JStr "cat")]]);
            ("image", JNull)] in
  valid_record 40 30 p (raw_detections p) /\
  exists ld : loaded,
    load (mkImageEntry ["a.png"] "a.png" ["a.json"]) 40 30 (Parsed (JDict p)) = Ok ld /\
    snd (save (ld_session ld)) = p.
Proof.
  intros p.
  assert (Hv : valid_record 40 30 p (raw_detections p)).
  { split; [reflexivity|]. constructor; [|constructor].
    eexists. exists (BBox4 0 (5 # 2) 40 30).
    split; [reflexivity|]. split; [reflexivity|]. split; [reflexivity|].
    split; [reflexivity|]. unfold in_bounds, Qle. cbn. repeat split; lia. }
  split; [exact Hv|].
  destruct (save_load_roundtrip (mkImageEntry ["a.png"] "a.png" ["a.json"])
              40 30 p (raw_detections p) Hv) as (ld & El & _ & _ & _ & Es & _).
  exists ld. now split.
Defined.

Lemma save_det_saved_as (w h : Z) (d : pydict) :
  (1 <= w)%Z -> (1 <= h)%Z -> saved_as w h d (save_det w h d).
Proof.
  intros Hw Hh. unfold saved_as, save_det, det_bbox.
  destruct (bbox_of_json (py_get "bbox" d)) as [b|] eqn:Eb; [|reflexivity].
  pose proof (clamp_bbox_in_bounds b w h Hw Hh) as Hin.
  destruct (bbox_eqb (_clamp_bbox b w h) b) eqn:Ec; cbn [negb].
  - apply bbox_eqb_eq in Ec. exists b. split; [exact Eb|]. split.
    + now apply (in_bounds_eq _ _ w h Ec).
    + unfold bbox_eq in *. intuition (symmetry; assumption).
  - exists (_clamp_bbox b w h). split.
    + rewrite py_get_set_same. apply bbox_of_json_of_bbox.
    + split; [exact Hin|]. unfold bbox_eq. repeat split; reflexivity.
Qed.

(** C4, as amended.  For a session of an image at least 1 x 1, [save]
    writes the payload with its ["detections"] replaced by the session's
    detections, in order, where every detection whose bbox is a list of
    four numbers carries the clamp of that bbox (within the image, minimum
    size 1) and every other detection is written as it is; the other
    top-level keys are untouched, [next_id] is unchanged and [dirty] is
    false afterwards. *)
Theorem save_reclamps_wellformed (s : AnnotationSession) :
  (1 <= width s)%Z -> (1 <= height s)%Z ->
  let s' := fst (save s) in
  let p := snd (save s) in
  dirty s' = false /\
  next_id s' = next_id s /\
  payload s' = p /\
  raw_detections p = map JDict (detections s') /\
  Forall2 (saved_as (width s) (height s)) (detections s) (detections s') /\
  (forall k : string,
     String.eqb k "detections" = false -> dict_get k p = dict_get k (payload s)).
Proof.
  intros Hw Hh. cbn [save fst snd dirty next_id payload detections].
  split; [reflexivity|]. split; [reflexivity|]. split; [reflexivity|]. split.
  - unfold raw_detections. now rewrite dict_get_set_same.
  - split.
    + induction (detections s) as [|d l IH]; cbn [map]; constructor; auto.
      now apply save_det_saved_as.
    + intros k Hk. now apply dict_get_set_other.
Qed.

Lemma save_reclamps_wellformed_witness :
  let s := mkSession (mkImageEntry ["a.png"] "a.png" ["a.json"]) 40 40
                     [("detections", JList [])]
                     [overflowing_entry; degenerate_entry] 5 true in
  (1 <= width s)%Z /\ (1 <= height s)%Z /\
  dirty (fst (save s)) = false /\
  Forall2 (saved_as 40 40) (detections s) (detections (fst (save s))).
Proof.
  intros s.
  assert (Hw : (1 <= width s)%Z) by (simpl; lia).
  assert (Hh : (1 <= height s)%Z) by (simpl; lia).
  destruct (save_reclamps_wellformed s Hw Hh) as (Hd & _ & _ & _ & Hf & _).
  split; [exact Hw|]. split; [exact Hh|]. split; [exact Hd | exact Hf].
Defined.

(** C4, as stated, fails: a bbox that is not a list of four numbers is
    skipped by the loop of [save] and written as it stands. *)
Lemma save_skips_malformed_bbox : ~ save_bounds_everything tampered_session.
Proof.
  intros [H _].
  destruct (H (JDict [("id", JInt 0); ("bbox", JList [JInt (-5); JInt 0; JInt 50]);
                      ("score", JFloat 1)])) as (d & b & Ed & Eb & _).
  - cbn. now left.
  - injection Ed as <-. discriminate Eb.
Qed.

(** ** Python equality *)

Lemma entries_unique_spec (ok : json -> bool) (d : pydict) :
  entries_unique ok d = true ->
  NoDup (map fst d) /\ forall k v, In (k, v) d -> ok v = true.
Proof.
  induction d as [|[k v] d IH]; cbn.
  - intros _. split; [constructor | intros ? ? []].
  - rewrite !andb_true_iff, negb_true_iff. intros [[Hk Hv] Hd].
    destruct (IH Hd) as [N F]. split.
    + constructor; [|exact N]. intros Hin. apply in_map_iff in Hin.
      destruct Hin as ([k' v'] & E & Hin). cbn in E. subst k'.
      assert (has_key k d = true) as Hk'.
      { apply existsb_exists. exists (k, v'). split; [exact Hin|].
        apply String.eqb_refl. }
      congruence.
    + intros k' v' [[= <- <-]|Hin]; eauto.
Qed.

Lemma dict_get_in (k : string) (v : json) (d : pydict) :
  NoDup (map fst d) -> In (k, v) d -> dict_get k d = Some v.
Proof.
  induction d as [|[k' v'] d IH]; cbn; [intros _ []|].
  intros N [[= -> ->]|Hin].
  - now rewrite String.eqb_refl.
  - inversion N as [|? ? Hn N']; subst.
    destruct (String.eqb k k') eqn:E.
    + apply String.eqb_eq in E. subst k'. exfalso. apply Hn.
      apply in_map_iff. now exists (k, v).
    + now apply IH.
Qed.

Lemma dict_sub_by_self (eq : json -> json -> bool) (e d : pydict) :
  NoDup (map fst e) ->
  (forall k v, In (k, v) d -> In (k, v) e /\ eq v v = true) ->
  dict_sub_by eq e d = true.
Proof.
  intros N. induction d as [|[k v] d IH]; cbn; [reflexivity|].
  intros H. destruct (H k v (or_introl eq_refl)) as [Hin Hv].
  rewrite (dict_get_in k v e N Hin), Hv. cbn. apply IH. intros; apply H; now right.
Qed.

(** On values whose dictionaries bind each key once, [==] is reflexive. *)
Lemma py_eqb_refl (j : json) : keys_unique j = true -> py_eqb j j = true.
Proof.
  induction j as [| b | z | q | s | l IH | d IH]; cbn [py_eqb keys_unique].
  - reflexivity.
  - intros _. destruct b; reflexivity.
  - intros _. cbn. apply Qeq_bool_iff. reflexivity.
  - intros _. cbn. apply Qeq_bool_iff. reflexivity.
  - intros _. apply String.eqb_refl.
  - induction IH as [|x Hx l Hl IHl]; cbn; [reflexivity|].
    rewrite andb_true_iff. intros [Ux Ul]. rewrite (Hx Ux). cbn. now apply IHl.
  - assert (IH' : forall k v, In (k, v) d ->
                               keys_unique v = true -> py_eqb v v = true).
    { induction IH as [|a Ha l Hl IHl]; intros k v Hin; [destruct Hin|].
      destruct Hin as [->|Hin]; [|now apply (IHl k v)].
      inversion Ha as [k' _ v' Hv E]. exact Hv. }
    intros U. rewrite Nat.eqb_refl. cbn [andb].
    destruct (entries_unique_spec _ _ U) as [N F].
    apply dict_sub_by_self; [exact N|].
    intros k v Hin. split; [exact Hin|].
    apply (IH' k v Hin). now apply (F k v).
Qed.

Lemma dict_get_some_in (k : string) (v : json) (d : pydict) :
  dict_get k d = Some v -> In (k, v) d.
Proof.
  induction d as [|[k' v'] d IH]; cbn; [discriminate|].
  destruct (String.eqb k k') eqn:E.
  - apply String.eqb_eq in E. subst k'. intros [= ->]. now left.
  - intros H. right. now apply IH.
Qed.

Lemma dict_sub_by_in (eq : json -> json -> bool) (e d : pydict) (k : string) (v : json) :
  dict_sub_by eq e d = true -> In (k, v) d ->
  exists v', dict_get k e = Some v' /\ eq v v' = true.
Proof.
  induction d as [|[k0 v0] d IH]; cbn; [intros _ []|].
  rewrite andb_true_iff. intros [H0 Hd] [[= -> ->]|Hin]; [|now apply IH].
  destruct (dict_get k e) as [v'|]; [|discriminate]. now exists v'.
Qed.

Lemma py_eqb_int (a b : json) (z z' : Z) :
  int_value a = Some z -> int_value b = Some z' -> py_eqb a b = true -> z = z'.
Proof.
  intros Ha Hb.
  assert (E : py_eqb a b = Qeq_bool (inject_Z z) (inject_Z z')).
  { destruct a as [|[|]|za| | | |]; try discriminate Ha;
      destruct b as [|[|]|zb| | | |]; try discriminate Hb;
      cbn in Ha, Hb; injection Ha as <-; injection Hb as <-; reflexivity. }
  rewrite E. intros H. apply Qeq_bool_iff in H. now apply inject_Z_injective.
Qed.

(** Equal detections carry the same integer id. *)
Lemma py_eqb_same_id (y d : pydict) (z : Z) :
  py_eqb (JDict y) (JDict d) = true ->
  int_value (py_get "id" y) = Some z ->
  is_int (py_get "id" d) = true ->
  int_value (py_get "id" d) = Some z.
Proof.
  cbn [py_eqb]. rewrite andb_true_iff. intros [_ Hsub] Hy Hd.
  unfold py_get in Hy. destruct (dict_get "id" y) as [v|] eqn:Ev; [|discriminate Hy].
  destruct (dict_sub_by_in _ _ _ _ _ Hsub (dict_get_some_in _ _ _ Ev)) as (v' & Ev' & Hv).
  unfold is_int, py_get in *. rewrite Ev' in *.
  destruct (int_value v') as [z'|] eqn:Ez'; [|discriminate Hd].
  now rewrite (py_eqb_int v v' z z' Hy Ez' Hv).
Qed.

(** ** delete_box *)

Arguments py_eqb : simpl never.

Lemma list_remove_none (det : pydict) (l : list pydict) :
  list_remove det l = None <-> Forall (differs_from det) l.
Proof.
  unfold differs_from. induction l as [|y l IH]; cbn.
  - split; [constructor | reflexivity].
  - destruct (py_eqb (JDict y) (JDict det)) eqn:E.
    + split; [discriminate|]. intros H. inversion H. congruence.
    + destruct (list_remove det l) as [r|].
      * split; [discriminate|]. intros H. inversion H as [|? ? _ Hl]; subst.
        apply IH in Hl. discriminate.
      * split; [|reflexivity]. intros _. constructor; [exact E|]. now apply IH.
Qed.

Lemma list_remove_first (det : pydict) (l1 l2 : list pydict) (y : pydict) :
  Forall (differs_from det) l1 ->
  py_eqb (JDict y) (JDict det) = true ->
  list_remove det (l1 ++ y :: l2) = Some (l1 ++ l2).
Proof.
  intros H Hy. induction H as [|x l1 Hx _ IH]; cbn.
  - now rewrite Hy.
  - unfold differs_from in Hx. now rewrite Hx, IH.
Qed.

Lemma list_remove_some (det : pydict) (l r : list pydict) :
  list_remove det l = Some r ->
  exists l1 y l2, l = l1 ++ y :: l2 /\ Forall (differs_from det) l1 /\
                  py_eqb (JDict y) (JDict det) = true /\ r = l1 ++ l2.
Proof.
  revert r. induction l as [|x l IH]; cbn; [discriminate|]. intros r.
  destruct (py_eqb (JDict x) (JDict det)) eqn:E.
  - intros [= <-]. exists [], x, l. repeat split; auto.
  - destruct (list_remove det l) as [r'|]; [|discriminate].
    intros [= <-]. destruct (IH r' eq_refl) as (l1 & y & l2 & -> & F & Hy & ->).
    exists (x :: l1), y, l2. repeat split; auto.
Qed.

Lemma list_remove_in (det : pydict) (l : list pydict) :
  keys_unique (JDict det) = true -> In det l ->
  exists r, list_remove det l = Some r.
Proof.
  intros U Hin. destruct (list_remove det l) as [r|] eqn:E; [now exists r|].
  apply list_remove_none in E. rewrite Forall_forall in E.
  specialize (E det Hin). unfold differs_from in E.
  rewrite (py_eqb_refl _ U) in E. discriminate.
Qed.

Lemma list_remove_single (det : pydict) (l r : list pydict) :
  (occurrences det l <= 1)%nat -> list_remove det l = Some r ->
  list_remove det r = None.
Proof.
  unfold occurrences. revert r. induction l as [|x l IH]; cbn; [discriminate|].
  intros r. destruct (py_eqb (JDict x) (JDict det)) eqn:E; cbn [List.length].
  - intros Hc [= <-]. apply list_remove_none. apply Forall_forall. intros y Hy.
    unfold differs_from.
    destruct (py_eqb (JDict y) (JDict det)) eqn:Ey; [|reflexivity]. exfalso.
    assert (In y (filter (fun y => py_eqb (JDict y) (JDict det)) l)) as Hf
      by (apply filter_In; now split).
    destruct (filter (fun y => py_eqb (JDict y) (JDict det)) l); [destruct Hf|].
    cbn in Hc. lia.
  - intros Hc. destruct (list_remove det l) as [r'|]; [|discriminate].
    intros [= <-]. cbn. rewrite E. now rewrite (IH r' Hc eq_refl).
Qed.

(** C7, as amended.  [delete_box] compares with Python's [==]: it removes
    the first detection of the list that is equal to the given one (the
    given one itself or an equal one before it), keeps the others in
    order, and sets [dirty]; when no detection of the list is equal to the
    given one it raises nothing and returns the session as it was, [dirty]
    included.  A second deletion of the same detection is such a no-op when
    the list held at most one detection equal to it. *)
Theorem delete_box_spec (s : AnnotationSession) (det : pydict) :
  (Forall (differs_from det) (detections s) -> delete_box s det = s) /\
  (forall l1 y l2,
     detections s = l1 ++ y :: l2 ->
     Forall (differs_from det) l1 ->
     py_eqb (JDict y) (JDict det) = true ->
     delete_box s det =
       mkSession (entry s) (width s) (height s) (payload s) (l1 ++ l2) (next_id s) true) /\
  (keys_unique (JDict det) = true -> In det (detections s) ->
   exists l1 y l2,
     detections s = l1 ++ y :: l2 /\ Forall (differs_from det) l1 /\
     py_eqb (JDict y) (JDict det) = true) /\
  (delete_box s det = s \/
   (dirty (delete_box s det) = true /\
    S (List.length (detections (delete_box s det))) = List.length (detections s))) /\
  ((occurrences det (detections s) <= 1)%nat ->
   delete_box (delete_box s det) det = delete_box s det).
Proof.
  split; [|split; [|split; [|split]]].
  - intros H. apply list_remove_none in H. unfold delete_box. now rewrite H.
  - intros l1 y l2 E F Hy. unfold delete_box.
    now rewrite E, (list_remove_first det l1 l2 y F Hy).
  - intros U Hin. destruct (list_remove_in det _ U Hin) as [r Hr].
    destruct (list_remove_some det _ r Hr) as (l1 & y & l2 & E & F & Hy & _).
    now exists l1, y, l2.
  - unfold delete_box. destruct (list_remove det (detections s)) as [r|] eqn:E.
    + right. cbn. split; [reflexivity|].
      destruct (list_remove_some det _ r E) as (l1 & y & l2 & -> & _ & _ & ->).
      rewrite !length_app. cbn. lia.
    + now left.
  - intros Hc. unfold delete_box at 2 3.
    destruct (list_remove det (detections s)) as [r|] eqn:E.
    + unfold delete_box. cbn [detections].
      now rewrite (list_remove_single det _ r Hc E).
    + unfold delete_box. now rewrite E.
Qed.

Lemma delete_box_spec_witness :
  let s := mkSession (mkImageEntry ["a.png"] "a.png" ["a.json"]) 40 40
                     [("detections", JList [])]
                     [overflowing_entry_clamped; twin_entry] 5 false in
  (occurrences twin_entry (detections s) <= 1)%nat /\
  detections (delete_box s twin_entry) = [overflowing_entry_clamped] /\
  delete_box (delete_box s twin_entry) twin_entry = delete_box s twin_entry.
Proof.
  intros s.
  assert (Hc : (occurrences twin_entry (detections s) <= 1)%nat) by (vm_compute; lia).
  destruct (delete_box_spec s twin_entry) as (_ & _ & _ & _ & H).
  split; [exact Hc|]. split; [reflexivity|]. exact (H Hc).
Defined.

(** C7, as stated, fails: [load] accepts a record that lists a detection
    twice, and in the session it returns a second deletion of that
    detection removes the twin and marks the session dirty again. *)
Lemma second_delete_removes_twin :
  exists ld : loaded,
    load (mkImageEntry ["a.png"] "a.png" ["a.json"]) 10 10
         (Parsed (JDict twin_record)) = Ok ld /\
    detections (ld_session ld) = [twin_entry; twin_entry] /\
    detections (delete_box (ld_session ld) twin_entry) = [twin_entry] /\
    detections (delete_box (delete_box (ld_session ld) twin_entry) twin_entry) = [] /\
    ~ second_delete_is_noop (ld_session ld) twin_entry.
Proof.
  eexists. split; [reflexivity|]. split; [reflexivity|].
  split; [reflexivity|]. split; [reflexivity|].
  unfold second_delete_is_noop. intros H.
  apply (f_equal detections) in H. discriminate H.
Qed.

(** ** Corner handles *)

Lemma constrain_handle_within (it : BBoxItem) (c : corner) (pos : QPointF) :
  valid_item it -> handle_within it c (constrain_handle it c pos).
Proof.
  intros (Hm & H1 & H2 & H3 & H4 & H5 & H6).
  unfold handle_within, constrain_handle, float_of_int.
  destruct c; cbn [pt_x pt_y].
  - pose proof (clamp_between (pt_x pos) 0 (pt_x (br_pos it) - min_size it)).
    pose proof (clamp_between (pt_y pos) 0 (pt_y (br_pos it) - min_size it)).
    repeat split; lra.
  - pose proof (clamp_between (pt_x pos) (pt_x (tl_pos it) + min_size it)
                              (inject_Z (image_width it))).
    pose proof (clamp_between (pt_y pos) (pt_y (tl_pos it) + min_size it)
                              (inject_Z (image_height it))).
    repeat split; lra.
Qed.

Lemma drag_step_valid (it : BBoxItem) (c : corner) (pos : QPointF) :
  valid_item it -> valid_item (drag_step it c pos).
Proof.
  intros V. pose proof (constrain_handle_within it c pos V) as W.
  unfold drag_step. destruct (point_eqb _ _); [exact V|].
  destruct V as (Hm & H1 & H2 & H3 & H4 & H5 & H6).
  unfold valid_item, handle_within in *.
  destruct c; cbn [on_handle_moved set_handle_pos min_size tl_pos br_pos
                   image_width image_height] in *;
    repeat split; lra.
Qed.

Lemma valid_item_apart (it : BBoxItem) : valid_item it -> corners_apart it.
Proof. unfold valid_item, corners_apart. intros; split; lra. Qed.

Lemma new_item_valid (det : pydict) (w h : Z) (b : bbox4) :
  det_bbox det = Some b -> in_bounds b w h ->
  exists it : BBoxItem,
    new_BBoxItem det w h = Some it /\
    tl_pos it = mkPoint (bx_min b) (by_min b) /\
    br_pos it = mkPoint (bx_max b) (by_max b) /\
    valid_item it.
Proof.
  unfold det_bbox, py_get, new_BBoxItem. intros Hb Hin.
  destruct (dict_get "bbox" det) as [v|]; [|discriminate Hb].
  rewrite Hb. eexists. split; [reflexivity|]. split; [reflexivity|].
  split; [reflexivity|].
  unfold valid_item, in_bounds in *. cbn. repeat split; lra.
Qed.

Lemma drag_trace_ok (it : BBoxItem) (moves : list (corner * QPointF)) :
  valid_item it ->
  Forall (fun st => handle_within (fst (fst st)) (snd (fst st)) (snd st) /\
                    corners_apart (fst (fst st)))
         (drag_trace it moves) /\
  valid_item (drag it moves).
Proof.
  revert it. induction moves as [|[c pos] moves IH]; intros it V.
  - split; [constructor | exact V].
  - cbn [drag_trace]. unfold drag. cbn [fold_left fst snd].
    destruct (IH (drag_step it c pos) (drag_step_valid it c pos V)) as [F V'].
    split; [|exact V'].
    constructor; [|exact F]. cbn [fst snd]. split.
    + now apply constrain_handle_within.
    + now apply valid_item_apart.
Qed.

(** C8.  For a box inside the image (as every loaded or added detection
    is), the item is created with its handles on the box's corners, and
    throughout any sequence of handle moves, with [min_size = 1]: each
    constrained position of the top-left handle has
    [0 <= x <= bottom-right.x - 1] and [0 <= y <= bottom-right.y - 1], each
    constrained position of the bottom-right handle has
    [top-left.x + 1 <= x <= image_width] and
    [top-left.y + 1 <= y <= image_height], and the top-left handle stays
    strictly above and to the left of the bottom-right one. *)
Theorem corner_drag_constrained
        (det : pydict) (w h : Z) (b : bbox4) (moves : list (corner * QPointF)) :
  det_bbox det = Some b -> in_bounds b w h ->
  exists it : BBoxItem,
    new_BBoxItem det w h = Some it /\
    min_size it = 1 /\
    Forall (fun st => handle_within (fst (fst st)) (snd (fst st)) (snd st) /\
                      corners_apart (fst (fst st)))
           (drag_trace it moves) /\
    corners_apart (drag it moves).
Proof.
  intros Hb Hin.
  destruct (new_item_valid det w h b Hb Hin) as (it & E & _ & _ & V).
  exists it. split; [exact E|]. split.
  - unfold new_BBoxItem in E.
    destruct (match dict_get "bbox" det with Some v => v | None => _ end);
      try discriminate E.
    destruct (bbox_of_json _); [|discriminate E]. now injection E as <-.
  - destruct (drag_trace_ok it moves V) as [F V']. split; [exact F|].
    now apply valid_item_apart.
Qed.

Lemma corner_drag_constrained_witness :
  let det := [("id", JInt 0); ("bbox", JList [JInt 2; JInt 3; JInt 8; JInt 9]);
              ("score", JFloat 1)] in
  let moves := [(tl, mkPoint 20 (-4)); (br, mkPoint (1 # 2) 30); (tl, mkPoint 7 7)] in
  det_bbox det = Some (BBox4 2 3 8 9) /\ in_bounds (BBox4 2 3 8 9) 10 10 /\
  exists it : BBoxItem,
    new_BBoxItem det 10 10 = Some it /\
    Forall (fun st => handle_within (fst (fst st)) (snd (fst st)) (snd st) /\
                      corners_apart (fst (fst st)))
           (drag_trace it moves) /\
    corners_apart (drag it moves).
Proof.
  intros det moves.
  assert (Hb : det_bbox det = Some (BBox4 2 3 8 9)) by reflexivity.
  assert (Hin : in_bounds (BBox4 2 3 8 9) 10 10).
  { unfold in_bounds, Qle. cbn. repeat split; lia. }
  split; [exact Hb|]. split; [exact Hin|].
  destruct (corner_drag_constrained det 10 10 (BBox4 2 3 8 9) moves Hb Hin)
    as (it & E & _ & F & A).
  exists it. split; [exact E|]. split; [exact F | exact A].
Defined.

(** ** Selection synchronisation *)

Lemma idict_get_set (k k' : Z) (v : nat) (d : list (Z * nat)) :
  idict_get k' (idict_set k v d) = if Z.eqb k' k then Some v else idict_get k' d.
Proof.
  induction d as [|[k0 v0] d IH]; cbn.
  - reflexivity.
  - destruct (Z.eqb k k0) eqn:E; cbn.
    + apply Z.eqb_eq in E. subst k0. now destruct (Z.eqb k' k).
    + rewrite IH. destruct (Z.eqb k' k) eqn:E'; [|reflexivity].
      apply Z.eqb_eq in E'. subst k'. now rewrite E.
Qed.

Lemma set_boxes_loop_sound (dets items : list pydict) (index : list (Z * nat)) :
  Forall session_detection dets ->
  index_sound items index ->
  fst (set_boxes_loop dets items index) = items ++ dets /\
  index_sound (fst (set_boxes_loop dets items index))
              (snd (set_boxes_loop dets items index)).
Proof.
  intros F. revert items index.
  induction F as [|det dets [Hi _] _ IH]; intros items index S.
  - cbn. now rewrite app_nil_r.
  - cbn [set_boxes_loop]. unfold is_int in Hi.
    destruct (int_value (py_get "id" det)) as [z|] eqn:Ez; [|discriminate].
    assert (S' : index_sound (items ++ [det]) (idict_set z (List.length items) index)).
    { destruct S as [S1 S2]. split.
      - intros z' k. rewrite idict_get_set. destruct (Z.eqb z' z) eqn:E.
        + apply Z.eqb_eq in E. subst z'. intros [= <-]. exists det. split.
          * rewrite nth_error_app2, Nat.sub_diag; [reflexivity | lia].
          * exact Ez.
        + intros Hk. destruct (S1 z' k Hk) as (d & Hn & Hd). exists d. split; [|exact Hd].
          rewrite nth_error_app1; [exact Hn|]. apply nth_error_Some. congruence.
      - intros d z' Hin Hd. rewrite idict_get_set.
        destruct (Z.eqb z' z) eqn:E; [eauto|].
        apply in_app_or in Hin. destruct Hin as [Hin|[<-|[]]].
        + now apply (S2 d z').
        + unfold has_id in Hd. rewrite Ez in Hd. injection Hd as <-.
          rewrite Z.eqb_refl in E. discriminate. }
    destruct (IH _ _ S') as [E1 E2]. split; [|exact E2].
    rewrite E1, <- app_assoc. reflexivity.
Qed.

Lemma views_show_canvas (dets : list pydict) (w : MainWindow) :
  views_show dets w ->
  canvas_items w = dets /\ index_sound dets (_det_to_item w).
Proof.
  intros (F & _ & E).
  assert (S0 : index_sound [] []).
  { split; [intros z k; discriminate | intros d z []]. }
  destruct (set_boxes_loop_sound dets [] [] F S0) as [E1 E2].
  rewrite <- E in E1, E2. cbn [fst snd app] in E1, E2.
  rewrite E1 in E2. now split.
Qed.

Lemma index_of_some (det : pydict) (l : list pydict) (n : nat) :
  index_of det l = Some n ->
  exists y, nth_error l n = Some y /\ py_eqb (JDict y) (JDict det) = true.
Proof.
  revert n. induction l as [|x l IH]; cbn [index_of]; [discriminate|]. intros n.
  destruct (py_eqb (JDict x) (JDict det)) eqn:E.
  - intros [= <-]. now exists x.
  - destruct (index_of det l) as [m|]; [|discriminate].
    intros [= <-]. now apply IH.
Qed.

Lemma index_of_in (det : pydict) (l : list pydict) :
  keys_unique (JDict det) = true -> In det l ->
  exists n, index_of det l = Some n.
Proof.
  intros U. induction l as [|x l IH]; cbn [index_of]; [intros []|].
  intros [->|Hin].
  - rewrite (py_eqb_refl _ U). now exists O.
  - destruct (py_eqb (JDict x) (JDict det)); [now exists O|].
    destruct (IH Hin) as [n ->]. now exists (S n).
Qed.

(** [select_detection] never lets the scene signal while it changes the
    selection; what reaches the slot is the final selection, once. *)
Lemma select_detection_known
      (slot : MainWindow -> option pydict -> option MainWindow)
      (w : MainWindow) (d : pydict) (z : Z) (k : nat) :
  has_id z d -> idict_get z (_det_to_item w) = Some k ->
  select_detection slot w (Some d) =
    slot (with_scene [k] false w) (nth_error (canvas_items w) k).
Proof.
  unfold has_id. intros Hz Hk. destruct w as [sy bm lc ls ci di ss sb tr].
  cbn in Hk. unfold select_detection, scene_clearSelection, scene_selectionChanged.
  destruct ss as [|s0 ss]; cbn; rewrite Hz, Hk; reflexivity.
Qed.

Lemma select_detection_unknown
      (slot : MainWindow -> option pydict -> option MainWindow)
      (w : MainWindow) (d : pydict) (z : Z) :
  has_id z d -> idict_get z (_det_to_item w) = None ->
  select_detection slot w (Some d) = slot (with_scene [] false w) None.
Proof.
  unfold has_id. intros Hz Hk. destruct w as [sy bm lc ls ci di ss sb tr].
  cbn in Hk. unfold select_detection, scene_clearSelection, scene_selectionChanged.
  destruct ss as [|s0 ss]; cbn; rewrite Hz, Hk; reflexivity.
Qed.

Lemma canvas_handler_suppressed (n : nat) (w : MainWindow) (det : option pydict) :
  _sync_selection w = true ->
  _on_canvas_selection_changed (S n) w det =
    Some (record_event (Suppressed CanvasHandler) w).
Proof. intros H. cbn. now rewrite H. Qed.

Lemma list_handler_suppressed (n : nat) (w : MainWindow) (current : option nat) :
  _sync_selection w = true ->
  _on_box_selected_in_list (S n) w current =
    Some (record_event (Suppressed ListHandler) w).
Proof. intros H. cbn. now rewrite H. Qed.

Lemma rounds_app (t u : list event) : rounds (t ++ u) = (rounds t + rounds u)%nat.
Proof. unfold rounds. now rewrite filter_app, length_app. Qed.

Lemma session_detection_id (d : pydict) :
  session_detection d -> exists z, has_id z d.
Proof.
  intros [Hi _]. unfold is_int, has_id in *.
  destruct (int_value (py_get "id" d)) as [z|]; [now exists z | discriminate].
Qed.

(** A round that starts in the list view. *)
Lemma list_round (dets : list pydict) (w : MainWindow) (budget r : nat) (d : pydict) :
  views_show dets w -> idle w -> (2 <= budget)%nat ->
  nth_error dets r = Some d ->
  list_current w = Some r -> list_selection w = Some r ->
  exists w' : MainWindow,
    _on_box_selected_in_list budget w (Some r) = Some w' /\
    list_selected_id w' = det_id_of (Some d) /\
    canvas_selected_id w' = det_id_of (Some d) /\
    det_id_of (Some d) <> None /\
    trace w' = trace w ++ [Entered ListHandler; Suppressed CanvasHandler] /\
    idle w' /\ views_show dets w'.
Proof.
  intros V [Hs Hb] Hbud Hr Hc Hl.
  destruct budget as [|[|n]]; try lia.
  pose proof (views_show_canvas dets w V) as [Hitems [S1 S2]].
  destruct V as (F & Hm & Hset).
  assert (Hd : session_detection d).
  { rewrite Forall_forall in F. apply F. now apply nth_error_In with r. }
  destruct (session_detection_id d Hd) as [z Hz].
  destruct (S2 d z (nth_error_In _ _ Hr) Hz) as [k Hk].
  destruct (S1 z k Hk) as (d' & Hk' & Hz').
  cbn [_on_box_selected_in_list]. rewrite Hs.
  set (w0 := with_sync true (record_event (Entered ListHandler) w)).
  assert (E0 : nth_error (boxes_model (record_event (Entered ListHandler) w)) r = Some d)
    by (cbn; now rewrite Hm).
  rewrite E0.
  rewrite (select_detection_known _ w0 d z k Hz Hk).
  rewrite canvas_handler_suppressed by reflexivity.
  eexists. split; [reflexivity|].
  unfold list_selected_id, canvas_selected_id, det_id_of, idle, views_show.
  cbn. rewrite Hl, Hm, Hr, Hitems, Hk'.
  unfold has_id in Hz, Hz'. rewrite Hz, Hz'.
  split; [reflexivity|]. split; [reflexivity|]. split; [discriminate|].
  split; [now rewrite <- app_assoc|]. split; [now split|].
  split; [exact F|]. split; [reflexivity|]. rewrite <- Hset. now rewrite Hitems.
Qed.

Ltac wfields :=
  cbn [trace list_selection list_current scene_selection _sync_selection
       scene_blocked boxes_model canvas_items _det_to_item
       with_sync with_list with_scene record_event sel_clearSelection].

Ltac still_showing F Hm Hset :=
  unfold idle, views_show; wfields;
  split; [now split|]; split; [exact F|]; split; [exact Hm | exact Hset].

(** A round that starts in the canvas: the scene's selection is [sel]
    (empty after a click on the background) and the scene signals it. *)
Lemma canvas_round (dets : list pydict) (w : MainWindow) (budget : nat) :
  views_show dets w -> idle w -> (2 <= budget)%nat ->
  Forall (fun k => (k < List.length dets)%nat) (scene_selection w) ->
  exists w' : MainWindow,
    canvas_selection_changed budget w = Some w' /\
    scene_selection w' = scene_selection w /\
    list_selected_id w' = canvas_selected_id w' /\
    (scene_selection w = [] -> list_selection w' = None) /\
    rounds (trace w') = S (rounds (trace w)) /\
    idle w' /\ views_show dets w'.
Proof.
  intros V [Hs Hb] Hbud Hsel.
  destruct budget as [|[|n]]; try lia.
  pose proof (views_show_canvas dets w V) as [Hitems _].
  destruct V as (F & Hm & Hset).
  unfold canvas_selection_changed, _on_scene_selection_changed.
  destruct (scene_selection w) as [|k rest] eqn:Esel.
  - cbn [_on_canvas_selection_changed]. rewrite Hs.
    eexists. split; [reflexivity|].
    unfold list_selected_id, canvas_selected_id. wfields. rewrite Esel, rounds_app.
    split; [reflexivity|]. split; [reflexivity|]. split; [reflexivity|].
    split; [cbn; lia|]. still_showing F Hm Hset.
  - pose proof (Forall_inv Hsel) as Hk. cbn beta in Hk.
    destruct (nth_error dets k) as [d'|] eqn:Ek;
      [|apply nth_error_None in Ek; lia].
    rewrite Hitems, Ek.
    assert (Hd' : session_detection d').
    { rewrite Forall_forall in F. apply F. now apply nth_error_In with k. }
    destruct (index_of_in d' dets (proj2 Hd') (nth_error_In _ _ Ek)) as [row Hrow].
    destruct (index_of_some d' dets row Hrow) as (y & Hy & Hyd).
    assert (Hys : session_detection y).
    { rewrite Forall_forall in F. apply F. now apply nth_error_In with row. }
    destruct (session_detection_id y Hys) as [z Hz].
    pose proof (py_eqb_same_id y d' z Hyd Hz (proj1 Hd')) as Hz'.
    cbn [_on_canvas_selection_changed]. rewrite Hs. wfields.
    rewrite Hm, Hrow. unfold sel_setCurrentIndex. wfields.
    assert (Hfin : forall t,
      list_selected_id
        (mkWindow false (boxes_model w) (Some row) (Some row) (canvas_items w)
                  (_det_to_item w) (scene_selection w) (scene_blocked w) t)
      = canvas_selected_id
        (mkWindow false (boxes_model w) (Some row) (Some row) (canvas_items w)
                  (_det_to_item w) (scene_selection w) (scene_blocked w) t)).
    { intros t. unfold list_selected_id, canvas_selected_id, det_id_of. wfields.
      rewrite Esel, Hm, Hy, Hitems, Ek. unfold has_id in Hz. now rewrite Hz, Hz'. }
    assert (Hlast : forall q : option MainWindow,
      q = Some (record_event (Suppressed ListHandler)
                  (with_list (Some row) (Some row)
                     (with_sync true (record_event (Entered CanvasHandler) w)))) ->
      exists w' : MainWindow,
        match q with Some w2 => Some (with_sync false w2) | None => None end = Some w' /\
        scene_selection w' = k :: rest /\
        list_selected_id w' = canvas_selected_id w' /\
        (k :: rest = [] -> list_selection w' = None) /\
        rounds (trace w') = S (rounds (trace w)) /\
        idle w' /\ views_show dets w').
    { intros q ->. eexists. split; [reflexivity|].
      split; [wfields; exact Esel|]. split; [apply Hfin|].
      split; [discriminate|]. wfields. rewrite <- app_assoc, rounds_app.
      split; [cbn; lia|]. still_showing F Hm Hset. }
    destruct (list_current w) as [r|] eqn:Ecur.
    + destruct (Nat.eqb r row) eqn:Er.
      * eexists. split; [reflexivity|].
        split; [wfields; exact Esel|]. split; [apply Hfin|].
        split; [discriminate|]. wfields. rewrite rounds_app.
        split; [cbn; lia|]. still_showing F Hm Hset.
      * apply Hlast. now apply list_handler_suppressed.
    + apply Hlast. now apply list_handler_suppressed.
Qed.

(** Selecting, through the canvas, a detection whose id no box carries. *)
Lemma absent_selection (dets : list pydict) (w : MainWindow) (budget : nat)
      (det : pydict) (z : Z) :
  views_show dets w -> idle w -> (1 <= budget)%nat ->
  has_id z det -> Forall (fun d => ~ has_id z d) dets ->
  exists w' : MainWindow,
    canvas_select_detection budget w (Some det) = Some w' /\
    list_selection w' = None /\ scene_selection w' = [] /\
    list_selected_id w' = None /\ canvas_selected_id w' = None /\
    rounds (trace w') = S (rounds (trace w)) /\
    idle w' /\ views_show dets w'.
Proof.
  intros V [Hs Hb] Hbud Hz Habs.
  destruct budget as [|n]; try lia.
  pose proof (views_show_canvas dets w V) as [Hitems [S1 _]].
  destruct V as (F & Hm & Hset).
  assert (Hk : idict_get z (_det_to_item w) = None).
  { destruct (idict_get z (_det_to_item w)) as [k|] eqn:E; [|reflexivity].
    destruct (S1 z k E) as (d & Hd & Hzd). exfalso.
    rewrite Forall_forall in Habs. apply (Habs d); [|exact Hzd].
    now apply nth_error_In with k. }
  unfold canvas_select_detection.
  rewrite (select_detection_unknown _ w det z Hz Hk).
  cbn [_on_canvas_selection_changed]. wfields. rewrite Hs.
  eexists. split; [reflexivity|].
  unfold list_selected_id, canvas_selected_id. wfields. rewrite rounds_app.
  split; [reflexivity|]. split; [reflexivity|]. split; [reflexivity|].
  split; [reflexivity|]. split; [cbn; lia|]. still_showing F Hm Hset.
Qed.

(** C9.  With both views showing the session's detections and no handler
    running: a round started by the list view (row [r] became current and
    selected) and a round started by the canvas (its scene selection
    changed) both return, leave the list's selected row and the canvas's
    reported selection on the same detection id, and run exactly one
    handler body, the other handler being stopped at its guard; selecting
    through the canvas a detection whose id no box carries raises nothing
    and leaves both views without selection. *)
Theorem selection_round_agrees (dets : list pydict) (w : MainWindow) (budget : nat) :
  views_show dets w -> idle w -> (2 <= budget)%nat ->
  (forall (r : nat) (d : pydict),
     nth_error dets r = Some d ->
     list_current w = Some r -> list_selection w = Some r ->
     exists w' : MainWindow,
       _on_box_selected_in_list budget w (Some r) = Some w' /\
       list_selected_id w' = det_id_of (Some d) /\
       canvas_selected_id w' = det_id_of (Some d) /\
       det_id_of (Some d) <> None /\
       trace w' = trace w ++ [Entered ListHandler; Suppressed CanvasHandler] /\
       rounds (trace w') = S (rounds (trace w)) /\
       idle w' /\ views_show dets w') /\
  (Forall (fun k => (k < List.length dets)%nat) (scene_selection w) ->
   exists w' : MainWindow,
     canvas_selection_changed budget w = Some w' /\
     scene_selection w' = scene_selection w /\
     list_selected_id w' = canvas_selected_id w' /\
     (scene_selection w = [] -> list_selection w' = None) /\
     rounds (trace w') = S (rounds (trace w)) /\
     idle w' /\ views_show dets w') /\
  (forall (det : pydict) (z : Z),
     has_id z det -> Forall (fun d => ~ has_id z d) dets ->
     exists w' : MainWindow,
       canvas_select_detection budget w (Some det) = Some w' /\
       list_selection w' = None /\ scene_selection w' = [] /\
       list_selected_id w' = None /\ canvas_selected_id w' = None /\
       rounds (trace w') = S (rounds (trace w)) /\
       idle w' /\ views_show dets w').
Proof.
  intros V I Hbud. split; [|split].
  - intros r d Hr Hc Hl.
    destruct (list_round dets w budget r d V I Hbud Hr Hc Hl)
      as (w' & E & H1 & H2 & H3 & H4 & H5 & H6).
    exists w'. repeat (split; [assumption|]). split; [|now split].
    rewrite H4, rounds_app. cbn. lia.
  - intros Hsel. now apply canvas_round.
  - intros det z Hz Habs. apply (absent_selection dets w budget det z); auto. lia.
Qed.

Lemma selection_round_agrees_witness :
  views_show shown_detections shown_window /\ idle shown_window /\ (2 <= 2)%nat /\
  exists w' : MainWindow,
    _on_box_selected_in_list 2 shown_window (Some 1%nat) = Some w' /\
    list_selected_id w' = Some 7%Z /\
    canvas_selected_id w' = Some 7%Z /\
    rounds (trace w') = 1%nat.
Proof.
  assert (V : views_show shown_detections shown_window).
  { split; [|split; reflexivity].
    repeat constructor. }
  assert (I : idle shown_window) by (split; reflexivity).
  split; [exact V|]. split; [exact I|]. split; [lia|].
  destruct (selection_round_agrees shown_detections shown_window 2 V I (le_n 2))
    as [H _].
  destruct (H 1%nat (box_with_id 7) eq_refl eq_refl eq_refl)
    as (w' & E & H1 & H2 & _ & _ & H5 & _).
  exists w'. split; [exact E|]. split; [exact H1|]. split; [exact H2 | exact H5].
Defined.

(** ** What the store hands to the views

    The hypotheses of the two view properties are met by the detections
    of a loaded session and by the one [add_box] returns. *)

Lemma has_key_set (k k' : string) (v : json) (d : pydict) :
  has_key k' (dict_set k v d) = has_key k' d || String.eqb k' k.
Proof.
  unfold has_key. induction d as [|[k0 v0] d IH]; cbn [dict_set existsb fst].
  - now rewrite orb_false_r.
  - destruct (String.eqb k k0) eqn:E; cbn [existsb fst].
    + apply String.eqb_eq in E. subst k0.
      destruct (String.eqb k' k); cbn [orb]; [reflexivity | now rewrite orb_false_r].
    + rewrite IH. now rewrite orb_assoc.
Qed.

Lemma entries_unique_set (ok : json -> bool) (k : string) (v : json) (d : pydict) :
  entries_unique ok d = true -> ok v = true ->
  entries_unique ok (dict_set k v d) = true.
Proof.
  intros U Hv. induction d as [|[k0 v0] d IH]; cbn.
  - now rewrite Hv.
  - cbn in U. rewrite !andb_true_iff in U. destruct U as [[U1 U2] U3].
    destruct (String.eqb k k0) eqn:E; cbn.
    + now rewrite U1, Hv, U3.
    + rewrite has_key_set, String.eqb_sym, E, orb_false_r, U1, U2. cbn. now apply IH.
Qed.

Lemma kept_entry_session_detection (w h : Z) (det : json) (d : pydict) (c : bool) :
  keys_unique det = true -> examine w h det = Kept d c -> session_detection d.
Proof.
  intros U E. apply examine_kept in E.
  destruct E as (d0 & b & -> & Hi & _ & _ & _ & _ & Hc).
  destruct c.
  - destruct Hc as [_ ->]. split.
    + now rewrite py_get_set_other.
    + cbn [keys_unique] in *. now apply entries_unique_set.
  - destruct Hc as [_ ->]. now split.
Qed.

Lemma loaded_detections_showable (e : ImageEntry) (w h : Z) (p : pydict) (ld : loaded) :
  keys_unique (JDict p) = true ->
  load e w h (Parsed (JDict p)) = Ok ld ->
  Forall session_detection (detections (ld_session ld)).
Proof.
  intros U El.
  destruct (load_parsed e w h p) as (ld' & El' & Ed & _).
  rewrite El in El'. injection El' as <-.
  rewrite Ed. apply Forall_forall. intros d Hin.
  apply kept_entries_in in Hin. destruct Hin as (det & c & Hraw & E).
  apply (kept_entry_session_detection w h det d c); [|exact E].
  unfold raw_detections in Hraw.
  destruct (dict_get "detections" p) as [[| | | | |l|]|] eqn:Eg; try contradiction.
  cbn [keys_unique] in U. destruct (entries_unique_spec _ _ U) as [_ F].
  pose proof (F _ _ (dict_get_some_in _ _ _ Eg)) as Ul. cbn [keys_unique] in Ul.
  rewrite forallb_forall in Ul. now apply Ul.
Qed.

Lemma loaded_detection_item (e : ImageEntry) (w h : Z) (p : pydict) (ld : loaded)
      (d : pydict) :
  (1 <= w)%Z -> (1 <= h)%Z ->
  load e w h (Parsed (JDict p)) = Ok ld ->
  In d (detections (ld_session ld)) ->
  exists it : BBoxItem, new_BBoxItem d w h = Some it /\ valid_item it.
Proof.
  intros Hw Hh El Hin.
  destruct (load_parsed e w h p) as (ld' & El' & Ed & _).
  rewrite El in El'. injection El' as <-. rewrite Ed in Hin.
  apply kept_entries_in in Hin. destruct Hin as (det & c & _ & E).
  destruct (kept_entry_ok w h det d c Hw Hh E) as (b & Hb & Hs).
  assert (Hin : in_bounds b w h).
  { unfold strictly_in_bounds in Hs. unfold in_bounds. tauto. }
  destruct (new_item_valid d w h b Hb Hin) as (it & Ei & _ & _ & V).
  now exists it.
Qed.

Lemma added_detection_showable (s : AnnotationSession) (bbox : bbox4) :
  session_detection (snd (add_box s bbox)).
Proof. split; reflexivity. Qed.

Lemma shown_after_load (dets : list pydict) (w : MainWindow) :
  Forall session_detection dets ->
  views_show dets (set_boxes dets (set_detections dets w)).
Proof.
  intros F. unfold views_show, set_boxes.
  destruct (set_boxes_loop dets [] []) as [items index] eqn:E.
  cbn. now repeat split.
Qed.

(* ================================================================== *)
(** * Further properties of the store *)

(** ** Identifiers *)

Lemma fold_max_ge (zs : list Z) (z : Z) :
  (z <= fold_left Z.max zs z)%Z /\
  Forall (fun x => (x <= fold_left Z.max zs z)%Z) zs.
Proof.
  revert z. induction zs as [|y zs IH]; intros z; cbn.
  - split; [lia | constructor].
  - destruct (IH (Z.max z y)) as [H1 H2]. split; [lia|].
    constructor; [lia | exact H2].
Qed.

Lemma max_id_bounds (dets : list pydict) :
  Forall (fun z => (z <= max_id dets)%Z) (det_ids dets).
Proof.
  unfold max_id. destruct (det_ids dets) as [|z zs]; [constructor|].
  destruct (fold_max_ge zs z) as [H1 H2]. now constructor.
Qed.

Lemma det_ids_app (l1 l2 : list pydict) :
  det_ids (l1 ++ l2) = det_ids l1 ++ det_ids l2.
Proof. unfold det_ids. apply flat_map_app. Qed.

(** X1.  The session [load] returns has a [next_id] above every integer
    id of its detections; it is 0 when no detection carries one, and it
    is one more than one of the ids otherwise. *)
Theorem load_next_id_fresh (e : ImageEntry) (w h : Z) (file : json_file) (ld : loaded) :
  load e w h file = Ok ld ->
  ids_below (next_id (ld_session ld)) (detections (ld_session ld)) /\
  (det_ids (detections (ld_session ld)) = [] -> next_id (ld_session ld) = 0%Z) /\
  (det_ids (detections (ld_session ld)) <> [] ->
   In (next_id (ld_session ld) - 1)%Z (det_ids (detections (ld_session ld)))).
Proof.
  intros El.
  assert (En : next_id (ld_session ld) = (max_id (detections (ld_session ld)) + 1)%Z).
  { destruct file as [| |j].
    - injection El as <-. reflexivity.
    - injection El as <-. reflexivity.
    - destruct j as [| | | | | |p]; try discriminate El.
      destruct (load_parsed e w h p) as (ld' & El' & Ed & _ & _ & _ & _ & _ & _ & _ & En & _).
      rewrite El in El'. injection El' as <-. now rewrite En, Ed. }
  rewrite En. split; [|split].
  - unfold ids_below. eapply Forall_impl; [|apply max_id_bounds].
    cbn. intros; lia.
  - unfold max_id. now intros ->.
  - unfold max_id. destruct (det_ids (detections (ld_session ld))) as [|z zs];
      [congruence|]. intros _.
    replace (fold_left Z.max zs z + 1 - 1)%Z with (fold_left Z.max zs z) by lia.
    clear. revert z. induction zs as [|y zs IH]; intros z; cbn [fold_left].
    + now left.
    + destruct (IH (Z.max z y)) as [E|Hin].
      * destruct (Z.max_spec z y) as [[_ Em]|[_ Em]]; rewrite Em in *.
        -- right. left. exact E.
        -- left. exact E.
      * right. right. exact Hin.
Qed.

Lemma load_next_id_fresh_witness :
  exists ld : loaded,
    load (mkImageEntry ["a.png"] "a.png" ["a.json"]) 40 40
         (Parsed (JDict [("detections",
                          JList [JDict overflowing_entry; JDict degenerate_entry])])) = Ok ld /\
    next_id (ld_session ld) = 5%Z /\
    ids_below (next_id (ld_session ld)) (detections (ld_session ld)).
Proof.
  destruct (load (mkImageEntry ["a.png"] "a.png" ["a.json"]) 40 40
                 (Parsed (JDict [("detections",
                                  JList [JDict overflowing_entry; JDict degenerate_entry])])))
    as [ld|x] eqn:El.
  - exists ld. split; [reflexivity|]. split.
    + vm_compute in El. injection El as <-. reflexivity.
    + exact (proj1 (load_next_id_fresh _ 40 40 _ ld El)).
  - vm_compute in El. discriminate El.
Defined.

Lemma save_det_id (w h : Z) (d : pydict) :
  py_get "id" (save_det w h d) = py_get "id" d.
Proof.
  unfold save_det. destruct (bbox_of_json (py_get "bbox" d)); [|reflexivity].
  destruct (negb _); [|reflexivity]. now apply py_get_set_other.
Qed.

Lemma det_ids_save (w h : Z) (dets : list pydict) :
  det_ids (map (save_det w h) dets) = det_ids dets.
Proof.
  induction dets as [|d dets IH]; [reflexivity|].
  change (map (save_det w h) (d :: dets)) with ([save_det w h d] ++ map (save_det w h) dets).
  change (d :: dets) with ([d] ++ dets).
  rewrite !det_ids_app, IH. f_equal.
  unfold det_ids. cbn. now rewrite save_det_id.
Qed.

(** Removing one detection removes at most one id, at its place. *)
Lemma det_ids_remove (det : pydict) (l r : list pydict) :
  list_remove det l = Some r ->
  exists a b, det_ids r = a ++ b /\
              (det_ids l = a ++ b \/ exists z, det_ids l = a ++ z :: b).
Proof.
  intros H. destruct (list_remove_some det l r H) as (l1 & y & l2 & -> & _ & _ & ->).
  exists (det_ids l1), (det_ids l2). split; [apply det_ids_app|].
  change (y :: l2) with ([y] ++ l2). rewrite !det_ids_app.
  assert (Ey : det_ids [y] = match int_value (py_get "id" y) with
                             | Some z => [z]
                             | None => []
                             end).
  { unfold det_ids. cbn [flat_map]. apply app_nil_r. }
  rewrite Ey. destruct (int_value (py_get "id" y)) as [z|].
  - right. exists z. reflexivity.
  - left. reflexivity.
Qed.

Lemma NoDup_snoc (l : list Z) (x : Z) : NoDup l -> ~ In x l -> NoDup (l ++ [x]).
Proof.
  induction 1 as [|y l Hy N IH]; cbn; intros Hx.
  - constructor; [intros [] | constructor].
  - constructor.
    + rewrite in_app_iff. cbn. intros [H|[H|[]]]; [now apply Hy | subst; apply Hx; now left].
    + apply IH. intros H. apply Hx. now right.
Qed.

Lemma apply_op_ids (s : AnnotationSession) (op : store_op) :
  ids_below (next_id s) (detections s) ->
  ids_below (next_id (apply_op s op)) (detections (apply_op s op)) /\
  next_id (apply_op s op) = (next_id s + (if is_add op then 1 else 0))%Z /\
  (NoDup (det_ids (detections s)) -> NoDup (det_ids (detections (apply_op s op)))).
Proof.
  unfold ids_below. intros B. destruct op as [bbox|det|]; cbn [apply_op is_add].
  - cbn [add_box fst next_id detections]. rewrite det_ids_app.
    change (det_ids [[("id", JInt (next_id s));
                      ("bbox", json_of_bbox (_clamp_bbox bbox (width s) (height s)));
                      ("score", JFloat 1)]]) with [next_id s].
    split; [|split; [reflexivity|]].
    + apply Forall_app. split.
      * eapply Forall_impl; [|exact B]. cbn. intros; lia.
      * constructor; [lia | constructor].
    + intros N. apply NoDup_snoc; [exact N|].
      intros Hin. rewrite Forall_forall in B. specialize (B _ Hin). lia.
  - unfold delete_box. destruct (list_remove det (detections s)) as [r|] eqn:E.
    + cbn [next_id detections].
      destruct (det_ids_remove det _ r E) as (a & b & -> & [El|[z El]]); rewrite El in *.
      * split; [exact B|]. split; [lia | auto].
      * split; [|split; [lia|]].
        -- apply Forall_app in B. destruct B as [Ba Bb]. apply Forall_app.
           split; [exact Ba | now inversion Bb].
        -- intros N. now apply NoDup_remove_1 in N.
    + split; [exact B|]. split; [lia | auto].
  - cbn [save fst next_id detections]. rewrite det_ids_save.
    split; [exact B|]. split; [lia | auto].
Qed.

Lemma count_from_ge (n : Z) (len : nat) :
  Forall (fun z => (n <= z)%Z) (count_from n len).
Proof.
  revert n. induction len as [|len IH]; intros n; cbn; constructor; [lia|].
  eapply Forall_impl; [|apply IH]. cbn. intros; lia.
Qed.

(** X2.  Along any sequence of [add_box], [delete_box] and [save] calls on
    a session whose ids are below [next_id]: the k-th [add_box] receives
    the id [next_id + k], whatever was deleted or saved in between; no
    allocated id is an id the session held at the start; the final
    [next_id] is again above every id; and ids that were pairwise distinct
    stay so. *)
Theorem allocator_run (s : AnnotationSession) (ops : list store_op) :
  ids_below (next_id s) (detections s) ->
  allocated_ids s ops = count_from (next_id s) (List.length (filter is_add ops)) /\
  next_id (run_ops s ops) =
    (next_id s + Z.of_nat (List.length (filter is_add ops)))%Z /\
  Forall (fun z => ~ In z (det_ids (detections s))) (allocated_ids s ops) /\
  ids_below (next_id (run_ops s ops)) (detections (run_ops s ops)) /\
  (NoDup (det_ids (detections s)) -> NoDup (det_ids (detections (run_ops s ops)))).
Proof.
  intros B.
  assert (Core :
    allocated_ids s ops = count_from (next_id s) (List.length (filter is_add ops)) /\
    next_id (run_ops s ops) =
      (next_id s + Z.of_nat (List.length (filter is_add ops)))%Z /\
    ids_below (next_id (run_ops s ops)) (detections (run_ops s ops)) /\
    (NoDup (det_ids (detections s)) -> NoDup (det_ids (detections (run_ops s ops))))).
  { revert s B. induction ops as [|op ops IH]; intros s B.
    - cbn. repeat split; auto. lia.
    - destruct (apply_op_ids s op B) as (B' & En & Nd).
      destruct (IH (apply_op s op) B') as (I1 & I2 & I3 & I4).
      assert (Ea : allocated_ids s (op :: ops) =
                   (if is_add op then [next_id s] else []) ++
                   allocated_ids (apply_op s op) ops) by (now destruct op).
      assert (Ef : List.length (filter is_add (op :: ops)) =
                   ((if is_add op then 1 else 0) +
                    List.length (filter is_add ops))%nat)
        by (cbn [filter]; now destruct (is_add op)).
      change (run_ops s (op :: ops)) with (run_ops (apply_op s op) ops).
      split; [|split; [|split; [exact I3 | auto]]].
      + rewrite Ea, Ef, I1, En.
        destruct (is_add op); cbn [app Nat.add count_from]; [reflexivity|].
        now rewrite Z.add_0_r.
      + rewrite Ef, I2, En. destruct (is_add op); lia. }
  destruct Core as (C1 & C2 & C3 & C4).
  split; [exact C1|]. split; [exact C2|]. split; [|split; [exact C3 | exact C4]].
  rewrite C1. eapply Forall_impl; [|apply count_from_ge].
  cbn. intros z Hz Hin. unfold ids_below in B. rewrite Forall_forall in B.
  specialize (B z Hin). lia.
Qed.

Lemma allocator_run_witness :
  let s := mkSession (mkImageEntry ["a.png"] "a.png" ["a.json"]) 40 40
                     [("detections", JList [])]
                     [overflowing_entry_clamped; twin_entry] 5 false in
  let ops := [OpAdd (BBox4 1 1 9 9); OpDelete overflowing_entry_clamped; OpSave;
              OpAdd (BBox4 2 2 8 8)] in
  ids_below (next_id s) (detections s) /\
  allocated_ids s ops = [5; 6]%Z /\
  next_id (run_ops s ops) = 7%Z.
Proof.
  intros s ops.
  assert (B : ids_below (next_id s) (detections s)).
  { unfold ids_below. cbn. repeat constructor. }
  split; [exact B|].
  destruct (allocator_run s ops B) as (H1 & H2 & _).
  split; [exact H1 | exact H2].
Defined.

(** ** Saving *)

Lemma clamp_axis_nonpos (lo hi w : Q) :
  w <= 0 -> fst (clamp_axis lo hi w) == 0 /\ snd (clamp_axis lo hi w) == w.
Proof. intros Hw. unfold clamp_axis. qcases; split; lra. Qed.

Lemma clamp_axis_idem_int (lo hi : Q) (n : Z) :
  let r := clamp_axis lo hi (inject_Z n) in
  fst (clamp_axis (fst r) (snd r) (inject_Z n)) == fst r /\
  snd (clamp_axis (fst r) (snd r) (inject_Z n)) == snd r.
Proof.
  intros r. destruct (Z_le_gt_dec 1 n) as [Hn|Hn].
  - pose proof (clamp_axis_bounds lo hi _ (inject_Z_ge_1 n Hn)) as (B1 & B2 & B3).
    now apply clamp_axis_fix.
  - assert (Hw : inject_Z n <= 0).
    { change 0 with (inject_Z 0). rewrite <- Zle_Qle. lia. }
    destruct (clamp_axis_nonpos lo hi _ Hw) as [E1 E2].
    destruct (clamp_axis_nonpos (fst r) (snd r) _ Hw) as [F1 F2].
    fold r in E1, E2. rewrite F1, F2, E1, E2. split; reflexivity.
Qed.

Lemma clamp_bbox_idem_all (b : bbox4) (w h : Z) :
  bbox_eq (_clamp_bbox (_clamp_bbox b w h) w h) (_clamp_bbox b w h).
Proof.
  unfold bbox_eq.
  destruct (clamp_bbox_x (_clamp_bbox b w h) w h) as [-> ->].
  destruct (clamp_bbox_y (_clamp_bbox b w h) w h) as [-> ->].
  destruct (clamp_bbox_x b w h) as [-> ->].
  destruct (clamp_bbox_y b w h) as [-> ->].
  pose proof (clamp_axis_idem_int (bx_min b) (bx_max b) w) as Hx.
  pose proof (clamp_axis_idem_int (by_min b) (by_max b) h) as Hy.
  cbv zeta in Hx, Hy. unfold float_of_int. tauto.
Qed.

(** X3.  [_clamp_bbox] is idempotent for every integer width and height,
    zero and negative ones included; and when the width is not positive
    every rectangle comes out with [xmin = 0] and [xmax = width] (the same
    for the height), so an image without extent yields boxes without
    extent. *)
Theorem clamp_bbox_idempotent_any (b : bbox4) (w h : Z) :
  bbox_eq (_clamp_bbox (_clamp_bbox b w h) w h) (_clamp_bbox b w h) /\
  ((w <= 0)%Z -> bx_min (_clamp_bbox b w h) == 0 /\
                 bx_max (_clamp_bbox b w h) == inject_Z w) /\
  ((h <= 0)%Z -> by_min (_clamp_bbox b w h) == 0 /\
                 by_max (_clamp_bbox b w h) == inject_Z h).
Proof.
  split; [|split].
  - apply clamp_bbox_idem_all.
  - intros Hw. destruct (clamp_bbox_x b w h) as [-> ->].
    apply clamp_axis_nonpos. unfold float_of_int.
    change 0 with (inject_Z 0). rewrite <- Zle_Qle. lia.
  - intros Hh. destruct (clamp_bbox_y b w h) as [-> ->].
    apply clamp_axis_nonpos. unfold float_of_int.
    change 0 with (inject_Z 0). rewrite <- Zle_Qle. lia.
Qed.

Lemma clamp_bbox_idempotent_any_witness :
  (0 <= 0)%Z /\
  bx_min (_clamp_bbox (BBox4 3 4 9 8) 0 7) == 0 /\
  bx_max (_clamp_bbox (BBox4 3 4 9 8) 0 7) == inject_Z 0.
Proof.
  split; [lia|].
  apply (proj1 (proj2 (clamp_bbox_idempotent_any (BBox4 3 4 9 8) 0 7))). lia.
Defined.

Lemma save_det_twice (w h : Z) (d : pydict) :
  save_det w h (save_det w h d) = save_det w h d.
Proof.
  destruct (bbox_of_json (py_get "bbox" d)) as [b|] eqn:Eb.
  - destruct (bbox_eqb (_clamp_bbox b w h) b) eqn:Ec.
    + assert (E : save_det w h d = d) by (unfold save_det; now rewrite Eb, Ec).
      now rewrite !E.
    + assert (E : save_det w h d =
                  dict_set "bbox" (json_of_bbox (_clamp_bbox b w h)) d)
        by (unfold save_det; now rewrite Eb, Ec).
      rewrite E. unfold save_det.
      rewrite py_get_set_same, bbox_of_json_of_bbox.
      pose proof (clamp_bbox_idem_all b w h) as Hi.
      apply bbox_eqb_eq in Hi. now rewrite Hi.
  - assert (E : save_det w h d = d) by (unfold save_det; now rewrite Eb).
    now rewrite !E.
Qed.

Lemma dict_set_twice (k : string) (v : json) (d : pydict) :
  dict_set k v (dict_set k v d) = dict_set k v d.
Proof. apply dict_set_get_same. apply dict_get_set_same. Qed.

(** X4.  Saving is idempotent: a second [save] right after the first
    leaves the session as it is and writes the same payload, for every
    session, dirty or not, well-formed or not. *)
Theorem save_idempotent (s : AnnotationSession) :
  save (fst (save s)) = save s.
Proof.
  assert (Em : map (save_det (width s) (height s))
                   (map (save_det (width s) (height s)) (detections s))
               = map (save_det (width s) (height s)) (detections s)).
  { rewrite map_map. apply map_ext. intros d. apply save_det_twice. }
  unfold save. cbv zeta. cbn [fst width height detections payload entry next_id].
  now rewrite Em, dict_set_twice.
Qed.

(** ** Save, then load again *)



Lemma map_JDict_inj (l1 l2 : list pydict) : map JDict l1 = map JDict l2 -> l1 = l2.
Proof.
  revert l2. induction l1 as [|a l1 IH]; intros [|b l2]; cbn; try discriminate.
  - reflexivity.
  - intros [= -> H]. f_equal. now apply IH.
Qed.

(** A list of valid detections, once in a record, loads as itself. *)
Lemma valid_list_loads (e : ImageEntry) (w h : Z) (p : pydict) (dets : list pydict) :
  dict_get "detections" p = Some (JList (map JDict dets)) ->
  Forall (fun d => valid_detection w h (JDict d)) dets ->
  map (save_det w h) dets = dets /\
  exists ld : loaded,
    load e w h (Parsed (JDict p)) = Ok ld /\
    detections (ld_session ld) = dets /\
    dropped_invalid (ld_report ld) = [] /\
    clamped_count (ld_report ld) = 0%Z /\
    dirty (ld_session ld) = false /\
    payload (ld_session ld) = p /\
    ld_written ld = None /\
    next_id (ld_session ld) = (max_id dets + 1)%Z.
Proof.
  intros Hp Hv.
  assert (Hv' : Forall (valid_detection w h) (map JDict dets)).
  { apply Forall_forall. intros x Hx. apply in_map_iff in Hx.
    destruct Hx as (d & <- & Hd). rewrite Forall_forall in Hv. now apply Hv. }
  destruct (valid_entries_kept w h _ Hv') as (K1 & K2 & K3 & K4).
  apply map_JDict_inj in K1. rewrite K1 in K4. split; [exact K4|].
  destruct (load_parsed e w h p)
    as (ld & El & Ed & Edr & Ec & _ & _ & Ewr & _ & _ & En & Edirty & Epay).
  assert (Hraw : raw_detections p = map JDict dets)
    by (unfold raw_detections; now rewrite Hp).
  rewrite Hraw in *. rewrite K1 in *. rewrite K2 in *. rewrite K3 in *.
  exists ld. cbn in Edirty, Epay. now repeat split.
Qed.




Lemma kept_entry_valid (w h : Z) (det : json) (d : pydict) (c : bool) :
  (1 <= w)%Z -> (1 <= h)%Z ->
  examine w h det = Kept d c -> valid_detection w h (JDict d).
Proof.
  intros Hw Hh E.
  destruct (kept_entry_ok w h det d c Hw Hh E) as (b' & Hb' & Hs).
  apply examine_kept in E.
  destruct E as (d0 & b & -> & Hi & Hsc & _ & _ & _ & Hc).
  exists d, b'. split; [reflexivity|].
  assert (Hid : py_get "id" d = py_get "id" d0 /\ py_get "score" d = py_get "score" d0).
  { destruct c; destruct Hc as [_ ->]; [|now split].
    split; now apply py_get_set_other. }
  destruct Hid as [-> ->].
  split; [exact Hi|]. split; [exact Hsc|]. split; [exact Hb'|].
  unfold strictly_in_bounds in Hs. unfold in_bounds. tauto.
Qed.

(** X6.  Repairs are persistent: whatever the stored file of an image at
    least 1 x 1, once the session [load] returned is saved, loading the
    written record returns the same detections with an empty report and a
    clean session; [save] itself changed no detection. *)
Theorem repair_is_persistent
        (e : ImageEntry) (w h : Z) (file : json_file) (ld : loaded) :
  (1 <= w)%Z -> (1 <= h)%Z ->
  load e w h file = Ok ld ->
  detections (fst (save (ld_session ld))) = detections (ld_session ld) /\
  exists ld2 : loaded,
    load e w h (Parsed (JDict (snd (save (ld_session ld))))) = Ok ld2 /\
    detections (ld_session ld2) = detections (ld_session ld) /\
    dropped_invalid (ld_report ld2) = [] /\
    clamped_count (ld_report ld2) = 0%Z /\
    json_parse_failed (ld_report ld2) = false /\
    created_new_json (ld_report ld2) = false /\
    dirty (ld_session ld2) = false /\
    next_id (ld_session ld2) = next_id (ld_session ld).
Proof.
  intros Hw Hh El.
  assert (Hs : width (ld_session ld) = w /\ height (ld_session ld) = h /\
               next_id (ld_session ld) = (max_id (detections (ld_session ld)) + 1)%Z /\
               Forall (fun d => valid_detection w h (JDict d)) (detections (ld_session ld))).
  { destruct file as [| |j].
    - injection El as <-. cbn. repeat split. constructor.
    - injection El as <-. cbn. repeat split. constructor.
    - destruct j as [| | | | | |p]; try discriminate El.
      destruct (load_parsed e w h p)
        as (ld' & El' & Ed & _ & _ & _ & _ & _ & Ew & Eh & En & _).
      rewrite El in El'. injection El' as <-.
      split; [exact Ew|]. split; [exact Eh|]. split; [now rewrite En, Ed|].
      rewrite Ed. apply Forall_forall. intros d Hin.
      apply kept_entries_in in Hin. destruct Hin as (det & c & _ & E).
      now apply (kept_entry_valid w h det d c). }
  destruct Hs as (Ew & Eh & En & Hv).
  assert (Hp : dict_get "detections" (snd (save (ld_session ld)))
               = Some (JList (map JDict (detections (fst (save (ld_session ld))))))).
  { cbn [save snd fst detections]. apply dict_get_set_same. }
  assert (Hsame : detections (fst (save (ld_session ld))) = detections (ld_session ld)).
  { cbn [save fst detections]. rewrite Ew, Eh.
    (* a valid list is a fixed point of the loop of [save] *)
    exact (proj1 (valid_list_loads e w h
                    [("detections", JList (map JDict (detections (ld_session ld))))]
                    _ eq_refl Hv)). }
  split; [exact Hsame|].
  rewrite Hsame in Hp.
  destruct (valid_list_loads e w h _ _ Hp Hv)
    as (_ & ld2 & El2 & Ed2 & Edr & Ec & Edirty & _ & _ & En2).
  exists ld2. split; [exact El2|]. split; [exact Ed2|]. split; [exact Edr|].
  split; [exact Ec|].
  destruct (load_parsed e w h (snd (save (ld_session ld))))
    as (ld3 & El3 & _ & _ & _ & Ecr & Epf & _).
  rewrite El2 in El3. injection El3 as <-.
  split; [exact Epf|]. split; [exact Ecr|]. split; [exact Edirty|].
  now rewrite En2, En.
Qed.

Lemma repair_is_persistent_witness :
  let e := mkImageEntry ["a.png"] "a.png" ["a.json"] in
  let file := Parsed (JDict [("detections",
                              JList [JDict overflowing_entry; JDict degenerate_entry;
                                     JStr "noise"])]) in
  (1 <= 40)%Z /\ (1 <= 40)%Z /\
  exists ld ld2 : loaded,
    load e 40 40 file = Ok ld /\
    dirty (ld_session ld) = true /\
    load e 40 40 (Parsed (JDict (snd (save (ld_session ld))))) = Ok ld2 /\
    detections (ld_session ld2) = [overflowing_entry_clamped] /\
    dirty (ld_session ld2) = false.
Proof.
  intros e file. split; [lia|]. split; [lia|].
  destruct (load e 40 40 file) as [ld|x] eqn:El; [|vm_compute in El; discriminate El].
  destruct (repair_is_persistent e 40 40 file ld) as (_ & ld2 & El2 & Ed2 & _ & _ & _ & _ & Edirty & _);
    [lia | lia | exact El |].
  exists ld, ld2. split; [reflexivity|].
  assert (Eld : detections (ld_session ld) = [overflowing_entry_clamped] /\
                dirty (ld_session ld) = true).
  { vm_compute in El. injection El as <-. now split. }
  split; [exact (proj2 Eld)|]. split; [exact El2|].
  split; [now rewrite Ed2 | exact Edirty].
Defined.

(** ** Adding and deleting *)

(** X7.  In a session whose detections all carry an integer id below
    [next_id], deleting the detection [add_box] just returned undoes the
    addition: the detections are those from before, in order; the id is
    not given back ([next_id] stays advanced) and the session stays dirty. *)
Theorem add_then_delete (s : AnnotationSession) (bbox : bbox4) :
  ids_below (next_id s) (detections s) ->
  Forall (fun d => is_int (py_get "id" d) = true) (detections s) ->
  delete_box (fst (add_box s bbox)) (snd (add_box s bbox)) =
    mkSession (entry s) (width s) (height s) (payload s)
              (detections s) (next_id s + 1)%Z true.
Proof.
  intros B Hint.
  set (det := snd (add_box s bbox)).
  assert (Hfirst : list_remove det (detections s ++ [det]) = Some (detections s ++ [])).
  { apply list_remove_first.
    - apply Forall_forall. intros y Hy. unfold differs_from.
      destruct (py_eqb (JDict y) (JDict det)) eqn:E; [|reflexivity]. exfalso.
      rewrite Forall_forall in Hint. pose proof (Hint y Hy) as Hi.
      unfold is_int in Hi.
      destruct (int_value (py_get "id" y)) as [z|] eqn:Ez; [|discriminate Hi].
      assert (Hz : int_value (py_get "id" det) = Some z)
        by (apply (py_eqb_same_id y det z E Ez); reflexivity).
      cbn in Hz. injection Hz as <-.
      assert (Hin : In (next_id s) (det_ids (detections s))).
      { unfold det_ids. apply in_flat_map. exists y. split; [exact Hy|].
        rewrite Ez. now left. }
      unfold ids_below in B. rewrite Forall_forall in B. specialize (B _ Hin). lia.
    - apply py_eqb_refl. reflexivity. }
  unfold delete_box.
  change (detections (fst (add_box s bbox))) with (detections s ++ [det]).
  rewrite Hfirst, app_nil_r. reflexivity.
Qed.

Lemma add_then_delete_witness :
  let s := mkSession (mkImageEntry ["a.png"] "a.png" ["a.json"]) 40 40
                     [("detections", JList [])]
                     [overflowing_entry_clamped; twin_entry] 5 false in
  ids_below (next_id s) (detections s) /\
  Forall (fun d => is_int (py_get "id" d) = true) (detections s) /\
  detections (delete_box (fst (add_box s (BBox4 1 2 3 4)))
                         (snd (add_box s (BBox4 1 2 3 4)))) = detections s.
Proof.
  intros s.
  assert (B : ids_below (next_id s) (detections s)).
  { unfold ids_below. cbn. repeat constructor. }
  assert (F : Forall (fun d => is_int (py_get "id" d) = true) (detections s)).
  { repeat constructor. }
  split; [exact B|]. split; [exact F|].
  now rewrite (add_then_delete s (BBox4 1 2 3 4) B F).
Defined.

(** ** What a repair touches *)

Lemma dict_set_same_but (v : json) (d : pydict) (old : json) :
  dict_get "bbox" d = Some old ->
  same_but_bbox d (dict_set "bbox" v d).
Proof.
  intros Hold. split.
  - clear - Hold. induction d as [|[k0 v0] d IH];
      cbn [dict_get dict_set] in *; [discriminate|].
    destruct (String.eqb "bbox" k0) eqn:E; cbn [map fst]; [reflexivity|].
    now rewrite IH.
  - intros k Hk. now apply dict_get_set_other.
Qed.

Lemma same_but_bbox_refl (d : pydict) : same_but_bbox d d.
Proof. now split. Qed.

Lemma bbox_present (d : pydict) (b : bbox4) :
  det_bbox d = Some b -> exists old, dict_get "bbox" d = Some old.
Proof.
  unfold det_bbox, py_get. destruct (dict_get "bbox" d) as [v|]; [eauto | discriminate].
Qed.

(** X8.  Neither [load] nor [save] changes anything in a detection but the
    value under ["bbox"]: every detection of a loaded session comes from a
    raw entry of the record with the same keys in the same order and the
    same values elsewhere (id, score, and any extra field), and [save]
    maps the detections one to one in the same way. *)
Theorem repairs_touch_only_bbox :
  (forall (e : ImageEntry) (w h : Z) (p : pydict) (ld : loaded),
     load e w h (Parsed (JDict p)) = Ok ld ->
     Forall (fun d => exists d0 : pydict,
                        In (JDict d0) (raw_detections p) /\ same_but_bbox d0 d)
            (detections (ld_session ld))) /\
  (forall s : AnnotationSession,
     Forall2 same_but_bbox (detections s) (detections (fst (save s)))).
Proof.
  split.
  - intros e w h p ld El.
    destruct (load_parsed e w h p) as (ld' & El' & Ed & _).
    rewrite El in El'. injection El' as <-. rewrite Ed.
    apply Forall_forall. intros d Hin.
    apply kept_entries_in in Hin. destruct Hin as (det & c & Hraw & E).
    apply examine_kept in E.
    destruct E as (d0 & b & -> & _ & _ & Hb & _ & _ & Hc).
    exists d0. split; [exact Hraw|].
    destruct c; destruct Hc as [_ ->]; [|apply same_but_bbox_refl].
    destruct (bbox_present d0 b Hb) as [old Hold].
    now apply dict_set_same_but with old.
  - intros s. cbn [save fst detections].
    induction (detections s) as [|d l IH]; cbn [map]; constructor; [|exact IH].
    unfold save_det.
    destruct (bbox_of_json (py_get "bbox" d)) as [b|] eqn:Eb;
      [|apply same_but_bbox_refl].
    destruct (negb _); [|apply same_but_bbox_refl].
    destruct (bbox_present d b Eb) as [old Hold].
    now apply dict_set_same_but with old.
Qed.

(** ** The report *)

Lemma examine_carries (w h : Z) (det : json) :
  carries_id det = true <-> examine w h det <> Skipped.
Proof.
  unfold carries_id, examine. destruct det as [| | | | | |d]; try (split; [discriminate | congruence]).
  destruct (is_int (py_get "id" d)); cbn [negb]; [|split; [discriminate | congruence]].
  split; [|reflexivity]. intros _.
  destruct (bbox_of_json _); [|discriminate].
  destruct (negb _); [discriminate|]. destruct (_ || _); [discriminate|].
  destruct (negb _); discriminate.
Qed.

(** X9.  The report of [load] accounts for every raw entry that is an
    object with an integer id: each is either kept or listed in
    [dropped_invalid], none is lost silently; [clamped_count] lies between
    0 and the number of kept detections; and the session is dirty exactly
    when something was dropped or clamped. *)
Theorem load_accounting (e : ImageEntry) (w h : Z) (p : pydict) (ld : loaded) :
  load e w h (Parsed (JDict p)) = Ok ld ->
  (List.length (detections (ld_session ld)) +
   List.length (dropped_invalid (ld_report ld)))%nat
    = List.length (filter carries_id (raw_detections p)) /\
  (0 <= clamped_count (ld_report ld)
     <= Z.of_nat (List.length (detections (ld_session ld))))%Z /\
  (dirty (ld_session ld) = false <->
   dropped_invalid (ld_report ld) = [] /\ clamped_count (ld_report ld) = 0%Z).
Proof.
  intros El.
  destruct (load_parsed e w h p)
    as (ld' & El' & Ed & Edr & Ec & _ & _ & _ & _ & _ & _ & Edirty & _).
  rewrite El in El'. injection El' as <-.
  rewrite Ed, Edr, Ec, Edirty. clear.
  split; [|split].
  - unfold kept_entries, dropped_ids.
    induction (raw_detections p) as [|det raw IH]; [reflexivity|].
    cbn [flat_map filter]. rewrite !length_app.
    pose proof (examine_carries w h det) as Hc.
    destruct (examine w h det) as [|det_id|d c] eqn:E.
    + destruct (carries_id det); [exfalso; now apply (proj1 Hc)|]. cbn. exact IH.
    + destruct (carries_id det); [|assert (false = true) by (apply Hc; discriminate);
                                    discriminate].
      cbn [List.length]. lia.
    + destruct (carries_id det); [|assert (false = true) by (apply Hc; discriminate);
                                    discriminate].
      cbn [List.length]. lia.
  - unfold clamp_hits, kept_entries.
    induction (raw_detections p) as [|det raw IH]; [cbn; lia|].
    cbn [flat_map filter]. rewrite length_app.
    destruct (examine w h det) as [|det_id|d [|]]; cbn [List.length app]; lia.
  - destruct (dropped_ids w h (raw_detections p)) as [|x l]; cbn [nonempty orb].
    + destruct (Z.eqb_spec (clamp_hits w h (raw_detections p)) 0) as [E|E]; cbn [negb].
      * split; [now split | reflexivity].
      * split; [discriminate | intros [_ H]; contradiction].
    + split; [discriminate | intros [H _]; discriminate].
Qed.

Lemma load_accounting_witness :
  exists ld : loaded,
    load (mkImageEntry ["a.png"] "a.png" ["a.json"]) 40 40
         (Parsed (JDict [("detections",
                          JList [JDict overflowing_entry; JInt 7;
                                 JDict degenerate_entry;
                                 JDict [("bbox", JNull)]])])) = Ok ld /\
    List.length (detections (ld_session ld)) = 1%nat /\
    List.length (dropped_invalid (ld_report ld)) = 1%nat /\
    (0 <= clamped_count (ld_report ld) <= 1)%Z.
Proof.
  destruct (load (mkImageEntry ["a.png"] "a.png" ["a.json"]) 40 40
                 (Parsed (JDict [("detections",
                                  JList [JDict overflowing_entry; JInt 7;
                                         JDict degenerate_entry;
                                         JDict [("bbox", JNull)]])])))
    as [ld|x] eqn:El; [|vm_compute in El; discriminate El].
  exists ld. split; [reflexivity|].
  destruct (load_accounting _ _ _ _ ld El) as (_ & H2 & _).
  assert (Eld : List.length (detections (ld_session ld)) = 1%nat /\
                List.length (dropped_invalid (ld_report ld)) = 1%nat).
  { vm_compute in El. injection El as <-. now split. }
  destruct Eld as [E1 E2]. rewrite E1 in H2.
  split; [exact E1|]. split; [exact E2 | exact H2].
Defined.

(* ================================================================== *)
(** * Further properties of the canvas *)

(** ** Drawing a new box *)










(** ** Dragging a handle *)








Lemma clamp_inside (v low high : Q) :
  low <= v -> v <= high -> _clamp v low high == v.
Proof. intros H1 H2. qcases; lra. Qed.

(** X13.  Inside its limits the handle goes where the pointer is: for a
    valid item, a proposed position that already meets the bounds of its
    corner is returned unchanged by [constrain_handle], and constraining a
    constrained position changes nothing more. *)
Theorem constrain_handle_follows_pointer (it : BBoxItem) (c : corner) (pos : QPointF) :
  valid_item it ->
  (handle_within it c pos ->
   pt_x (constrain_handle it c pos) == pt_x pos /\
   pt_y (constrain_handle it c pos) == pt_y pos) /\
  pt_x (constrain_handle it c (constrain_handle it c pos))
    == pt_x (constrain_handle it c pos) /\
  pt_y (constrain_handle it c (constrain_handle it c pos))
    == pt_y (constrain_handle it c pos).
Proof.
  intros V.
  assert (Hfix : forall p, handle_within it c p ->
                 pt_x (constrain_handle it c p) == pt_x p /\
                 pt_y (constrain_handle it c p) == pt_y p).
  { intros p Hp. destruct V as (Hm & _).
    unfold handle_within, constrain_handle, float_of_int in *.
    destruct c; cbn [pt_x pt_y]; destruct Hp as (P1 & P2 & P3 & P4);
      split; apply clamp_inside; lra. }
  split; [apply Hfix|].
  apply Hfix. now apply constrain_handle_within.
Qed.

Lemma constrain_handle_follows_pointer_witness :
  let it := mkBBoxItem [] 10 10 1 (mkPoint 2 3) (mkPoint 8 9) (mkRect 2 3 6 6) in
  valid_item it /\ handle_within it tl (mkPoint 5 (7 # 2)) /\
  pt_x (constrain_handle it tl (mkPoint 5 (7 # 2))) == 5.
Proof.
  intros it.
  assert (V : valid_item it).
  { unfold valid_item, Qle, Qeq. cbn. repeat split; lia. }
  assert (Hp : handle_within it tl (mkPoint 5 (7 # 2))).
  { unfold handle_within, Qle. cbn. repeat split; lia. }
  split; [exact V|]. split; [exact Hp|].
  exact (proj1 (proj1 (constrain_handle_follows_pointer it tl (mkPoint 5 (7 # 2)) V) Hp)).
Defined.

(** ** The canvas index *)

Lemma last_with_id_snoc (z : Z) (items : list pydict) (d : pydict) :
  last_with_id z (items ++ [d]) =
    match int_value (py_get "id" d) with
    | Some z' => if Z.eqb z z' then Some (List.length items) else last_with_id z items
    | None => last_with_id z items
    end.
Proof.
  induction items as [|x items IH]; cbn [app last_with_id List.length].
  - destruct (int_value (py_get "id" d)) as [z'|]; [|reflexivity].
    now destruct (Z.eqb z z').
  - rewrite IH. destruct (int_value (py_get "id" d)) as [z'|]; [|reflexivity].
    destruct (Z.eqb z z'); [reflexivity|]. reflexivity.
Qed.

Lemma set_boxes_loop_index (dets items : list pydict) (index : list (Z * nat)) :
  (forall z, idict_get z index = last_with_id z items) ->
  fst (set_boxes_loop dets items index)
    = items ++ filter (fun d => is_int (py_get "id" d)) dets /\
  forall z, idict_get z (snd (set_boxes_loop dets items index))
            = last_with_id z (fst (set_boxes_loop dets items index)).
Proof.
  revert items index. induction dets as [|det dets IH]; intros items index H.
  - cbn. rewrite app_nil_r. now split.
  - cbn [set_boxes_loop filter]. unfold is_int.
    destruct (int_value (py_get "id" det)) as [z0|] eqn:Ez.
    + destruct (IH (items ++ [det]) (idict_set z0 (List.length items) index)) as [E1 E2].
      * intros z. rewrite idict_get_set, last_with_id_snoc, Ez. now rewrite H.
      * split; [|exact E2]. rewrite E1, <- app_assoc. reflexivity.
    + now apply IH.
Qed.

(** X14.  [set_boxes] gives an item to every detection with an integer
    id, in the order of the list, and to no other; its id index answers,
    for every id, with the last item carrying that id (a later duplicate
    shadows an earlier one) and with nothing for an id no item carries;
    no item is selected afterwards. *)
Theorem set_boxes_index (dets : list pydict) (w : MainWindow) :
  canvas_items (set_boxes dets w) = filter (fun d => is_int (py_get "id" d)) dets /\
  (forall z : Z,
     idict_get z (_det_to_item (set_boxes dets w))
       = last_with_id z (canvas_items (set_boxes dets w))) /\
  scene_selection (set_boxes dets w) = [] /\
  boxes_model (set_boxes dets w) = boxes_model w.
Proof.
  destruct (set_boxes_loop_index dets [] []) as [E1 E2]; [reflexivity|].
  unfold set_boxes. destruct (set_boxes_loop dets [] []) as [items index].
  cbn in *. now repeat split.
Qed.

(* ================================================================== *)
(** * Further properties of the list model *)

Lemma remove_by_index (det : pydict) (l : list pydict) :
  match index_of det l with
  | Some row => list_remove det l = Some (list_pop row l)
  | None => list_remove det l = None
  end.
Proof.
  induction l as [|y l IH]; cbn [index_of list_remove]; [reflexivity|].
  destruct (py_eqb (JDict y) (JDict det)); [reflexivity|].
  destruct (index_of det l) as [n|]; rewrite IH; reflexivity.
Qed.

(** X15.  The list model stays in step with the session.  When the model
    holds the session's detections, [remove_detection] on the model and
    [delete_box] on the session remove the same row (or both do nothing),
    and [append_detection] with the detection [add_box] returned adds the
    same last row; so the model holds the session's detections again
    afterwards. *)
Theorem list_model_in_step (s : AnnotationSession) (rows : list pydict) :
  rows = detections s ->
  (forall det : pydict,
     remove_detection det rows = detections (delete_box s det)) /\
  (forall bbox : bbox4,
     append_detection (snd (add_box s bbox)) rows = detections (fst (add_box s bbox))).
Proof.
  intros ->. split; [|reflexivity].
  intros det. unfold remove_detection, delete_box.
  pose proof (remove_by_index det (detections s)) as H.
  destruct (index_of det (detections s)) as [row|]; rewrite H; reflexivity.
Qed.

Lemma list_model_in_step_witness :
  let s := mkSession (mkImageEntry ["a.png"] "a.png" ["a.json"]) 40 40
                     [("detections", JList [])]
                     [overflowing_entry_clamped; twin_entry; twin_entry] 5 false in
  detections s = detections s /\
  remove_detection twin_entry (detections s) = [overflowing_entry_clamped; twin_entry] /\
  remove_detection degenerate_entry (detections s) = detections s.
Proof.
  intros s.
  destruct (list_model_in_step s (detections s) eq_refl) as [H _].
  split; [reflexivity|]. split.
  - rewrite (H twin_entry). reflexivity.
  - rewrite (H degenerate_entry). reflexivity.
Defined.

Lemma repairs_touch_only_bbox_witness :
  let s := mkSession (mkImageEntry ["a.png"] "a.png" ["a.json"]) 40 40
                     [("detections", JList [])]
                     [overflowing_entry ++ [("label", JStr "person")]] 5 false in
  Forall2 same_but_bbox (detections s) (detections (fst (save s))) /\
  detections (fst (save s)) = [overflowing_entry_clamped ++ [("label", JStr "person")]].
Proof.
  intros s. split; [|reflexivity].
  exact (proj2 repairs_touch_only_bbox s).
Defined.

(* ------------------------------------------------------------------ *)
(** ** Further properties of the header reader *)

Lemma byte_of_Z_value (z : Z) :
  Z.of_N (Byte.to_N (byte_of_Z z)) = (z mod 256)%Z.
Proof.
  assert (Hm : (0 <= z mod 256 < 256)%Z) by (apply Z.mod_pos_bound; lia).
  unfold byte_of_Z.
  destruct (Byte.of_N (Z.to_N (z mod 256))) as [b|] eqn:E.
  - apply Byte.to_of_N in E. rewrite E. apply Z2N.id. lia.
  - apply Byte.of_N_None_iff in E. lia.
Qed.

Lemma byte_value_bound (b : Byte.byte) : (0 <= Z.of_N (Byte.to_N b) < 256)%Z.
Proof. pose proof (Byte.to_N_bounded b). lia. Qed.

Lemma be_value_be16 (v : Z) :
  (0 <= v < 65536)%Z -> be_value (be16 v) = v.
Proof.
  intros Hv. unfold be_value, be16. cbn [fold_left].
  rewrite !byte_of_Z_value. 
  Z.div_mod_to_equations. lia.
Qed.

Lemma be_value_be32 (v : Z) :
  (0 <= v < 4294967296)%Z -> be_value (be32 v) = v.
Proof.
  intros Hv. unfold be_value, be32. cbn [fold_left].
  rewrite !byte_of_Z_value.
  Z.div_mod_to_equations. lia.
Qed.

Lemma be_value_2_bound (a b : Byte.byte) : (0 <= be_value [a; b] < 65536)%Z.
Proof.
  unfold be_value. cbn [fold_left].
  pose proof (byte_value_bound a). pose proof (byte_value_bound b). lia.
Qed.

Lemma be_value_4_bound (a b c d : Byte.byte) :
  (0 <= be_value [a; b; c; d] < 4294967296)%Z.
Proof.
  unfold be_value. cbn [fold_left].
  pose proof (byte_value_bound a). pose proof (byte_value_bound b).
  pose proof (byte_value_bound c). pose proof (byte_value_bound d). lia.
Qed.

Lemma byte_eqb_eq (a b : Byte.byte) : Byte.eqb a b = true -> a = b.
Proof. apply Byte.byte_dec_bl. Qed.

Lemma byte_eqb_refl (a : Byte.byte) : Byte.eqb a a = true.
Proof. now apply Byte.byte_dec_lb. Qed.

Lemma read_marker_length (f : bytes) :
  (List.length (snd (read_marker f)) <= List.length f)%nat.
Proof.
  induction f as [|b f IH]; cbn [read_marker]; [cbn; lia|].
  destruct (Byte.eqb b Byte.xff); cbn [snd List.length] in *; lia.
Qed.

Lemma jpeg_scan_returns (budget : nat) :
  forall f, (List.length f < budget)%nat -> exists r, jpeg_scan budget f = Some r.
Proof.
  induction budget as [|n IH]; intros f Hf; [lia|].
  cbn [jpeg_scan].
  destruct f as [|prefix f1]; [eauto|].
  destruct (negb (Byte.eqb prefix Byte.xff)); [eauto|].
  pose proof (read_marker_length f1) as Hm.
  destruct (read_marker f1) as [marker f2]. cbn [snd List.length] in *.
  destruct (marker_is _ marker); [apply IH; lia|].
  unfold read. cbn [fst].
  destruct (negb _); [eauto|].
  destruct (_ <? 2)%Z; [eauto|].
  destruct (marker_is is_sof marker).
  - destruct (firstn 5 (skipn 2 f2)) as [|? [|? [|? [|? [|? [|? ?]]]]]]; eauto.
  - apply IH. rewrite !length_skipn. lia.
Qed.

Lemma jpeg_scan_budget (n : nat) :
  forall f r m, jpeg_scan n f = Some r -> (n <= m)%nat -> jpeg_scan m f = Some r.
Proof.
  induction n as [|n IH]; intros f r m E Hm; [discriminate|].
  destruct m as [|m]; [lia|].
  cbn [jpeg_scan] in *.
  destruct f as [|prefix f1]; [exact E|].
  destruct (negb (Byte.eqb prefix Byte.xff)); [exact E|].
  destruct (read_marker f1) as [marker f2].
  destruct (marker_is _ marker); [apply IH; [exact E|lia]|].
  unfold read in *. cbn [fst] in *.
  destruct (negb _); [exact E|].
  destruct (_ <? 2)%Z; [exact E|].
  destruct (marker_is is_sof marker); [exact E|].
  apply IH; [exact E|lia].
Qed.

Lemma jpeg_scan_range (n : nat) :
  forall f w h, jpeg_scan n f = Some (Size w h) ->
    (0 <= w < 65536)%Z /\ (0 <= h < 65536)%Z.
Proof.
  induction n as [|n IH]; intros f w h E; [discriminate|].
  cbn [jpeg_scan] in E.
  destruct f as [|prefix f1]; [discriminate|].
  destruct (negb (Byte.eqb prefix Byte.xff)); [discriminate|].
  destruct (read_marker f1) as [marker f2].
  destruct (marker_is _ marker); [now apply IH in E|].
  unfold read in E. cbn [fst] in E.
  destruct (negb _); [discriminate|].
  destruct (_ <? 2)%Z; [discriminate|].
  destruct (marker_is is_sof marker); [|now apply IH in E].
  destruct (firstn 5 (skipn 2 f2)) as [|? [|h1 [|h2 [|w1 [|w2 [|? ?]]]]]];
    try discriminate.
  injection E as <- <-. split; apply be_value_2_bound.
Qed.

Lemma is_sof_marker (m : Byte.byte) :
  is_sof m = true ->
  Byte.eqb m Byte.xff = false /\ Byte.eqb m Byte.xd8 = false /\
  Byte.eqb m Byte.xd9 = false.
Proof.
  intros H.
  repeat split.
  all: destruct (Byte.eqb m _) eqn:E; [|reflexivity].
  all: apply byte_eqb_eq in E; subst m; discriminate H.
Qed.

Lemma jpeg_scan_skips (n : nat) (seg : Byte.byte * bytes) (tail : bytes) :
  skipped_segment seg ->
  jpeg_scan (S n) (jpeg_segment seg ++ tail) = jpeg_scan n tail.
Proof.
  destruct seg as [m data]. intros (Hff & Hd8 & Hd9 & Hsof & Hlen).
  cbn [fst snd] in *.
  unfold jpeg_segment. cbn [fst snd app be16].
  cbn [jpeg_scan read_marker]. rewrite Hff.
  cbn [Byte.eqb negb]. 
  replace (negb (Byte.eqb Byte.xff Byte.xff)) with false by reflexivity.
  cbn [marker_is]. rewrite Hd8, Hd9. cbn [orb].
  unfold read. cbn [firstn skipn fst List.length Nat.eqb negb].
  change [byte_of_Z ((Z.of_nat (List.length data) + 2) / 256);
          byte_of_Z (Z.of_nat (List.length data) + 2)]
    with (be16 (Z.of_nat (List.length data) + 2)).
  rewrite be_value_be16 by lia.
  destruct (Z.ltb_spec (Z.of_nat (List.length data) + 2) 2) as [Hlt|_]; [lia|].
  rewrite Hsof.
  replace (Z.to_nat (Z.of_nat (List.length data) + 2 - 2)) with (List.length data) by lia.
  now rewrite skipn_app, skipn_all, Nat.sub_diag.
Qed.

Lemma jpeg_scan_frame (n : nat) (ms precision : Byte.byte) (L w h : Z) (tail : bytes) :
  is_sof ms = true ->
  (2 <= L < 65536)%Z -> (0 <= w < 65536)%Z -> (0 <= h < 65536)%Z ->
  jpeg_scan (S n)
    ([Byte.xff; ms] ++ be16 L ++ [precision] ++ be16 h ++ be16 w ++ tail)
  = Some (Size w h).
Proof.
  intros Hsof HL Hw Hh.
  destruct (is_sof_marker ms Hsof) as (Hff & Hd8 & Hd9).
  cbn [app be16].
  cbn [jpeg_scan read_marker]. rewrite Hff.
  replace (negb (Byte.eqb Byte.xff Byte.xff)) with false by reflexivity.
  cbn [marker_is]. rewrite Hd8, Hd9. cbn [orb].
  unfold read. cbn [firstn skipn fst List.length Nat.eqb negb].
  change [byte_of_Z (L / 256); byte_of_Z L] with (be16 L).
  change [byte_of_Z (w / 256); byte_of_Z w] with (be16 w).
  change [byte_of_Z (h / 256); byte_of_Z h] with (be16 h).
  rewrite be_value_be16 by lia.
  destruct (Z.ltb_spec L 2) as [Hlt|_]; [lia|].
  rewrite Hsof. now rewrite !be_value_be16 by lia.
Qed.

Lemma jpeg_scan_segments (segs : list (Byte.byte * bytes)) :
  forall n tail, Forall skipped_segment segs ->
    jpeg_scan (List.length segs + n) (List.concat (map jpeg_segment segs) ++ tail)
    = jpeg_scan n tail.
Proof.
  induction segs as [|seg segs IH]; intros n tail Hs; [reflexivity|].
  cbn [List.length map List.concat Nat.add]. rewrite <- app_assoc.
  rewrite jpeg_scan_skips by exact (Forall_inv Hs).
  apply IH. exact (Forall_inv_tail Hs).
Qed.

Lemma jpeg_segment_length (seg : Byte.byte * bytes) :
  (1 <= List.length (jpeg_segment seg))%nat.
Proof. unfold jpeg_segment. cbn. lia. Qed.

Lemma concat_segments_length (segs : list (Byte.byte * bytes)) :
  (List.length segs <= List.length (List.concat (map jpeg_segment segs)))%nat.
Proof.
  induction segs as [|seg segs IH]; [cbn; lia|].
  cbn [map List.concat List.length]. rewrite length_app.
  pose proof (jpeg_segment_length seg). lia.
Qed.

Lemma contains_app (needle before after : bytes) :
  starts_with needle after = true -> contains needle (before ++ after) = true.
Proof.
  intros H. induction before as [|b before IH].
  - destruct after; cbn [app contains]; rewrite H; reflexivity.
  - cbn [app contains]. rewrite IH. apply orb_true_r.
Qed.

(** X16: the header of a PNG file is read back.  A file that starts with
    the PNG signature, the length of the first chunk (at least 8), the
    chunk type IHDR and the big-endian width and height gives exactly that
    width and height, whatever follows: the header is not checked any
    further, and a width or height of 0 is returned like any other. *)
Theorem png_header_roundtrip (L w h : Z) (rest : bytes) :
  (8 <= L < 4294967296)%Z ->
  (0 <= w < 4294967296)%Z -> (0 <= h < 4294967296)%Z ->
  _get_image_size_without_pillow
    (png_signature ++ be32 L ++ IHDR ++ be32 w ++ be32 h ++ rest)
  = Some (Size w h).
Proof.
  intros HL Hw Hh.
  unfold _get_image_size_without_pillow, read.
  cbn [png_signature IHDR be32 app fst].
  repeat rewrite ?firstn_cons, ?firstn_O, ?skipn_cons, ?skipn_O.
  match goal with
  | |- context [contains ?needle (?a :: ?b :: ?c :: ?d :: ?e :: ?f :: ?g :: ?i ::
                                  ?l1 :: ?l2 :: ?l3 :: ?l4 :: ?after)] =>
      replace (contains needle (a :: b :: c :: d :: e :: f :: g :: i ::
                                l1 :: l2 :: l3 :: l4 :: after))
        with true
        by (symmetry;
            exact (contains_app needle [a; b; c; d; e; f; g; i; l1; l2; l3; l4]
                     after eq_refl))
  end.
  replace (starts_with _ _) with true by reflexivity.
  cbn [andb List.length Nat.eqb negb].
  replace (bytes_eqb _ _) with true by reflexivity.
  cbn [negb].
  change [byte_of_Z (L / 16777216); byte_of_Z (L / 65536); byte_of_Z (L / 256); byte_of_Z L]
    with (be32 L).
  rewrite be_value_be32 by lia.
  rewrite firstn_firstn.
  replace (Nat.min 8 (Z.to_nat L)) with 8%nat by lia.
  rewrite !firstn_cons, firstn_O.
  change [byte_of_Z (w / 16777216); byte_of_Z (w / 65536); byte_of_Z (w / 256); byte_of_Z w]
    with (be32 w).
  change [byte_of_Z (h / 16777216); byte_of_Z (h / 65536); byte_of_Z (h / 256); byte_of_Z h]
    with (be32 h).
  now rewrite !be_value_be32 by lia.
Qed.

Lemma png_header_roundtrip_witness :
  _get_image_size_without_pillow
    (png_signature ++ be32 13 ++ IHDR ++ be32 640 ++ be32 0 ++ [Byte.x08; Byte.x02])
  = Some (Size 640 0).
Proof. apply png_header_roundtrip; lia. Defined.

(** X17: the size of a JPEG file is that of its first start-of-frame
    segment.  After the SOI marker, any number of segments whose marker is
    not a start-of-frame (nor SOI, EOI or a fill byte) are stepped over by
    their length field, and the first segment with a start-of-frame marker
    gives the size: its height field first, its width field second,
    returned as (width, height); what follows is not read. *)
Theorem jpeg_size_of_first_frame
  (segs : list (Byte.byte * bytes)) (ms precision : Byte.byte)
  (L w h : Z) (rest : bytes) :
  Forall skipped_segment segs ->
  is_sof ms = true ->
  (2 <= L < 65536)%Z -> (0 <= w < 65536)%Z -> (0 <= h < 65536)%Z ->
  _get_image_size_without_pillow
    ([Byte.xff; Byte.xd8] ++ List.concat (map jpeg_segment segs) ++
     [Byte.xff; ms] ++ be16 L ++ [precision] ++ be16 h ++ be16 w ++ rest)
  = Some (Size w h).
Proof.
  intros Hs Hsof HL Hw Hh.
  unfold _get_image_size_without_pillow, _get_jpeg_size, read.
  cbn [app fst].
  repeat rewrite ?firstn_cons, ?firstn_O, ?skipn_cons, ?skipn_O.
  replace (starts_with png_signature _) with false by reflexivity.
  cbn [andb].
  replace (bytes_eqb _ _) with true by reflexivity.
  cbn [negb].
  set (tail := Byte.xff :: ms :: _).
  apply jpeg_scan_budget with (n := (List.length segs + 1)%nat).
  - rewrite jpeg_scan_segments by exact Hs.
    apply (jpeg_scan_frame 0 ms precision L w h rest); assumption.
  - rewrite length_app. pose proof (concat_segments_length segs).
    subst tail. cbn [List.length]. lia.
Qed.

Lemma jpeg_size_of_first_frame_witness :
  _get_image_size_without_pillow
    ([Byte.xff; Byte.xd8] ++
     List.concat (map jpeg_segment
       [(Byte.xe0, [Byte.x4a; Byte.x46; Byte.x49; Byte.x46; Byte.x00]);
        (Byte.xc4, [Byte.x00; Byte.x01])]) ++
     [Byte.xff; Byte.xc2] ++ be16 17 ++ [Byte.x08] ++ be16 480 ++ be16 640 ++ [])
  = Some (Size 640 480).
Proof.
  apply jpeg_size_of_first_frame; try lia; try reflexivity.
  repeat constructor; cbn; lia.
Defined.

(** X18: the header reader answers for every file content, and what it
    answers is a size of two numbers from 0 to 2^32 - 1 or one of its
    errors.  In particular the marker loop of [_get_jpeg_size] ends on
    every input, also on a truncated or malformed one: each pass consumes
    at least two bytes. *)
Theorem image_size_total (content : bytes) :
  exists r, _get_image_size_without_pillow content = Some r /\
    forall w h, r = Size w h ->
      (0 <= w < 4294967296)%Z /\ (0 <= h < 4294967296)%Z.
Proof.
  unfold _get_image_size_without_pillow, read. cbn [fst].
  destruct (_ && _).
  - destruct (negb _).
    { eexists; split; [reflexivity|discriminate]. }
    destruct (negb _).
    { eexists; split; [reflexivity|discriminate]. }
    destruct (firstn 8 _) as [|w1 [|w2 [|w3 [|w4 [|h1 [|h2 [|h3 [|h4 [|? ?]]]]]]]]];
      try (eexists; split; [reflexivity|discriminate]).
    eexists; split; [reflexivity|].
    intros w h E. injection E as <- <-. split; apply be_value_4_bound.
  - destruct (bytes_eqb _ _).
    2:{ eexists; split; [reflexivity|discriminate]. }
    unfold _get_jpeg_size, read.
    destruct (negb _).
    { eexists; split; [reflexivity|discriminate]. }
    destruct (jpeg_scan_returns (S (List.length (skipn 2 content))) (skipn 2 content))
      as [r Hr]; [lia|].
    exists r. split; [exact Hr|].
    intros w h ->. apply jpeg_scan_range in Hr. lia.
Qed.

Lemma starts_with_prefix (prefix data : bytes) :
  starts_with prefix data = true ->
  data = prefix ++ skipn (List.length prefix) data.
Proof.
  revert data. induction prefix as [|x prefix IH]; intros data H; [reflexivity|].
  destruct data as [|y data]; [discriminate|].
  cbn [starts_with] in H. apply andb_true_iff in H. destruct H as [E H].
  apply byte_eqb_eq in E. subst y.
  cbn [List.length skipn app]. f_equal. now apply IH.
Qed.

Lemma bytes_eqb_eq (a b : bytes) : bytes_eqb a b = true -> a = b.
Proof.
  revert b. induction a as [|x a IH]; intros [|y b] H; try discriminate; [reflexivity|].
  cbn [bytes_eqb] in H. apply andb_true_iff in H. destruct H as [E H].
  apply byte_eqb_eq in E. subst y. f_equal. now apply IH.
Qed.

(** X19.  A size read from a file with the PNG signature comes from an
    IHDR chunk at the head of the file: such a file consists of the
    signature, four length bytes that encode at least 8, the chunk type
    IHDR and eight more bytes, and the size returned is the big-endian
    value of the first four of these (the width) and of the last four
    (the height).  A file with the signature is never read as a JPEG. *)
Theorem png_size_sound (content : bytes) (w h : Z) :
  starts_with png_signature content = true ->
  _get_image_size_without_pillow content = Some (Size w h) ->
  exists length_bytes width_bytes height_bytes rest : bytes,
    content = png_signature ++ length_bytes ++ IHDR ++ width_bytes ++ height_bytes ++ rest /\
    List.length length_bytes = 4%nat /\
    List.length width_bytes = 4%nat /\
    List.length height_bytes = 4%nat /\
    (8 <= be_value length_bytes)%Z /\
    w = be_value width_bytes /\ h = be_value height_bytes.
Proof.
  intros Hs E.
  apply starts_with_prefix in Hs. cbn [png_signature List.length app] in Hs.
  set (t := skipn 8 content) in Hs.
  unfold _get_image_size_without_pillow, read in E. cbn [fst] in E.
  fold t in E.
  assert (Hj : bytes_eqb (firstn 2 (firstn 32 content)) [Byte.xff; Byte.xd8] = false).
  { rewrite Hs. reflexivity. }
  rewrite Hj in E.
  destruct (_ && _); [|discriminate].
  destruct (negb (Nat.eqb (List.length (firstn 4 t)) 4)) eqn:E4; [discriminate|].
  apply negb_false_iff, Nat.eqb_eq in E4.
  destruct (negb (bytes_eqb _ IHDR)) eqn:Ec; [discriminate|].
  apply negb_false_iff, bytes_eqb_eq in Ec.
  set (f3 := skipn 4 (skipn 4 t)) in *.
  set (n := Z.to_nat (be_value (firstn 4 t))) in *.
  destruct (firstn 8 (firstn n f3))
    as [|w1 [|w2 [|w3 [|w4 [|h1 [|h2 [|h3 [|h4 [|? ?]]]]]]]]] eqn:Ed;
    try discriminate.
  injection E as <- <-.
  rewrite firstn_firstn in Ed.
  assert (Hn : (8 <= n)%nat).
  { apply (f_equal (@List.length _)) in Ed. rewrite length_firstn in Ed.
    cbn [List.length] in Ed. lia. }
  replace (Nat.min 8 n) with 8%nat in Ed by lia.
  exists (firstn 4 t), [w1; w2; w3; w4], [h1; h2; h3; h4], (skipn 8 f3).
  split.
  - rewrite Hs at 1. cbn [png_signature app]. do 8 f_equal.
    rewrite <- (firstn_skipn 4 t) at 1. f_equal.
    rewrite <- (firstn_skipn 4 (skipn 4 t)) at 1. rewrite Ec. f_equal.
    fold f3. rewrite <- (firstn_skipn 8 f3) at 1. rewrite Ed. reflexivity.
  - split; [exact E4|]. split; [reflexivity|]. split; [reflexivity|].
    split; [|split; reflexivity].
    unfold n in Hn. lia.
Qed.

Lemma png_size_sound_witness :
  exists length_bytes width_bytes height_bytes rest : bytes,
    png_signature ++ be32 13 ++ IHDR ++ be32 640 ++ be32 480 ++ [Byte.x08]
    = png_signature ++ length_bytes ++ IHDR ++ width_bytes ++ height_bytes ++ rest /\
    List.length length_bytes = 4%nat /\
    List.length width_bytes = 4%nat /\
    List.length height_bytes = 4%nat /\
    (8 <= be_value length_bytes)%Z /\
    640%Z = be_value width_bytes /\ 480%Z = be_value height_bytes.
Proof.
  apply (png_size_sound
           (png_signature ++ be32 13 ++ IHDR ++ be32 640 ++ be32 480 ++ [Byte.x08])
           640 480); reflexivity.
Defined.

(** X23.  A JPEG file that ends before any start-of-frame segment gives
    no size: after the SOI marker and any number of segments that are
    stepped over, the end of the file is reported as an invalid marker,
    the error of a byte that is not 0xFF. *)
Theorem jpeg_without_frame (segs : list (Byte.byte * bytes)) :
  Forall skipped_segment segs ->
  _get_image_size_without_pillow
    ([Byte.xff; Byte.xd8] ++ List.concat (map jpeg_segment segs))
  = Some (SizeError InvalidJPEGMarker).
Proof.
  intros Hs.
  unfold _get_image_size_without_pillow, _get_jpeg_size, read.
  cbn [app fst].
  repeat rewrite ?firstn_cons, ?firstn_O, ?skipn_cons, ?skipn_O.
  replace (starts_with png_signature _) with false by reflexivity.
  cbn [andb].
  replace (bytes_eqb _ _) with true by reflexivity.
  cbn [negb].
  apply jpeg_scan_budget with (n := (List.length segs + 1)%nat).
  - rewrite <- (app_nil_r (List.concat (map jpeg_segment segs))).
    rewrite jpeg_scan_segments by exact Hs. reflexivity.
  - pose proof (concat_segments_length segs). lia.
Qed.

Lemma jpeg_without_frame_witness :
  _get_image_size_without_pillow
    ([Byte.xff; Byte.xd8] ++
     List.concat (map jpeg_segment [(Byte.xe0, [Byte.x4a; Byte.x46]); (Byte.xdb, [])]))
  = Some (SizeError InvalidJPEGMarker).
Proof.
  apply jpeg_without_frame. repeat constructor; cbn; lia.
Defined.

(* ------------------------------------------------------------------ *)
(** ** Further properties of the detector output and of the record
       the pipeline writes *)

Lemma insert_by_score_perm (x : prediction) (l : list prediction) :
  Permutation (insert_by_score x l) (x :: l).
Proof.
  induction l as [|y l IH]; cbn [insert_by_score]; [reflexivity|].
  destruct (Qlt_bool (snd y) (snd x)); [reflexivity|].
  rewrite IH. apply perm_swap.
Qed.

Lemma sort_fold_perm (l acc : list prediction) :
  Permutation (fold_left (fun acc x => insert_by_score x acc) l acc) (acc ++ l).
Proof.
  revert acc. induction l as [|x l IH]; intros acc; cbn [fold_left].
  - now rewrite app_nil_r.
  - rewrite IH, insert_by_score_perm.
    change (x :: acc ++ l) with ((x :: acc) ++ l).
    rewrite (Permutation_middle acc l x). reflexivity.
Qed.

Lemma sort_by_score_perm (l : list prediction) : Permutation (sort_by_score l) l.
Proof. unfold sort_by_score. now rewrite sort_fold_perm. Qed.

Lemma insert_by_score_sorted (x : prediction) (l : list prediction) :
  StronglySorted by_score l -> StronglySorted by_score (insert_by_score x l).
Proof.
  induction 1 as [|y l S IH F]; cbn [insert_by_score].
  - constructor; constructor.
  - destruct (Qlt_bool (snd y) (snd x)) eqn:E.
    + apply Qlt_bool_true in E.
      constructor; [now constructor|].
      constructor; [unfold by_score; lra|].
      eapply Forall_impl; [|exact F]. unfold by_score. intros z Hz. lra.
    + apply Qlt_bool_false in E.
      constructor; [exact IH|].
      eapply Permutation_Forall; [symmetry; apply insert_by_score_perm|].
      constructor; [exact E | exact F].
Qed.

Lemma sort_fold_sorted (l acc : list prediction) :
  StronglySorted by_score acc ->
  StronglySorted by_score (fold_left (fun acc x => insert_by_score x acc) l acc).
Proof.
  revert acc. induction l as [|x l IH]; intros acc S; cbn [fold_left]; [exact S|].
  apply IH. now apply insert_by_score_sorted.
Qed.

Lemma sort_by_score_sorted (l : list prediction) :
  StronglySorted by_score (sort_by_score l).
Proof. apply sort_fold_sorted. constructor. Qed.

Lemma insert_by_score_split (x : prediction) (l : list prediction) :
  exists l1 l2,
    l = l1 ++ l2 /\ insert_by_score x l = l1 ++ x :: l2 /\
    Forall (fun y => snd x <= snd y) l1 /\
    (StronglySorted by_score l -> Forall (fun y => snd y < snd x) l2).
Proof.
  induction l as [|y l IH]; cbn [insert_by_score].
  - exists [], []. repeat split; constructor.
  - destruct (Qlt_bool (snd y) (snd x)) eqn:E.
    + apply Qlt_bool_true in E.
      exists [], (y :: l). split; [reflexivity|]. split; [reflexivity|].
      split; [constructor|].
      intros S. apply StronglySorted_inv in S. destruct S as [_ F].
      constructor; [exact E|].
      eapply Forall_impl; [|exact F]. unfold by_score. intros z Hz. lra.
    + apply Qlt_bool_false in E.
      destruct IH as (l1 & l2 & -> & -> & F1 & F2).
      exists (y :: l1), l2. split; [reflexivity|]. split; [reflexivity|].
      split; [now constructor|].
      intros S. apply StronglySorted_inv in S. now apply F2.
Qed.

(** Predictions of one score keep their order. *)
Lemma insert_by_score_stable (s : Q) (x : prediction) (l : list prediction) :
  StronglySorted by_score l ->
  filter (same_score s) (insert_by_score x l)
  = filter (same_score s) (l ++ [x]).
Proof.
  intros S.
  destruct (insert_by_score_split x l) as (l1 & l2 & -> & -> & _ & F2).
  specialize (F2 S).
  set (same := same_score s).
  assert (Ex : same x = true -> filter same l2 = []).
  { intros Ex. unfold same, same_score in Ex. apply Qeq_bool_iff in Ex. clear S.
    induction F2 as [|y l2 Hy F2 IH]; [reflexivity|].
    cbn [filter]. destruct (same y) eqn:Ey; [|exact IH].
    unfold same, same_score in Ey. apply Qeq_bool_iff in Ey. lra. }
  rewrite <- app_assoc.
  change (l1 ++ x :: l2) with (l1 ++ [x] ++ l2).
  rewrite !filter_app. f_equal.
  cbn [filter]. destruct (same x).
  - rewrite Ex by reflexivity. now rewrite app_nil_r.
  - now rewrite app_nil_r.
Qed.

Lemma sort_fold_stable (s : Q) (l acc : list prediction) :
  StronglySorted by_score acc ->
  filter (same_score s)
         (fold_left (fun acc x => insert_by_score x acc) l acc)
  = filter (same_score s) (acc ++ l).
Proof.
  revert acc. induction l as [|x l IH]; intros acc S; cbn [fold_left].
  - now rewrite app_nil_r.
  - rewrite IH by now apply insert_by_score_sorted.
    rewrite filter_app, insert_by_score_stable by exact S.
    rewrite <- filter_app, <- app_assoc. reflexivity.
Qed.

Lemma sorted_app_inv (l1 l2 : list prediction) :
  StronglySorted by_score (l1 ++ l2) ->
  StronglySorted by_score l1 /\
  Forall (fun c => Forall (fun a => snd c <= snd a) l1) l2.
Proof.
  induction l1 as [|a l1 IH]; cbn [app]; intros S.
  - split; [constructor|]. apply Forall_forall. intros; constructor.
  - apply StronglySorted_inv in S. destruct S as [S F].
    destruct (IH S) as [S1 F1]. apply Forall_app in F. destruct F as [Fa Fb].
    split; [now constructor|].
    rewrite Forall_forall in *. intros c Hc.
    constructor; [exact (Fb c Hc) | exact (F1 c Hc)].
Qed.

Lemma enumerate_ids (l : list prediction) :
  forall i, map base.id (enumerate_detections i l) = count_from i (List.length l).
Proof.
  induction l as [|[b s] l IH]; intros i; cbn; [reflexivity|]. now rewrite IH.
Qed.

Lemma enumerate_predictions (l : list prediction) :
  forall i, map prediction_of (enumerate_detections i l) = l.
Proof.
  induction l as [|[b s] l IH]; intros i; cbn; [reflexivity|]. now rewrite IH.
Qed.

Lemma enumerate_length (l : list prediction) :
  forall i, List.length (enumerate_detections i l) = List.length l.
Proof.
  intros i. now rewrite <- (length_map prediction_of), enumerate_predictions.
Qed.

Lemma ranked_enumerate (l : list prediction) :
  forall i, StronglySorted by_score l -> ranked (enumerate_detections i l).
Proof.
  unfold ranked.
  induction l as [|[b s] l IH]; intros i S; cbn [enumerate_detections]; constructor.
  - apply IH. now apply StronglySorted_inv in S.
  - apply StronglySorted_inv in S. destruct S as [_ F].
    apply Forall_forall. intros d Hd.
    assert (Hin : In (prediction_of d) l).
    { rewrite <- (enumerate_predictions l (i + 1)). now apply in_map. }
    rewrite Forall_forall in F. exact (F _ Hin).
Qed.

Lemma count_from_NoDup (len : nat) : forall n, NoDup (count_from n len).
Proof.
  induction len as [|len IH]; intros n; cbn [count_from]; constructor; [|apply IH].
  intros Hin. pose proof (count_from_ge (n + 1) len) as G.
  rewrite Forall_forall in G. specialize (G _ Hin). lia.
Qed.

Lemma py_slice_to_firstn {A : Type} (stop : Z) (l : list A) :
  (0 < stop)%Z -> py_slice_to stop l = firstn (Z.to_nat stop) l.
Proof.
  intros H. unfold py_slice_to.
  destruct (Z.ltb_spec stop 0); [lia | reflexivity].
Qed.

(** X20.  What the detector returns for the persons it found, with
    [max_det > 0] as the configuration check demands: the detections are
    ranked by score, highest first, and the id of each is its rank, 0 for
    the best; at most [max_det] are returned; the ones left out score no
    higher than any that is returned; nothing is invented, and
    predictions of equal score keep the order in which they were found.
    Without slicing, when [max_det] does not cut, the full-image path
    returns the same list. *)
Theorem detector_ranking (max_det : Z) (preds : list prediction) :
  (0 < max_det)%Z ->
  let out := sahi_detections max_det preds in
  map base.id out = count_from 0 (List.length out) /\
  NoDup (map base.id out) /\
  List.length out = Nat.min (Z.to_nat max_det) (List.length preds) /\
  ranked out /\
  (exists cut : list prediction,
     Permutation (map prediction_of out ++ cut) preds /\
     Forall (fun c => Forall (fun d => snd c <= base.score d) out) cut /\
     forall s, filter (same_score s) preds
               = filter (same_score s) (map prediction_of out ++ cut)) /\
  ((List.length preds <= Z.to_nat max_det)%nat -> out = full_image_detections preds).
Proof.
  intros Hm out. subst out. unfold sahi_detections, full_image_detections.
  rewrite py_slice_to_firstn by exact Hm.
  set (k := Z.to_nat max_det). set (sorted := sort_by_score preds).
  assert (Hlen : List.length sorted = List.length preds).
  { apply Permutation_length, sort_by_score_perm. }
  pose proof (sort_by_score_sorted preds) as S. fold sorted in S.
  rewrite <- (firstn_skipn k sorted) in S.
  destruct (sorted_app_inv _ _ S) as [S1 Fcut].
  split; [|split; [|split; [|split; [|split]]]].
  - now rewrite enumerate_ids, enumerate_length.
  - rewrite enumerate_ids. apply count_from_NoDup.
  - now rewrite enumerate_length, length_firstn, Hlen.
  - now apply ranked_enumerate.
  - exists (skipn k sorted). rewrite enumerate_predictions, firstn_skipn.
    split; [apply sort_by_score_perm|]. split.
    + eapply Forall_impl; [|exact Fcut]. cbn beta. intros c Hc.
      apply Forall_forall. intros d Hd.
      rewrite Forall_forall in Hc. apply (Hc (prediction_of d)).
      rewrite <- (enumerate_predictions (firstn k sorted) 0). now apply in_map.
    + intros s. unfold sorted, sort_by_score.
      now rewrite sort_fold_stable by constructor.
  - intros Hk. now rewrite firstn_all2 by lia.
Qed.

Lemma detector_ranking_witness :
  let preds := [ (BBox4 0 0 4 4, 1 # 2); (BBox4 1 1 5 5, 9 # 10);
                 (BBox4 2 2 6 6, 1 # 2); (BBox4 3 3 7 7, 1 # 10) ] in
  (0 < 3)%Z /\
  sahi_detections 3 preds =
    [ base.mkDetection 0 (BBox4 1 1 5 5) (9 # 10);
      base.mkDetection 1 (BBox4 0 0 4 4) (1 # 2);
      base.mkDetection 2 (BBox4 2 2 6 6) (1 # 2) ] /\
  ranked (sahi_detections 3 preds).
Proof.
  split; [lia|]. split; [reflexivity|].
  apply (detector_ranking 3); lia.
Defined.

Lemma examine_written (w h : Z) (det : base.Detection) :
  examine w h (JDict (detection_record det)) =
    if degenerate (base.bbox det) then Dropped (JInt (base.id det))
    else Kept (detection_record (reloaded w h det))
              (negb (bbox_eqb (_clamp_bbox (base.bbox det) w h) (base.bbox det))).
Proof.
  unfold examine, reloaded, degenerate.
  change (py_get "id" (detection_record det)) with (JInt (base.id det)).
  change (py_get "bbox" (detection_record det)) with (json_of_bbox (base.bbox det)).
  change (py_get "score" (detection_record det)) with (JFloat (base.score det)).
  rewrite bbox_of_json_of_bbox.
  change (negb (is_int (JInt (base.id det)))) with false.
  change (negb (is_number (JFloat (base.score det)))) with false.
  cbv iota.
  destruct (_ || _); [reflexivity|].
  destruct (bbox_eqb _ _); reflexivity.
Qed.

Lemma raw_written (fn rp : string) (w h : Z) (dets : list base.Detection)
    (extra : option pydict) :
  raw_detections (write_per_image_json fn rp w h dets extra)
  = map (fun det => JDict (detection_record det)) dets.
Proof. destruct extra as [[|kv rest]|]; reflexivity. Qed.

Lemma kept_entries_written (w h : Z) (dets : list base.Detection) :
  kept_entries w h (map (fun det => JDict (detection_record det)) dets)
  = map detection_record
        (map (reloaded w h) (filter (fun d => negb (degenerate (base.bbox d))) dets)).
Proof.
  unfold kept_entries.
  induction dets as [|d dets IH]; [reflexivity|].
  cbn [map flat_map filter]. rewrite IH, examine_written.
  destruct (degenerate (base.bbox d)); reflexivity.
Qed.

Lemma dropped_ids_written (w h : Z) (dets : list base.Detection) :
  dropped_ids w h (map (fun det => JDict (detection_record det)) dets)
  = map (fun d => JInt (base.id d)) (filter (fun d => degenerate (base.bbox d)) dets).
Proof.
  unfold dropped_ids.
  induction dets as [|d dets IH]; [reflexivity|].
  cbn [map flat_map filter]. rewrite IH, examine_written.
  destruct (degenerate (base.bbox d)); reflexivity.
Qed.

Lemma clamp_hits_written (w h : Z) (dets : list base.Detection) :
  Forall (fun d => in_bounds (base.bbox d) w h) dets ->
  clamp_hits w h (map (fun det => JDict (detection_record det)) dets) = 0%Z.
Proof.
  unfold clamp_hits. intros F.
  induction F as [|d dets Hd F IH]; [reflexivity|].
  cbn [map filter]. rewrite examine_written.
  destruct (degenerate (base.bbox d)); [exact IH|].
  apply clamp_bbox_fix in Hd.
  assert (E : bbox_eqb (_clamp_bbox (base.bbox d) w h) (base.bbox d) = true).
  { destruct Hd as (H1 & H2 & H3 & H4). unfold bbox_eqb.
    now rewrite !andb_true_iff, !Qeq_bool_iff. }
  rewrite E. exact IH.
Qed.

Lemma in_bounds_kept (w h : Z) (dets : list base.Detection) :
  Forall (fun d => in_bounds (base.bbox d) w h) dets ->
  map (reloaded w h) (filter (fun d => negb (degenerate (base.bbox d))) dets) = dets /\
  filter (fun d => degenerate (base.bbox d)) dets = [].
Proof.
  induction 1 as [|d dets Hd F [IH1 IH2]]; [split; reflexivity|].
  cbn [filter].
  assert (Eg : degenerate (base.bbox d) = false).
  { destruct Hd as (_ & _ & _ & _ & H5 & H6). unfold degenerate.
    apply orb_false_iff. split.
    - destruct (Qle_bool _ _) eqn:E; [|reflexivity]. apply Qle_bool_iff in E. lra.
    - destruct (Qle_bool _ _) eqn:E; [|reflexivity]. apply Qle_bool_iff in E. lra. }
  rewrite Eg. cbn [negb map]. rewrite IH1, IH2. split; [|reflexivity].
  f_equal. unfold reloaded.
  apply clamp_bbox_fix in Hd. destruct Hd as (H1 & H2 & H3 & H4).
  assert (E : bbox_eqb (_clamp_bbox (base.bbox d) w h) (base.bbox d) = true).
  { unfold bbox_eqb. now rewrite !andb_true_iff, !Qeq_bool_iff. }
  cbv zeta. now rewrite E.
Qed.

Lemma det_ids_records (dets : list base.Detection) :
  det_ids (map detection_record dets) = map base.id dets.
Proof.
  unfold det_ids. induction dets as [|d dets IH]; [reflexivity|].
  cbn [map flat_map]. rewrite IH. reflexivity.
Qed.

Lemma fold_max_count_from (len : nat) :
  forall a : Z, fold_left Z.max (count_from (a + 1) len) a = (a + Z.of_nat len)%Z.
Proof.
  induction len as [|len IH]; intros a; cbn [count_from fold_left]; [lia|].
  replace (Z.max a (a + 1)) with (a + 1)%Z by lia. rewrite IH. lia.
Qed.

Lemma max_id_ranked (dets : list base.Detection) :
  map base.id dets = count_from 0 (List.length dets) ->
  (max_id (map detection_record dets) + 1)%Z = Z.of_nat (List.length dets).
Proof.
  intros E. unfold max_id. rewrite det_ids_records, E.
  destruct (List.length dets) as [|n]; [reflexivity|].
  cbn [count_from]. rewrite (fold_max_count_from n 0). lia.
Qed.

(** X21.  A record written by the pipeline is read by the annotation tool
    without raising and without losing an entry silently: the session
    holds, in the written order, every detection whose box is not
    degenerate, clamped where [load] clamps and otherwise as written, and
    the report lists the ids of the others.  When every written box lies
    inside the image with a width and a height of at least 1, the session
    holds exactly the written detections, nothing is reported, the
    session is clean and its payload is the written one; with the ids
    0..n-1 of the detector the next id is n.  The size the record states
    plays no part: [load] uses the size of the image it is given. *)
Theorem pipeline_record_loads (e : ImageEntry) (fn rp : string) (w0 h0 w h : Z)
    (dets : list base.Detection) (extra : option pydict) :
  exists ld : loaded,
    load e w h (Parsed (JDict (write_per_image_json fn rp w0 h0 dets extra))) = Ok ld /\
    detections (ld_session ld) =
      map detection_record
          (map (reloaded w h) (filter (fun d => negb (degenerate (base.bbox d))) dets)) /\
    dropped_invalid (ld_report ld) =
      map (fun d => JInt (base.id d)) (filter (fun d => degenerate (base.bbox d)) dets) /\
    (Forall (fun d => in_bounds (base.bbox d) w h) dets ->
     detections (ld_session ld) = map detection_record dets /\
     dropped_invalid (ld_report ld) = [] /\
     clamped_count (ld_report ld) = 0%Z /\
     dirty (ld_session ld) = false /\
     payload (ld_session ld) = write_per_image_json fn rp w0 h0 dets extra /\
     (map base.id dets = count_from 0 (List.length dets) ->
      next_id (ld_session ld) = Z.of_nat (List.length dets))).
Proof.
  destruct (load_parsed e w h (write_per_image_json fn rp w0 h0 dets extra))
    as (ld & El & Ed & Edr & Ec & _ & _ & _ & _ & _ & En & Edirty & Ep).
  rewrite raw_written in *.
  rewrite kept_entries_written in Ed, En, Ep.
  rewrite dropped_ids_written in Edr, Edirty, Ep.
  exists ld. split; [exact El|]. split; [exact Ed|]. split; [exact Edr|].
  intros F. destruct (in_bounds_kept w h dets F) as [Ek Eg].
  rewrite Ek in Ed, En. rewrite Eg in Edr, Edirty, Ep.
  rewrite (clamp_hits_written w h dets F) in Ec, Edirty.
  split; [exact Ed|]. split; [exact Edr|]. split; [exact Ec|].
  split; [exact Edirty|]. split; [exact Ep|].
  intros Ei. rewrite En. now apply max_id_ranked.
Qed.

Lemma pipeline_record_loads_witness :
  let dets := [ base.mkDetection 0 (BBox4 1 1 5 5) (9 # 10);
                base.mkDetection 1 (BBox4 0 0 4 4) (1 # 2) ] in
  Forall (fun d => in_bounds (base.bbox d) 8 8) dets /\
  exists ld : loaded,
    load (mkImageEntry [] "" []) 8 8
         (Parsed (JDict (write_per_image_json "a.png" "a.png" 8 8 dets None))) = Ok ld /\
    detections (ld_session ld) = map detection_record dets /\
    next_id (ld_session ld) = 2%Z.
Proof.
  intros dets.
  assert (F : Forall (fun d => in_bounds (base.bbox d) 8 8) dets).
  { repeat constructor; unfold Qle; cbn; lia. }
  split; [exact F|].
  destruct (pipeline_record_loads (mkImageEntry [] "" []) "a.png" "a.png" 8 8 8 8 dets None)
    as (ld & El & _ & _ & H).
  destruct (H F) as (Ed & _ & _ & _ & _ & En).
  exists ld. split; [exact El|]. split; [exact Ed|]. now apply En.
Defined.

Lemma py_eqb_dict (d e : pydict) :
  py_eqb (JDict d) (JDict e)
  = Nat.eqb (List.length d) (List.length e) && dict_sub_by py_eqb e d.
Proof. reflexivity. Qed.

Lemma record_eqb_id (a b : base.Detection) :
  py_eqb (JDict (detection_record a)) (JDict (detection_record b)) = true ->
  base.id a = base.id b.
Proof.
  rewrite py_eqb_dict. unfold detection_record.
  cbn [List.length Nat.eqb andb dict_sub_by].
  change (dict_get "id" _) with (Some (JInt (base.id b))).
  cbv iota. intros H. apply andb_true_iff in H. destruct H as [H _].
  change (py_eqb (JInt (base.id a)) (JInt (base.id b)))
    with (Qeq_bool (float_of_int (base.id a)) (float_of_int (base.id b))) in H.
  apply Qeq_bool_iff in H. unfold float_of_int, Qeq in H. cbn in H. lia.
Qed.

Lemma record_eqb_refl (a : base.Detection) :
  py_eqb (JDict (detection_record a)) (JDict (detection_record a)) = true.
Proof. apply py_eqb_refl. reflexivity. Qed.

Lemma NoDup_map_filter {A : Type} (f : A -> Z) (p : A -> bool) (l : list A) :
  NoDup (map f l) -> NoDup (map f (filter p l)).
Proof.
  induction l as [|x l IH]; cbn [map filter]; intros N; [constructor|].
  apply NoDup_cons_iff in N. destruct N as [Hx N].
  destruct (p x); [|now apply IH].
  cbn [map]. constructor; [|now apply IH].
  intros Hin. apply Hx. apply in_map_iff in Hin. destruct Hin as (y & Ey & Hy).
  apply in_map_iff. exists y. split; [exact Ey|].
  apply filter_In in Hy. tauto.
Qed.

Lemma reloaded_id (w h : Z) (d : base.Detection) :
  base.id (reloaded w h d) = base.id d.
Proof. unfold reloaded. cbv zeta. now destruct (bbox_eqb _ _). Qed.

Lemma records_differ (a : base.Detection) (L : list base.Detection) :
  ~ In (base.id a) (map base.id L) ->
  Forall (differs_from (detection_record a)) (map detection_record L).
Proof.
  intros Hn. apply Forall_forall. intros y Hy.
  apply in_map_iff in Hy. destruct Hy as (b & <- & Hb).
  unfold differs_from.
  destruct (py_eqb _ _) eqn:E; [|reflexivity].
  apply record_eqb_id in E. exfalso. apply Hn.
  rewrite <- E. now apply in_map.
Qed.

(** X22.  In a session loaded from a record the pipeline wrote for
    detections of distinct ids, as the detector numbers them, no two
    detections are equal: deleting a detection of the session removes
    that very entry, keeps the others in order, marks the session dirty,
    and leaves no detection equal to the deleted one, so that deleting
    it once more changes nothing. *)
Theorem pipeline_session_delete (e : ImageEntry) (fn rp : string) (w0 h0 w h : Z)
    (dets : list base.Detection) (extra : option pydict) (ld : loaded)
    (l1 l2 : list pydict) (det : pydict) :
  NoDup (map base.id dets) ->
  load e w h (Parsed (JDict (write_per_image_json fn rp w0 h0 dets extra))) = Ok ld ->
  detections (ld_session ld) = l1 ++ det :: l2 ->
  let s := ld_session ld in
  delete_box s det =
    mkSession (entry s) (width s) (height s) (payload s) (l1 ++ l2) (next_id s) true /\
  Forall (differs_from det) (l1 ++ l2) /\
  delete_box (delete_box s det) det = delete_box s det.
Proof.
  intros N El Es s.
  destruct (load_parsed e w h (write_per_image_json fn rp w0 h0 dets extra))
    as (ld' & El' & Ed & _).
  rewrite El in El'. injection El' as <-.
  rewrite raw_written, kept_entries_written in Ed.
  set (L := map (reloaded w h) _) in Ed.
  assert (NL : NoDup (map base.id L)).
  { unfold L. rewrite map_map.
    rewrite (map_ext _ base.id (reloaded_id w h)).
    now apply NoDup_map_filter. }
  rewrite Es in Ed. symmetry in Ed.
  apply map_eq_app in Ed. destruct Ed as (L1 & L2' & EL & <- & E2).
  destruct L2' as [|a L2]; [discriminate|].
  cbn [map] in E2. injection E2 as <- <-.
  rewrite EL, map_app in NL. cbn [map] in NL.
  apply NoDup_remove in NL. destruct NL as [_ Hn].
  rewrite <- map_app in Hn.
  assert (F : Forall (differs_from (detection_record a))
                     (map detection_record L1 ++ map detection_record L2)).
  { rewrite <- map_app. now apply records_differ. }
  assert (F1 : Forall (differs_from (detection_record a)) (map detection_record L1)).
  { apply Forall_app in F. tauto. }
  assert (D : delete_box s (detection_record a) =
              mkSession (entry s) (width s) (height s) (payload s)
                (map detection_record L1 ++ map detection_record L2) (next_id s) true).
  { unfold delete_box. fold s in Es. rewrite Es.
    now rewrite (list_remove_first _ _ _ _ F1 (record_eqb_refl a)). }
  split; [exact D|]. split; [exact F|].
  rewrite D. unfold delete_box at 1. cbn [detections].
  apply list_remove_none in F. now rewrite F.
Qed.

Lemma pipeline_session_delete_witness :
  let dets := sahi_detections 3 [ (BBox4 0 0 4 4, 1 # 2); (BBox4 1 1 5 5, 9 # 10) ] in
  let e := mkImageEntry [] "" [] in
  exists ld : loaded,
    load e 8 8 (Parsed (JDict (write_per_image_json "a.png" "a.png" 8 8 dets None))) = Ok ld /\
    detections (delete_box (ld_session ld) (detection_record (base.mkDetection 0 (BBox4 1 1 5 5) (9 # 10))))
    = [detection_record (base.mkDetection 1 (BBox4 0 0 4 4) (1 # 2))].
Proof.
  intros dets e.
  destruct (load e 8 8 (Parsed (JDict (write_per_image_json "a.png" "a.png" 8 8 dets None))))
    as [ld|x] eqn:El; [|vm_compute in El; discriminate El].
  exists ld. split; [reflexivity|].
  assert (N : NoDup (map base.id dets)).
  { vm_compute. repeat constructor; cbn; intuition lia. }
  assert (Es : detections (ld_session ld) =
               [] ++ detection_record (base.mkDetection 0 (BBox4 1 1 5 5) (9 # 10))
                  :: [detection_record (base.mkDetection 1 (BBox4 0 0 4 4) (1 # 2))]).
  { vm_compute in El. injection El as <-. reflexivity. }
  destruct (pipeline_session_delete e "a.png" "a.png" 8 8 8 8 dets None ld _ _ _ N El Es)
    as [D _].
  rewrite D. reflexivity.
Defined.
